(** * CosmosControlSensor: a shallow embedding of the annotation logic

    The development follows
    [Unreal/CarlaUE4/Plugins/Carla/Source/Carla/Sensor/CosmosControlSensor.{h,cpp}]:
    the render configuration and its loader, the tag-to-colour classifier and
    the per-tick annotation pass [PostPhysTick] (dynamic objects, stop lines,
    lane and boundary splines, crosswalk polygons, stencils).

    Conventions.
    - C++ [float] is IEEE-754 binary32, [double] is binary64; both are modelled
      with the Standard Library's [spec_float] at the matching precision, so
      every arithmetic step rounds as the machine does.
    - [int32] values (lane ids, road ids) are integers in [Z]; arithmetic on
      them is written with its wrap-around.
    - What the host engine answers to a query during one tick (actor lists,
      component bounds, the road map) is data of a [UWorld] snapshot.
    - A call of one of the sensor's [DrawDebug*] methods is recorded as one
      [DrawCall] in the batch it goes to. *)

From Stdlib Require Import ZArith List Bool String Ascii Lia.
From Stdlib Require Import Floats.SpecFloat.
Import ListNotations.

Local Open Scope Z_scope.

#[local] Set Warnings "-register-all".

(* ------------------------------------------------------------------ *)
(** ** Machine numbers *)

(** C++ [float]: binary32. *)
Module F32.
Definition prec : Z := 24.
Definition emax : Z := 128.

Definition float : Type := spec_float.

(** An integer literal such as [710.0f]. *)
Definition of_Z (n : Z) : float := binary_normalize prec emax n 0 false.

Definition zero : float := S754_zero false.

Definition add (a b : float) : float := SFadd prec emax a b.
Definition sub (a b : float) : float := SFsub prec emax a b.
Definition mul (a b : float) : float := SFmul prec emax a b.
Definition div (a b : float) : float := SFdiv prec emax a b.
Definition opp (a : float) : float := SFopp a.

(** [a > b], [a == b]; both are false as soon as one side is NaN. *)
Definition gtb (a b : float) : bool := SFltb b a.
Definition eqb (a b : float) : bool := SFeqb a b.

(** [fmax]: the larger argument; a NaN argument is ignored when the other
    one is a number. *)
Definition fmax (a b : float) : float :=
  match SFcompare a b with
  | Some Lt => b
  | Some _ => a
  | None => match a with S754_nan => b | _ => a end
  end.

(** The literals [0.5f] and [0.1f] (the latter is the binary32 number
    nearest to one tenth). *)
Definition half : float := binary_normalize prec emax 1 (-1) false.
Definition tenth : float := div (of_Z 1) (of_Z 10).
End F32.

(** C++ [double]: binary64, and the two narrowing conversions the sensor
    performs on JSON numbers. *)
Module F64.
Definition prec : Z := 53.
Definition emax : Z := 1024.

Definition double : Type := spec_float.

Definition of_Z (n : Z) : double := binary_normalize prec emax n 0 false.
Definition zero : double := S754_zero false.
Definition mul (a b : double) : double := SFmul prec emax a b.

(** [double] to [float]: round to nearest, ties to even. *)
Definition to_float (d : double) : F32.float :=
  match d with
  | S754_finite s m e => binary_round F32.prec F32.emax s m e
  | _ => d
  end.

(** Truncation toward zero of a finite value; 0 for the others. *)
Definition truncate (d : double) : Z :=
  match d with
  | S754_finite s m e =>
      let mag := match e with
                 | Zneg p => Z.shiftr (Zpos m) (Zpos p)
                 | _ => Z.shiftl (Zpos m) e
                 end in
      if s then - mag else mag
  | _ => 0
  end.

(** [double] to [uint8]: exact for values that truncate into 0..255; for
    the others the model keeps the low byte of the truncation. *)
Definition to_uint8 (d : double) : Z := (truncate d) mod 256.
End F64.

Abbreviation float := F32.float.
Abbreviation double := F64.double.

(** [int32] wrap-around: the representative of [n] in [-2^31, 2^31). *)
Definition wrap32 (n : Z) : Z := (n + 2147483648) mod 4294967296 - 2147483648.
Definition add32 (a b : Z) : Z := wrap32 (a + b).
Definition mul32 (a b : Z) : Z := wrap32 (a * b).

(* ------------------------------------------------------------------ *)
(** ** Engine value types *)

Record FVector : Type := mkVector { VecX : float; VecY : float; VecZ : float }.

Definition vec_add (a b : FVector) : FVector :=
  mkVector (F32.add (VecX a) (VecX b)) (F32.add (VecY a) (VecY b))
           (F32.add (VecZ a) (VecZ b)).

Definition vec_sub (a b : FVector) : FVector :=
  mkVector (F32.sub (VecX a) (VecX b)) (F32.sub (VecY a) (VecY b))
           (F32.sub (VecZ a) (VecZ b)).

(** [V * Scale] and [Scale * V]. *)
Definition vec_scale (s : float) (v : FVector) : FVector :=
  mkVector (F32.mul (VecX v) s) (F32.mul (VecY v) s) (F32.mul (VecZ v) s).

(** [FVector::DotProduct], [A | B]. *)
Definition vec_dot (a b : FVector) : float :=
  F32.add (F32.add (F32.mul (VecX a) (VecX b)) (F32.mul (VecY a) (VecY b)))
          (F32.mul (VecZ a) (VecZ b)).

Record FQuat : Type :=
  mkQuat { QuatX : float; QuatY : float; QuatZ : float; QuatW : float }.

(** [FQuat::Identity]. *)
Definition FQuat_Identity : FQuat :=
  mkQuat F32.zero F32.zero F32.zero (F32.of_Z 1).

(** [FColor]: four [uint8] channels. *)
Record FColor : Type :=
  mkColor { ColorR : Z; ColorG : Z; ColorB : Z; ColorA : Z }.

(** [FColor::White]. *)
Definition FColor_White : FColor := mkColor 255 255 255 255.

Record FBoxSphereBounds : Type := mkBounds {
  Origin : FVector;
  BoxExtent : FVector;
  SphereRadius : float
}.

(** [FString::Contains] with its default [ESearchCase::IgnoreCase]. *)
Definition to_lower (c : ascii) : ascii :=
  let n := nat_of_ascii c in
  if (Nat.leb 65 n && Nat.leb n 90)%bool then ascii_of_nat (n + 32) else c.

Fixpoint lower (s : string) : string :=
  match s with
  | EmptyString => EmptyString
  | String c r => String (to_lower c) (lower r)
  end.

Fixpoint contains_from (sub s : string) : bool :=
  (String.prefix sub s ||
   match s with
   | EmptyString => false
   | String _ r => contains_from sub r
   end)%bool.

Definition FString_Contains (s sub : string) : bool :=
  match sub with
  | EmptyString => false
  | _ => contains_from (lower sub) (lower s)
  end.

(** [FString] equality, which ignores case (it is what keys a [TMap] of
    [FString]). *)
Definition FString_eqb (a b : string) : bool := String.eqb (lower a) (lower b).

(* ------------------------------------------------------------------ *)
(** ** The render configuration (CosmosControlSensor.h) *)

Record CosmosRenderConfig : Type := mkRenderConfig {
  RoadLineThickness : float;
  VehicleBoxThickness : float;
  PoleThickness : float;
  StopLineThickness : float;
  LaneLinesColor : FColor;
  RoadBoundariesColor : FColor;
  WaitLinesColor : FColor;
  CrosswalksColor : FColor;
  RoadMarkingsColor : FColor;
  TrafficSignsColor : FColor;
  TrafficLightsColor : FColor;
  CarsColor : FColor;
  TrucksColor : FColor;
  PedestriansColor : FColor;
  CyclistsColor : FColor;
  PolesColor : FColor
}.

(** The member initialisers of the struct. *)
Definition DefaultRenderConfig : CosmosRenderConfig := {|
  RoadLineThickness := F32.of_Z 8;
  VehicleBoxThickness := F32.of_Z 5;
  PoleThickness := F32.of_Z 8;
  StopLineThickness := F32.of_Z 8;
  LaneLinesColor := mkColor 98 183 249 255;
  RoadBoundariesColor := mkColor 200 36 35 255;
  WaitLinesColor := mkColor 185 63 34 255;
  CrosswalksColor := mkColor 206 131 63 255;
  RoadMarkingsColor := mkColor 126 204 205 255;
  TrafficSignsColor := mkColor 131 175 155 255;
  TrafficLightsColor := mkColor 252 157 155 255;
  CarsColor := mkColor 255 0 0 255;
  TrucksColor := mkColor 0 0 255 255;
  PedestriansColor := mkColor 0 255 0 255;
  CyclistsColor := mkColor 255 255 0 255;
  PolesColor := mkColor 66 40 144 255
|}.

(* ------------------------------------------------------------------ *)
(** ** The semantic classifier *)

(** Modelled from the spec: the enumeration [carla::rpc::CityObjectLabel] is
    declared outside the given sources.  The ten labels the sensor names are
    kept; every other label of the enumeration is [OtherLabel], told apart
    by its numeric code. *)
Inductive CityObjectLabel : Type :=
| TrafficLight
| TrafficSigns
| Poles
| Car
| Bus
| Motorcycle
| Train
| Truck
| Bicycle
| Pedestrians
| OtherLabel (code : Z).

Definition GetColorByTag (RenderConfig : CosmosRenderConfig)
                         (Tag : CityObjectLabel) : FColor :=
  match Tag with
  | TrafficLight => TrafficLightsColor RenderConfig
  | TrafficSigns => TrafficSignsColor RenderConfig
  | Poles => PolesColor RenderConfig
  | Car | Bus | Motorcycle | Train => CarsColor RenderConfig
  | Truck => TrucksColor RenderConfig
  | Bicycle => CyclistsColor RenderConfig
  | Pedestrians => PedestriansColor RenderConfig
  | OtherLabel _ => FColor_White
  end.

(* ------------------------------------------------------------------ *)
(** ** Configuration loading *)

(** The engine's JSON document model ([FJsonValue], [FJsonObject]).  An
    object is its list of fields; a field is found by its name, case
    ignored. *)
Inductive FJsonValue : Type :=
| JsonNull
| JsonString (s : string)
| JsonNumber (d : double)
| JsonBoolean (b : bool)
| JsonArray (elems : list FJsonValue)
| JsonObject (fields : list (string * FJsonValue)).

Definition FJsonObject : Type := list (string * FJsonValue).

Fixpoint FindField (obj : FJsonObject) (FieldName : string) : option FJsonValue :=
  match obj with
  | [] => None
  | (k, v) :: rest => if FString_eqb k FieldName then Some v else FindField rest FieldName
  end.

(** What [LoadConfigFromFile] finds on disk: no file, a file that cannot be
    read, or text that deserialises to an object or fails to. *)
Inductive ConfigFile : Type :=
| FileMissing
| FileUnreadable
| FileText (parsed : option FJsonObject).

Section LoadConfig.

(** The engine's reading of a JSON string as a number. *)
Variable StringAsNumber : string -> double.

(** [FJsonValue::AsNumber]: the number of a numeric value, 1 or 0 for a
    boolean, and 0.0 (after an error message) for null, arrays and
    objects. *)
Definition AsNumber (v : FJsonValue) : double :=
  match v with
  | JsonNumber d => d
  | JsonBoolean b => if b then F64.of_Z 1 else F64.zero
  | JsonString s => StringAsNumber s
  | _ => F64.zero
  end.

(** [FJsonObject::GetNumberField]: the field read with [AsNumber]; a field
    that is not there reads as a null value, hence as 0.0. *)
Definition GetNumberField (obj : FJsonObject) (FieldName : string) : double :=
  match FindField obj FieldName with
  | Some v => AsNumber v
  | None => AsNumber JsonNull
  end.

(** [FJsonObject::GetObjectField]: the object held by the field; for a
    field that is missing or of another type, the engine's shared empty
    object.  The pointer it returns is valid in both cases. *)
Definition GetObjectField (obj : FJsonObject) (FieldName : string)
  : option FJsonObject :=
  match FindField obj FieldName with
  | Some (JsonObject fields) => Some fields
  | _ => Some []
  end.

(** [FJsonObject::TryGetArrayField]. *)
Definition TryGetArrayField (obj : FJsonObject) (FieldName : string)
  : option (list FJsonValue) :=
  match FindField obj FieldName with
  | Some (JsonArray elems) => Some elems
  | _ => None
  end.

(** The [LoadColor] lambda: the colour is replaced only by an array of
    exactly three elements. *)
Definition LoadColor (Colors : FJsonObject) (Key : string) (Color : FColor)
  : FColor :=
  match TryGetArrayField Colors Key with
  | Some [c0; c1; c2] =>
      mkColor (F64.to_uint8 (AsNumber c0)) (F64.to_uint8 (AsNumber c1))
              (F64.to_uint8 (AsNumber c2)) 255
  | _ => Color
  end.

Definition LoadThickness (Thickness : FJsonObject) (c : CosmosRenderConfig)
  : CosmosRenderConfig :=
  {| RoadLineThickness := F64.to_float (GetNumberField Thickness "road_lines");
     VehicleBoxThickness := F64.to_float (GetNumberField Thickness "vehicle_boxes");
     PoleThickness := F64.to_float (GetNumberField Thickness "poles");
     StopLineThickness := F64.to_float (GetNumberField Thickness "stop_lines");
     LaneLinesColor := LaneLinesColor c;
     RoadBoundariesColor := RoadBoundariesColor c;
     WaitLinesColor := WaitLinesColor c;
     CrosswalksColor := CrosswalksColor c;
     RoadMarkingsColor := RoadMarkingsColor c;
     TrafficSignsColor := TrafficSignsColor c;
     TrafficLightsColor := TrafficLightsColor c;
     CarsColor := CarsColor c;
     TrucksColor := TrucksColor c;
     PedestriansColor := PedestriansColor c;
     CyclistsColor := CyclistsColor c;
     PolesColor := PolesColor c |}.

Definition LoadColors (Colors : FJsonObject) (c : CosmosRenderConfig)
  : CosmosRenderConfig :=
  {| RoadLineThickness := RoadLineThickness c;
     VehicleBoxThickness := VehicleBoxThickness c;
     PoleThickness := PoleThickness c;
     StopLineThickness := StopLineThickness c;
     LaneLinesColor := LoadColor Colors "lane_lines" (LaneLinesColor c);
     RoadBoundariesColor := LoadColor Colors "road_boundaries" (RoadBoundariesColor c);
     WaitLinesColor := WaitLinesColor c;
     CrosswalksColor := LoadColor Colors "crosswalks" (CrosswalksColor c);
     RoadMarkingsColor := LoadColor Colors "road_markings" (RoadMarkingsColor c);
     TrafficSignsColor := LoadColor Colors "traffic_signs" (TrafficSignsColor c);
     TrafficLightsColor := LoadColor Colors "traffic_lights" (TrafficLightsColor c);
     CarsColor := LoadColor Colors "cars" (CarsColor c);
     TrucksColor := LoadColor Colors "trucks" (TrucksColor c);
     PedestriansColor := LoadColor Colors "pedestrians" (PedestriansColor c);
     CyclistsColor := LoadColor Colors "cyclists" (CyclistsColor c);
     PolesColor := LoadColor Colors "poles" (PolesColor c) |}.

(** [LoadConfigFromFile], as a function from the configuration the sensor
    holds and the file to the configuration it holds afterwards. *)
Definition LoadConfigFromFile (RenderConfig : CosmosRenderConfig)
                              (file : ConfigFile) : CosmosRenderConfig :=
  match file with
  | FileMissing => RenderConfig
  | FileUnreadable => RenderConfig
  | FileText None => RenderConfig
  | FileText (Some JsonObject_) =>
      match GetObjectField JsonObject_ "CosmosControlVisualization" with
      | None => RenderConfig
      | Some Config =>
          let c1 := match GetObjectField Config "LineThickness" with
                    | Some Thickness => LoadThickness Thickness RenderConfig
                    | None => RenderConfig
                    end in
          match GetObjectField Config "Colors" with
          | Some Colors => LoadColors Colors c1
          | None => c1
          end
      end
  end.

End LoadConfig.

(* ------------------------------------------------------------------ *)
(** ** The scene as one tick sees it *)

(** An actor: its address (what pointer comparisons look at), the bounds
    [UKismetSystemLibrary::GetActorBounds] reports and the quaternion of
    [GetActorRotation]. *)
Record AActor : Type := mkActor {
  ActorPtr : nat;
  ActorBoundsOrigin : FVector;
  ActorBoundsExtent : FVector;
  ActorQuat : FQuat
}.

(** An entry of the episode's actor registry ([FCarlaActor]): its id, the
    actor it wraps (null when there is none), the id of its description and
    the value of its [role_name] attribute when it has one. *)
Record FCarlaActor : Type := mkCarlaActor {
  CarlaActorId : nat;
  CarlaActorPtr : option nat;
  DescriptionId : string;
  RoleName : option string
}.

(** What a mesh component is cast to, and the bounds of its mesh asset when
    one is assigned. *)
Inductive MeshKind : Type :=
| StaticMeshComponent (StaticMesh : option FBoxSphereBounds)
| SkeletalMeshComponent (SkeletalMesh : option FBoxSphereBounds)
| OtherMeshComponent.

Record UMeshComponent : Type := mkMeshComponent {
  IsVisible : bool;
  Owner : option AActor;
  ComponentLocation : FVector;
  ComponentName : string;
  TagOfTaggedComponent : CityObjectLabel;
  Kind : MeshKind
}.

Record UBoxComponent : Type := mkBoxComponent {
  BoxLocation : FVector;
  ScaledBoxExtent : FVector;
  ForwardVector : FVector;
  RightVector : FVector
}.

(** A traffic light: the first box component [GetComponentByClass] finds on
    it (null when it has none) and the forward vector of the actor itself. *)
Record ATrafficLightBase : Type := mkTrafficLight {
  StopBoxCollider : option UBoxComponent;
  ActorForwardVector : FVector
}.

(** Modelled from the spec: [ERoadSplineBoundaryType] and
    [ERoadSplineOrientationType] are declared in Carla/Traffic/RoadSpline.h,
    outside the given sources.  The spec lists the boundary kinds Driving,
    Shoulder, Sidewalk, Median and Other, and the orientations Left and
    Right; a catch-all stands for any further enumerator. *)
Inductive ERoadSplineBoundaryType : Type :=
| Driving
| Shoulder
| Sidewalk
| Median
| OtherBoundary.

Inductive ERoadSplineOrientationType : Type :=
| Left
| Right
| OtherOrientation.

(** A road spline actor; [SplinePoints] are the world locations of its
    spline points, in order. *)
Record ARoadSpline : Type := mkRoadSpline {
  BoundaryType : ERoadSplineBoundaryType;
  OrientationType : ERoadSplineOrientationType;
  RoadID : Z;
  LaneID : Z;
  bIsJunction : bool;
  SplinePoints : list FVector
}.

(** Modelled from the spec: [carla::geom::Location] and its [operator==]
    are declared in LibCarla, outside the given sources; the spec speaks of a
    flat sequence of world-space points in which a repeated occurrence of a
    run's first point closes the run.  A location is three floats, two
    locations are equal when they agree coordinate by coordinate. *)
Record Location : Type := mkLocation { LocX : float; LocY : float; LocZ : float }.

Definition Location_eqb (a b : Location) : bool :=
  (F32.eqb (LocX a) (LocX b) && F32.eqb (LocY a) (LocY b)
   && F32.eqb (LocZ a) (LocZ b))%bool.

Definition Location_ToFVector (l : Location) : FVector :=
  mkVector (LocX l) (LocY l) (LocZ l).

(** Modelled from the spec: the stencil record of the road map is declared
    outside the given sources; the spec lists its transform, width and
    length.  The transform is kept as the location and rotation the sensor
    reads from it. *)
Record Stencil : Type := mkStencil {
  StencilLocation : FVector;
  StencilRotation : FQuat;
  StencilWidth : double;
  StencilLength : double
}.

(** The game mode, reduced to what the sensor asks of its map: the crosswalk
    points in the order [GetAllCrosswalkZones] returns them, and the stencil
    table in iteration order (an entry may hold a null pointer). *)
Record ACarlaGameModeBase : Type := mkGameMode {
  AllCrosswalkZones : list Location;
  Stencils : list (option Stencil)
}.

Record UWorld : Type := mkWorld {
  IsDedicatedServer : bool;
  ActorRegistry : list FCarlaActor;
  MeshComponents : list UMeshComponent;
  TrafficLights : list ATrafficLightBase;
  RoadSplines : list ARoadSpline;
  AuthGameMode : option ACarlaGameModeBase
}.

(* ------------------------------------------------------------------ *)
(** ** The sensor *)

(** One call of a [DrawDebug*] method with the arguments that vary (life
    time is always -1 and the depth priority always [SDPG_World]). *)
Inductive DrawCall : Type :=
| SolidBox (Center Extent : FVector) (Rotation : FQuat) (Color : FColor)
| Box (Center Extent : FVector) (Rotation : FQuat) (Color : FColor)
      (Thickness : float)
| Capsule (Center : FVector) (HalfHeight Radius : float) (Rotation : FQuat)
          (Color : FColor) (Thickness : float)
| Line (LineStart LineEnd : FVector) (Color : FColor) (Thickness : float)
| Mesh (Vertices : list FVector) (Indices : list Z) (Color : FColor).

Record ACosmosControlSensor : Type := mkSensor {
  added_persisted_stop_lines : bool;
  added_persisted_route_lines : bool;
  added_persisted_crosswalks : bool;
  added_persisted_stencils : bool;
  RenderConfig : CosmosRenderConfig;
  IgnoredVehicles : list nat;
  DynamicLines : list DrawCall;
  PersistentLines : list DrawCall
}.

(** The state the constructor leaves. *)
Definition NewSensor : ACosmosControlSensor := {|
  added_persisted_stop_lines := false;
  added_persisted_route_lines := false;
  added_persisted_crosswalks := false;
  added_persisted_stencils := false;
  RenderConfig := DefaultRenderConfig;
  IgnoredVehicles := [];
  DynamicLines := [];
  PersistentLines := []
|}.

Definition set_stop_lines (b : bool) (s : ACosmosControlSensor) :=
  mkSensor b (added_persisted_route_lines s) (added_persisted_crosswalks s)
           (added_persisted_stencils s) (RenderConfig s) (IgnoredVehicles s)
           (DynamicLines s) (PersistentLines s).

Definition set_route_lines (b : bool) (s : ACosmosControlSensor) :=
  mkSensor (added_persisted_stop_lines s) b (added_persisted_crosswalks s)
           (added_persisted_stencils s) (RenderConfig s) (IgnoredVehicles s)
           (DynamicLines s) (PersistentLines s).

Definition set_crosswalks (b : bool) (s : ACosmosControlSensor) :=
  mkSensor (added_persisted_stop_lines s) (added_persisted_route_lines s) b
           (added_persisted_stencils s) (RenderConfig s) (IgnoredVehicles s)
           (DynamicLines s) (PersistentLines s).

Definition set_stencils (b : bool) (s : ACosmosControlSensor) :=
  mkSensor (added_persisted_stop_lines s) (added_persisted_route_lines s)
           (added_persisted_crosswalks s) b (RenderConfig s) (IgnoredVehicles s)
           (DynamicLines s) (PersistentLines s).

Definition set_dynamic (l : list DrawCall) (s : ACosmosControlSensor) :=
  mkSensor (added_persisted_stop_lines s) (added_persisted_route_lines s)
           (added_persisted_crosswalks s) (added_persisted_stencils s)
           (RenderConfig s) (IgnoredVehicles s) l (PersistentLines s).

Definition set_persistent (l : list DrawCall) (s : ACosmosControlSensor) :=
  mkSensor (added_persisted_stop_lines s) (added_persisted_route_lines s)
           (added_persisted_crosswalks s) (added_persisted_stencils s)
           (RenderConfig s) (IgnoredVehicles s) (DynamicLines s) l.

(** The common shape of the [DrawDebug*] methods: nothing on a dedicated
    server; otherwise the calls go to the batch [GetDebugLineBatcher]
    selects. *)
Definition Draw (InWorld : UWorld) (bPersistentLines : bool)
                (calls : list DrawCall) (s : ACosmosControlSensor)
  : ACosmosControlSensor :=
  if IsDedicatedServer InWorld then s
  else if bPersistentLines
       then set_persistent (PersistentLines s ++ calls) s
       else set_dynamic (DynamicLines s ++ calls) s.

(* ------------------------------------------------------------------ *)
(** ** Dynamic objects *)

(** The registry scan for the player: the first entry whose [role_name]
    contains "hero" or "ego_vehicle" gives [player_actor]. *)
Definition is_player (a : FCarlaActor) : bool :=
  match RoleName a with
  | Some Value => (FString_Contains Value "hero"
                   || FString_Contains Value "ego_vehicle")%bool
  | None => false
  end.

Definition find_player_actor (registry : list FCarlaActor) : option nat :=
  match find is_player registry with
  | Some a => CarlaActorPtr a
  | None => None
  end.

(** [FindCarlaActor]: the registry entry that wraps the given actor. *)
Definition FindCarlaActor (registry : list FCarlaActor) (actor : AActor)
  : option FCarlaActor :=
  find (fun a => match CarlaActorPtr a with
                 | Some p => Nat.eqb p (ActorPtr actor)
                 | None => false
                 end) registry.

Definition is_ignored_vehicle (registry : list FCarlaActor)
                              (ignored : list nat) (owner : AActor) : bool :=
  match FindCarlaActor registry owner with
  | Some CarlaActor =>
      (FString_Contains (DescriptionId CarlaActor) "vehicle"
       && existsb (Nat.eqb (CarlaActorId CarlaActor)) ignored)%bool
  | None => false
  end.

(** The capsule of a pole. *)
Definition pole_capsule (cfg : CosmosRenderConfig) (mesh_component : UMeshComponent)
                        (bounds : FBoxSphereBounds) (box_extent : FVector)
                        (vis_color : FColor) : DrawCall :=
  let half_height := F32.fmax (VecZ (BoxExtent bounds)) (VecZ box_extent) in
  let distance_to_road := VecZ (ComponentLocation mesh_component) in
  Capsule (vec_add (ComponentLocation mesh_component)
                   (mkVector F32.zero F32.zero half_height))
          (F32.add half_height
                   (if F32.gtb distance_to_road (F32.of_Z 250)
                    then F32.zero else distance_to_road))
          F32.tenth FQuat_Identity vis_color (PoleThickness cfg).

(** The dispatch on the tag, once the bounds are known. *)
Definition draw_tagged (cfg : CosmosRenderConfig) (mesh_component : UMeshComponent)
                       (owner : AActor) (bounds : FBoxSphereBounds)
                       (box_extent : FVector) : list DrawCall :=
  let Tag := TagOfTaggedComponent mesh_component in
  let vis_color := GetColorByTag cfg Tag in
  match Tag with
  | TrafficLight | TrafficSigns =>
      [SolidBox (ComponentLocation mesh_component) (BoxExtent bounds)
                (ActorQuat owner) vis_color]
  | Car | Bicycle | Bus | Motorcycle | Pedestrians | Train | Truck =>
      [Box (Origin bounds) (BoxExtent bounds) (ActorQuat owner) vis_color
           (VehicleBoxThickness cfg)]
  | Poles => [pole_capsule cfg mesh_component bounds box_extent vis_color]
  | OtherLabel _ => []
  end.

(** The body of the loop over the mesh components: the calls one component
    gives rise to (none when a [continue] is taken). *)
Definition annotate_component (cfg : CosmosRenderConfig) (ignored : list nat)
                              (registry : list FCarlaActor)
                              (player_actor : option nat)
                              (mesh_component : UMeshComponent) : list DrawCall :=
  if negb (IsVisible mesh_component) then [] else
  match Owner mesh_component with
  | None => []
  | Some owner =>
    if match player_actor with
       | Some p => Nat.eqb (ActorPtr owner) p
       | None => false
       end then [] else
    if is_ignored_vehicle registry ignored owner then [] else
    if F32.gtb (VecZ (ComponentLocation mesh_component)) (F32.of_Z 10000)
    then [] else
    let box_origin := ActorBoundsOrigin owner in
    let box_extent := ActorBoundsExtent owner in
    let bounds := mkBounds box_origin box_extent F32.zero in
    match Kind mesh_component with
    | OtherMeshComponent => []
    | StaticMeshComponent None =>
        draw_tagged cfg mesh_component owner bounds box_extent
    | StaticMeshComponent (Some mesh) =>
        if (negb (FString_Contains (ComponentName mesh_component) "mesh")
            || FString_Contains (ComponentName mesh_component) "road")%bool
        then []
        else draw_tagged cfg mesh_component owner
                         (mkBounds box_origin (BoxExtent mesh) (SphereRadius mesh))
                         box_extent
    | SkeletalMeshComponent None =>
        draw_tagged cfg mesh_component owner bounds box_extent
    | SkeletalMeshComponent (Some mesh) =>
        let o := ComponentLocation mesh_component in
        draw_tagged cfg mesh_component owner
                    (mkBounds (mkVector (VecX o) (VecY o)
                                        (F32.add (VecZ o) (VecZ (BoxExtent mesh))))
                              (BoxExtent mesh) (SphereRadius mesh))
                    box_extent
    end
  end.

Definition dynamic_calls (self : ACosmosControlSensor) (World : UWorld)
  : list DrawCall :=
  let player_actor := find_player_actor (ActorRegistry World) in
  flat_map (annotate_component (RenderConfig self) (IgnoredVehicles self)
                               (ActorRegistry World) player_actor)
           (MeshComponents World).

(* ------------------------------------------------------------------ *)
(** ** Stop lines *)

Definition stop_line (cfg : CosmosRenderConfig) (stop_box_collider : UBoxComponent)
  : DrawCall :=
  let stopLineOffset :=
    F32.add (F32.mul (StopLineThickness cfg) F32.half) (F32.of_Z 2) in
  let base_pos := mkVector (VecX (BoxLocation stop_box_collider))
                           (VecY (BoxLocation stop_box_collider))
                           (F32.opp stopLineOffset) in
  let lateral := vec_scale (F32.of_Z 710) (RightVector stop_box_collider) in
  let line_start :=
    vec_sub (vec_add base_pos
                     (vec_scale (F32.opp (VecX (ScaledBoxExtent stop_box_collider)))
                                (ForwardVector stop_box_collider)))
            lateral in
  let line_end :=
    vec_sub (vec_add base_pos
                     (vec_scale (VecX (ScaledBoxExtent stop_box_collider))
                                (ForwardVector stop_box_collider)))
            lateral in
  Line line_start line_end (WaitLinesColor cfg) (StopLineThickness cfg).

(** The loop over the traffic lights.  The collider pointer is used as it
    comes: [None] is the run that dereferences a null collider. *)
Fixpoint stop_line_calls (cfg : CosmosRenderConfig)
                         (lights : list ATrafficLightBase)
  : option (list DrawCall) :=
  match lights with
  | [] => Some []
  | traffic_light :: rest =>
      match StopBoxCollider traffic_light with
      | None => None
      | Some stop_box_collider =>
          match stop_line_calls cfg rest with
          | None => None
          | Some calls => Some (stop_line cfg stop_box_collider :: calls)
          end
      end
  end.

Definition StopLinesBlock (self : ACosmosControlSensor) (World : UWorld)
  : option ACosmosControlSensor :=
  if added_persisted_stop_lines self then Some self
  else
    let s := set_stop_lines true self in
    match stop_line_calls (RenderConfig s) (TrafficLights World) with
    | None => None
    | Some calls => Some (Draw World true calls s)
    end.

(* ------------------------------------------------------------------ *)
(** ** Lane and boundary splines *)

(** The step the neighbour lookup adds to the lane id. *)
Definition lane_shift (spline : ARoadSpline) : Z :=
  match OrientationType spline with
  | Left => if LaneID spline =? 1 then -2 else -1
  | _ => if LaneID spline =? -1 then 2 else 1
  end.

(** [FilterByPredicate] over the splines of the road. *)
Definition found_splines (splines : list ARoadSpline) (spline : ARoadSpline)
  : list ARoadSpline :=
  filter (fun in_spline =>
            LaneID in_spline =? add32 (LaneID spline) (lane_shift spline))
         splines.

(** One pass of each of the three [switch] statements: the value of
    [should_render] after the neighbour [target_spline], given its value
    before. *)
Definition junction_case (spline target_spline : ARoadSpline)
                         (should_render : bool) : bool :=
  match BoundaryType target_spline with
  | Driving | Shoulder =>
      match BoundaryType spline with
      | Driving => false
      | Shoulder => false
      | Sidewalk => true
      | Median => true
      | OtherBoundary => should_render
      end
  | _ => false
  end.

Definition same_side (spline target_spline : ARoadSpline) : bool :=
  ((LaneID spline >? 0)
   && (mul32 (LaneID spline) (LaneID target_spline) >? 0))%bool.

Definition left_case (spline target_spline : ARoadSpline)
                     (should_render : bool) : bool :=
  match BoundaryType target_spline with
  | Driving =>
      match BoundaryType spline with
      | Driving => same_side spline target_spline
      | Shoulder => false
      | Sidewalk => same_side spline target_spline
      | Median => true
      | OtherBoundary => should_render
      end
  | Shoulder =>
      match BoundaryType spline with
      | Driving => false
      | Shoulder => false
      | Sidewalk => same_side spline target_spline
      | Median => true
      | OtherBoundary => should_render
      end
  | _ => false
  end.

Definition right_case (spline target_spline : ARoadSpline)
                      (should_render : bool) : bool :=
  match BoundaryType target_spline with
  | Driving =>
      match BoundaryType spline with
      | Driving => LaneID spline <? 0
      | Shoulder => false
      | Sidewalk => LaneID spline <? 0
      | Median => true
      | OtherBoundary => should_render
      end
  | Shoulder =>
      match BoundaryType spline with
      | Driving => false
      | Shoulder => false
      | Sidewalk => LaneID spline <? 0
      | Median => true
      | OtherBoundary => should_render
      end
  | _ => false
  end.

(** The renderability decision for [spline] among the [splines] of its
    road: [should_render] starts false and each found neighbour rewrites
    it in turn. *)
Definition should_render (splines : list ARoadSpline) (spline : ARoadSpline)
  : bool :=
  let found := found_splines splines spline in
  if bIsJunction spline then
    fold_left (fun sr target_spline => junction_case spline target_spline sr)
              found false
  else
    match OrientationType spline with
    | Left =>
        fold_left (fun sr target_spline => left_case spline target_spline sr)
                  found false
    | Right =>
        fold_left (fun sr target_spline => right_case spline target_spline sr)
                  found false
    | OtherOrientation => false
    end.

(** The kinds that are not skipped by the [continue] at the head of the
    loop. *)
Definition participates (spline : ARoadSpline) : bool :=
  match BoundaryType spline with
  | Driving | Shoulder | Sidewalk | Median => true
  | OtherBoundary => false
  end.

(** Consecutive pairs of spline points. *)
Fixpoint segments (points : list FVector) : list (FVector * FVector) :=
  match points with
  | p0 :: (p1 :: _) as rest => (p0, p1) :: segments rest
  | _ => []
  end.

Definition lower_by (offset : float) (p : FVector) : FVector :=
  mkVector (VecX p) (VecY p) (F32.sub (VecZ p) offset).

(** The [DrawSpline] lambda. *)
Definition DrawSpline (cfg : CosmosRenderConfig) (spline : ARoadSpline)
  : list DrawCall :=
  let offset := RoadLineThickness cfg in
  let lineColor := match BoundaryType spline with
                   | Driving => LaneLinesColor cfg
                   | _ => RoadBoundariesColor cfg
                   end in
  map (fun '(p0, p1) =>
         Line (lower_by offset p0) (lower_by offset p1) lineColor
              (RoadLineThickness cfg))
      (segments (SplinePoints spline)).

(** [SplinesByRoadId]: the splines grouped by road id, roads in the order
    of their first spline, splines in the order of the actor list. *)
Fixpoint add_by_road (m : list (Z * list ARoadSpline)) (spline : ARoadSpline)
  : list (Z * list ARoadSpline) :=
  match m with
  | [] => [(RoadID spline, [spline])]
  | (k, v) :: rest =>
      if k =? RoadID spline then (k, v ++ [spline]) :: rest
      else (k, v) :: add_by_road rest spline
  end.

Definition SplinesByRoadId (RoadSplines_ : list ARoadSpline)
  : list (Z * list ARoadSpline) :=
  fold_left add_by_road RoadSplines_ [].

Definition road_calls (cfg : CosmosRenderConfig) (splines : list ARoadSpline)
  : list DrawCall :=
  flat_map (fun spline =>
              if (participates spline && should_render splines spline)%bool
              then DrawSpline cfg spline else [])
           splines.

Definition route_line_calls (cfg : CosmosRenderConfig)
                            (RoadSplines_ : list ARoadSpline) : list DrawCall :=
  flat_map (fun splines_pair => road_calls cfg (snd splines_pair))
           (SplinesByRoadId RoadSplines_).

Definition RouteLinesBlock (self : ACosmosControlSensor) (World : UWorld)
  : ACosmosControlSensor :=
  if added_persisted_route_lines self then self
  else
    let s := if (0 <? List.length (RoadSplines World))%nat
             then set_route_lines true self else self in
    Draw World true (route_line_calls (RenderConfig s) (RoadSplines World)) s.

(* ------------------------------------------------------------------ *)
(** ** Crosswalks *)

(** The "simple triangulation" loop: [0, j, j+1] for [j] from 1 to
    [Num - 2]. *)
Fixpoint fan_from (j : Z) (count : nat) : list Z :=
  match count with
  | O => []
  | S count' => 0 :: j :: (j + 1) :: fan_from (j + 1) count'
  end.

Definition fan_indices (Num : nat) : list Z := fan_from 1 (Num - 2).

Section CrosswalkPolygons.

(** The point type of the sequence, its [operator==] and the conversion
    of a point to a mesh vertex. *)
Variable Point : Type.
Variable point_eqb : Point -> Point -> bool.
Variable to_vertex : Point -> FVector.

(** The meshes one closing point gives rise to: a polygon of at least
    three vertices is drawn, a shorter one is dropped. *)
Definition close_polygon (current_polygon : list FVector)
  : list (list FVector * list Z) :=
  if (3 <=? List.length current_polygon)%nat
  then [(current_polygon, fan_indices (List.length current_polygon))]
  else [].

(** The loop over [crosswalks_points] from index 1 on; [rest] are the
    points not yet visited.  After a closing point the next point, when
    there is one, starts the next polygon and is stepped over. *)
Fixpoint crosswalk_loop (first_in_loop : Point) (current_polygon : list FVector)
                        (rest : list Point) : list (list FVector * list Z) :=
  match rest with
  | [] => []
  | p :: rest' =>
      if point_eqb p first_in_loop then
        close_polygon current_polygon ++
        match rest' with
        | [] => []
        | next :: rest'' => crosswalk_loop next [to_vertex next] rest''
        end
      else
        crosswalk_loop first_in_loop (current_polygon ++ [to_vertex p]) rest'
  end.

(** The vertex and index arrays of the [DrawDebugMesh] calls, in order. *)
Definition crosswalk_meshes (crosswalks_points : list Point)
  : list (list FVector * list Z) :=
  match crosswalks_points with
  | [] => []
  | first :: rest => crosswalk_loop first [to_vertex first] rest
  end.

End CrosswalkPolygons.

(** [ToFVector() * 100.0f]. *)
Definition crosswalk_vertex (l : Location) : FVector :=
  vec_scale (F32.of_Z 100) (Location_ToFVector l).

Definition crosswalk_calls (cfg : CosmosRenderConfig) (points : list Location)
  : list DrawCall :=
  map (fun '(mesh_vertices, mesh_indices) =>
         Mesh mesh_vertices mesh_indices (CrosswalksColor cfg))
      (crosswalk_meshes Location Location_eqb crosswalk_vertex points).

Definition CrosswalksBlock (self : ACosmosControlSensor) (World : UWorld)
  : ACosmosControlSensor :=
  match AuthGameMode World with
  | Some carla_game_mode =>
      if added_persisted_crosswalks self then self
      else
        let s := set_crosswalks true self in
        Draw World true
             (crosswalk_calls (RenderConfig s) (AllCrosswalkZones carla_game_mode)) s
  | None => self
  end.

(* ------------------------------------------------------------------ *)
(** ** Stencils, and the tick *)

Section Tick.

(** The engine's [FQuat::RotateVector]. *)
Variable RotateVector : FQuat -> FVector -> FVector.

Definition stencil_mesh (cfg : CosmosRenderConfig) (st : Stencil) : DrawCall :=
  let StencilWidth_ := F64.to_float (F64.mul (StencilWidth st) (F64.of_Z 100)) in
  let StencilLength_ := F64.to_float (F64.mul (StencilLength st) (F64.of_Z 100)) in
  let two := F32.of_Z 2 in
  let corner (a b : float) :=
    vec_add (StencilLocation st)
            (RotateVector (StencilRotation st) (mkVector a b F32.zero)) in
  Mesh [ corner (F32.div (F32.opp StencilLength_) two)
                (F32.div (F32.opp StencilWidth_) two);
         corner (F32.div StencilLength_ two)
                (F32.div (F32.opp StencilWidth_) two);
         corner (F32.div StencilLength_ two) (F32.div StencilWidth_ two);
         corner (F32.div (F32.opp StencilLength_) two)
                (F32.div StencilWidth_ two) ]
       [0; 1; 2; 0; 2; 3]
       (RoadMarkingsColor cfg).

Definition stencil_calls (cfg : CosmosRenderConfig)
                         (road_stencils : list (option Stencil))
  : list DrawCall :=
  flat_map (fun entry => match entry with
                         | Some st => [stencil_mesh cfg st]
                         | None => []
                         end)
           road_stencils.

Definition StencilsBlock (self : ACosmosControlSensor) (World : UWorld)
  : ACosmosControlSensor :=
  match AuthGameMode World with
  | Some carla_game_mode =>
      if added_persisted_stencils self then self
      else
        let s := set_stencils true self in
        Draw World true
             (stencil_calls (RenderConfig s) (Stencils carla_game_mode)) s
  | None => self
  end.

(** [PostPhysTick]: the sensor after the tick, or [None] when the tick
    dereferences a null collider.  The pixel read-back that ends the tick
    does not touch the sensor's own state. *)
Definition PostPhysTick (self : ACosmosControlSensor) (World : UWorld)
  : option ACosmosControlSensor :=
  let flushed := set_dynamic [] self in
  let annotated := Draw World false (dynamic_calls flushed World) flushed in
  match StopLinesBlock annotated World with
  | None => None
  | Some s =>
      Some (StencilsBlock (CrosswalksBlock (RouteLinesBlock s World) World) World)
  end.

(** A run of ticks, one world snapshot per tick. *)
Fixpoint run_ticks (self : ACosmosControlSensor) (worlds : list UWorld)
  : option ACosmosControlSensor :=
  match worlds with
  | [] => Some self
  | World :: rest =>
      match PostPhysTick self World with
      | None => None
      | Some s => run_ticks s rest
      end
  end.

End Tick.

(* ------------------------------------------------------------------ *)
(** ** Vocabulary of the properties *)

(** The index array of a mesh read as triangles, three indices at a time. *)
Fixpoint triangles (indices : list Z) : list (Z * Z * Z) :=
  match indices with
  | a :: b :: c :: rest => (a, b, c) :: triangles rest
  | _ => []
  end.

(** The fan from vertex 0 over [n] vertices: triangles [(0, k+1, k+2)] for
    [k = 0 .. n-3]. *)
Definition fan_triangles (n : nat) : list (Z * Z * Z) :=
  map (fun k => (0, Z.of_nat k + 1, Z.of_nat k + 2)) (seq 0 (n - 2)).

Section ClosedRuns.

Variable Point : Type.
Variable point_eqb : Point -> Point -> bool.
Variable to_vertex : Point -> FVector.

(** A closed run of the point sequence: a first point, the points that
    follow it and differ from it, and the point that repeats it. *)
Record ClosedRun : Type := mkRun {
  run_first : Point;
  run_inner : list Point;
  run_closer : Point
}.

Definition closed_run (r : ClosedRun) : Prop :=
  point_eqb (run_closer r) (run_first r) = true /\
  Forall (fun p => point_eqb p (run_first r) = false) (run_inner r).

Definition run_points (r : ClosedRun) : list Point :=
  run_first r :: run_inner r ++ [run_closer r].

(** The polygon of a run: its vertices without the repeated one. *)
Definition run_polygon (r : ClosedRun) : list FVector :=
  map to_vertex (run_first r :: run_inner r).

(** What the spec asks of one closed run of [n] vertices: one mesh with
    the fan over [n] vertices when [n >= 3], nothing otherwise. *)
Definition run_mesh (r : ClosedRun) : list (list FVector * list Z) :=
  if (3 <=? List.length (run_polygon r))%nat
  then [(run_polygon r, fan_indices (List.length (run_polygon r)))]
  else [].

(** An open run: a first point followed by points that all differ from
    it. *)
Definition open_run (first : Point) (tail : list Point) : Prop :=
  Forall (fun p => point_eqb p first = false) tail.

End ClosedRuns.

Arguments mkRun {Point} _ _ _.
Arguments run_first {Point} _.
Arguments run_inner {Point} _.
Arguments run_closer {Point} _.
Arguments closed_run {Point} _ _.
Arguments run_points {Point} _.
Arguments run_polygon {Point} _ _.
Arguments run_mesh {Point} _ _.
Arguments open_run {Point} _ _ _.

(** The ground offset of a pole capsule as the spec words it. *)
Definition ground_offset (base_height : float) : float :=
  if F32.gtb base_height (F32.of_Z 250) then F32.zero else base_height.

(** The vertical extent the geometry extractor derives for a component of
    the given owner: that of the mesh asset when there is one, that of the
    actor bounds otherwise. *)
Definition derived_extent_z (mesh_component : UMeshComponent) (owner : AActor)
  : float :=
  match Kind mesh_component with
  | StaticMeshComponent (Some mesh) => VecZ (BoxExtent mesh)
  | SkeletalMeshComponent (Some mesh) => VecZ (BoxExtent mesh)
  | _ => VecZ (ActorBoundsExtent owner)
  end.

Definition vec_neg (v : FVector) : FVector :=
  mkVector (F32.opp (VecX v)) (F32.opp (VecY v)) (F32.opp (VecZ v)).

(** Two vectors are perpendicular when their dot product compares equal to
    zero. *)
Definition perpendicular (a b : FVector) : bool :=
  F32.eqb (vec_dot a b) F32.zero.

(** The direction of a drawn line, end minus start. *)
Definition line_direction (c : DrawCall) : FVector :=
  match c with
  | Line a b _ _ => vec_sub b a
  | _ => mkVector F32.zero F32.zero F32.zero
  end.

(** The same world with another population of traffic lights. *)
Definition with_traffic_lights (lights : list ATrafficLightBase) (w : UWorld)
  : UWorld :=
  mkWorld (IsDedicatedServer w) (ActorRegistry w) (MeshComponents w) lights
          (RoadSplines w) (AuthGameMode w).

Definition respawned (w w' : UWorld) : Prop :=
  exists lights, w' = with_traffic_lights lights w.

(** Every traffic light of the world has a box component. *)
Definition colliders_present (w : UWorld) : Prop :=
  Forall (fun l => StopBoxCollider l <> None) (TrafficLights w).

(** The calls a one-shot category contributes to a tick: none once its
    flag is set. *)
Definition once (flag : bool) (calls : list DrawCall) : list DrawCall :=
  if flag then [] else calls.

Definition stop_lines_of (cfg : CosmosRenderConfig) (w : UWorld) : list DrawCall :=
  match stop_line_calls cfg (TrafficLights w) with
  | Some calls => calls
  | None => []
  end.

Definition has_game_mode (w : UWorld) : bool :=
  match AuthGameMode w with Some _ => true | None => false end.

(* ------------------------------------------------------------------ *)
(** ** The drawing primitives *)

(** What the [DrawDebug*] methods hand to the line batch component
    [GetDebugLineBatcher] selects: single lines, arrays of batched lines,
    solid boxes and meshes, each with the arguments of the call. *)
Record FLinearColor : Type := mkLinearColor {
  LinearR : float;
  LinearG : float;
  LinearB : float;
  LinearA : float
}.

Record FBatchedLine : Type := mkBatchedLine {
  BatchedStart : FVector;
  BatchedEnd : FVector;
  BatchedColor : FColor;
  BatchedLifeTime : float;
  BatchedThickness : float;
  BatchedDepthPriority : Z
}.

Inductive BatchCall : Type :=
| BatchDrawLine (Start End : FVector) (Color : FLinearColor)
                (DepthPriority : Z) (Thickness LifeTime : float)
| BatchDrawLines (Lines : list FBatchedLine)
| BatchDrawSolidBox (BoxMin BoxMax : FVector) (Rotation : FQuat)
                    (Translation Scale3D : FVector) (Color : FColor)
                    (DepthPriority : Z) (LifeTime : float)
| BatchDrawMesh (Vertices : list FVector) (Indices : list Z) (Color : FColor)
                (DepthPriority : Z) (LifeTime : float).

(** [a >= b] on floats, and the engine's generic [FMath::Max]. *)
Definition F32_geb (a b : float) : bool := SFleb b a.

Definition FMath_Max (a b : float) : float := if F32_geb a b then a else b.

(** The macro [PI], [3.1415926535897932f]. *)
Definition PI : float := S754_finite false 13176795 (-22).

(** [DrawDebugLine]: the colour goes to the batch as a linear colour whose
    channels are the bytes divided by 255 (alpha is the default 1). *)
Definition DrawDebugLine (dedicated : bool) (LineStart LineEnd : FVector)
                         (Color : FColor) (DepthPriority : Z) (Thickness : float)
  : list BatchCall :=
  if dedicated then []
  else
    let rlinear := F32.div (F32.of_Z (ColorR Color)) (F32.of_Z 255) in
    let glinear := F32.div (F32.of_Z (ColorG Color)) (F32.of_Z 255) in
    let blinear := F32.div (F32.of_Z (ColorB Color)) (F32.of_Z 255) in
    [BatchDrawLine LineStart LineEnd
                   (mkLinearColor rlinear glinear blinear (F32.of_Z 1))
                   DepthPriority Thickness F32.zero].

(** [DrawDebugMesh]. *)
Definition DrawDebugMesh (dedicated : bool) (Vertices : list FVector)
                         (Indices : list Z) (Color : FColor) (DepthPriority : Z)
  : list BatchCall :=
  if dedicated then []
  else [BatchDrawMesh Vertices Indices Color DepthPriority F32.zero].

(** [DrawDebugSolidBox]: the box [FBox::BuildAABB] builds around the origin,
    under the transform made of the rotation, the centre and unit scale. *)
Definition DrawDebugSolidBox (dedicated : bool) (Center Extent : FVector)
                             (Rotation : FQuat) (Color : FColor)
                             (DepthPriority : Z) : list BatchCall :=
  if dedicated then []
  else
    let ZeroVector := mkVector F32.zero F32.zero F32.zero in
    [BatchDrawSolidBox (vec_sub ZeroVector Extent) (vec_add ZeroVector Extent)
                       Rotation Center
                       (mkVector (F32.of_Z 1) (F32.of_Z 1) (F32.of_Z 1))
                       Color DepthPriority F32.zero].

Section DrawingPrimitives.

(** The engine's part: [FTransform(Rotation).TransformPosition], the three
    scaled axes of [FQuatRotationTranslationMatrix(Rotation, ZeroVector)],
    [FMath::Cos] and [FMath::Sin]. *)
Variable TransformPosition : FQuat -> FVector -> FVector.
Variable RotationAxes : FQuat -> FVector * FVector * FVector.
Variable Cos : float -> float.
Variable Sin : float -> float.

(** The twelve edges of [DrawDebugBox], in the order they are added: each is
    a pair of corners given by the signs of their three extents ([false]
    for the extent itself, [true] for its opposite). *)
Definition box_corner (Box : FVector) (signs : bool * bool * bool) : FVector :=
  let '(sx, sy, sz) := signs in
  mkVector (if sx then F32.opp (VecX Box) else VecX Box)
           (if sy then F32.opp (VecY Box) else VecY Box)
           (if sz then F32.opp (VecZ Box) else VecZ Box).

Definition box_edges : list ((bool * bool * bool) * (bool * bool * bool)) :=
  [ ((false, false, false), (false, true, false));
    ((false, true, false), (true, true, false));
    ((true, true, false), (true, false, false));
    ((true, false, false), (false, false, false));
    ((false, false, true), (false, true, true));
    ((false, true, true), (true, true, true));
    ((true, true, true), (true, false, true));
    ((true, false, true), (false, false, true));
    ((false, false, false), (false, false, true));
    ((false, true, false), (false, true, true));
    ((true, true, false), (true, true, true));
    ((true, false, false), (true, false, true)) ].

Definition DrawDebugBox (dedicated : bool) (Center Box : FVector)
                        (Rotation : FQuat) (Color : FColor)
                        (DepthPriority : Z) (Thickness : float)
  : list BatchCall :=
  if dedicated then []
  else
    let LineLifeTime := F32.zero in
    [BatchDrawLines
       (map (fun '(a, b) =>
               let Start := TransformPosition Rotation (box_corner Box a) in
               let End_ := TransformPosition Rotation (box_corner Box b) in
               mkBatchedLine (vec_add Center Start) (vec_add Center End_) Color
                             LineLifeTime Thickness DepthPriority)
            box_edges)].

(** The vertex the circle loops compute at [SideIndex]. *)
Definition circle_vertex (Base X Y : FVector) (Radius AngleDelta : float)
                         (SideIndex : Z) : FVector :=
  let angle := F32.mul AngleDelta (F32.of_Z (SideIndex + 1)) in
  vec_add Base
          (vec_scale Radius
                     (vec_add (vec_scale (Cos angle) X) (vec_scale (Sin angle) Y))).

(** The body shared by [DrawCircle] and [DrawHalfCircle]: [count] passes
    from [SideIndex] on, each drawing the line from [LastVertex] to the next
    vertex. *)
Fixpoint circle_lines (dedicated : bool) (Base X Y : FVector)
                      (Radius AngleDelta : float) (Color : FColor)
                      (DepthPriority : Z) (Thickness : float)
                      (count : nat) (SideIndex : Z) (LastVertex : FVector)
  : list BatchCall :=
  match count with
  | O => []
  | S count' =>
      let Vertex := circle_vertex Base X Y Radius AngleDelta SideIndex in
      DrawDebugLine dedicated LastVertex Vertex Color DepthPriority Thickness
      ++ circle_lines dedicated Base X Y Radius AngleDelta Color DepthPriority
                      Thickness count' (SideIndex + 1) Vertex
  end.

Definition DrawCircle (dedicated : bool) (Base X Y : FVector) (Color : FColor)
                      (Radius : float) (NumSides : Z) (DepthPriority : Z)
                      (Thickness : float) : list BatchCall :=
  let AngleDelta :=
    F32.div (F32.mul (F32.of_Z 2) PI) (F32.of_Z NumSides) in
  let LastVertex := vec_add Base (vec_scale Radius X) in
  circle_lines dedicated Base X Y Radius AngleDelta Color DepthPriority Thickness
               (Z.to_nat NumSides) 0 LastVertex.

Definition DrawHalfCircle (dedicated : bool) (Base X Y : FVector) (Color : FColor)
                          (Radius : float) (NumSides : Z) (DepthPriority : Z)
                          (Thickness : float) : list BatchCall :=
  let AngleDelta :=
    F32.div (F32.mul (F32.of_Z 2) PI) (F32.of_Z NumSides) in
  let LastVertex := vec_add Base (vec_scale Radius X) in
  circle_lines dedicated Base X Y Radius AngleDelta Color DepthPriority Thickness
               (Z.to_nat (Z.quot NumSides 2)) 0 LastVertex.

Definition DrawDebugCapsule (dedicated : bool) (Center : FVector)
                            (HalfHeight Radius : float) (Rotation : FQuat)
                            (Color : FColor) (DepthPriority : Z)
                            (Thickness : float) : list BatchCall :=
  if dedicated then []
  else
    let DrawCollisionSides := 16 in
    let Origin_ := Center in
    let '(XAxis, YAxis, ZAxis) := RotationAxes Rotation in
    let HalfAxis := FMath_Max (F32.sub HalfHeight Radius) (F32.of_Z 1) in
    let TopEnd := vec_add Origin_ (vec_scale HalfAxis ZAxis) in
    let BottomEnd := vec_sub Origin_ (vec_scale HalfAxis ZAxis) in
    let NegZAxis := vec_neg ZAxis in
    DrawCircle dedicated TopEnd XAxis YAxis Color Radius DrawCollisionSides
               DepthPriority Thickness
    ++ DrawCircle dedicated BottomEnd XAxis YAxis Color Radius DrawCollisionSides
                  DepthPriority Thickness
    ++ DrawHalfCircle dedicated TopEnd YAxis ZAxis Color Radius DrawCollisionSides
                      DepthPriority Thickness
    ++ DrawHalfCircle dedicated TopEnd XAxis ZAxis Color Radius DrawCollisionSides
                      DepthPriority Thickness
    ++ DrawHalfCircle dedicated BottomEnd YAxis NegZAxis Color Radius
                      DrawCollisionSides DepthPriority Thickness
    ++ DrawHalfCircle dedicated BottomEnd XAxis NegZAxis Color Radius
                      DrawCollisionSides DepthPriority Thickness
    ++ DrawDebugLine dedicated (vec_add TopEnd (vec_scale Radius XAxis))
                     (vec_add BottomEnd (vec_scale Radius XAxis))
                     Color DepthPriority Thickness
    ++ DrawDebugLine dedicated (vec_sub TopEnd (vec_scale Radius XAxis))
                     (vec_sub BottomEnd (vec_scale Radius XAxis))
                     Color DepthPriority Thickness
    ++ DrawDebugLine dedicated (vec_add TopEnd (vec_scale Radius YAxis))
                     (vec_add BottomEnd (vec_scale Radius YAxis))
                     Color DepthPriority Thickness
    ++ DrawDebugLine dedicated (vec_sub TopEnd (vec_scale Radius YAxis))
                     (vec_sub BottomEnd (vec_scale Radius YAxis))
                     Color DepthPriority Thickness.

End DrawingPrimitives.

(* ------------------------------------------------------------------ *)
(** ** Vocabulary of the further properties *)

(** The last of the found neighbours, in the order of the road's spline
    array. *)
Definition last_found (splines : list ARoadSpline) (spline : ARoadSpline)
  : option ARoadSpline :=
  match rev (found_splines splines spline) with
  | [] => None
  | t :: _ => Some t
  end.

(** What one neighbour alone decides for [spline]. *)
Definition neighbour_verdict (spline target_spline : ARoadSpline) : bool :=
  if bIsJunction spline then junction_case spline target_spline false
  else
    match OrientationType spline with
    | Left => left_case spline target_spline false
    | Right => right_case spline target_spline false
    | OtherOrientation => false
    end.

(** The splines of one road, in the order of the actor list. *)
Definition of_road (k : Z) (splines : list ARoadSpline) : list ARoadSpline :=
  filter (fun s => RoadID s =? k) splines.

(** The start, the end, the colour and the thickness of a [Line] call. *)
Definition line_start (c : DrawCall) : option FVector :=
  match c with Line a _ _ _ => Some a | _ => None end.

Definition line_end (c : DrawCall) : option FVector :=
  match c with Line _ b _ _ => Some b | _ => None end.

(** A polyline: each call is a line of the given colour and thickness that
    starts where the one before it ended. *)
Fixpoint polyline (color : FColor) (thickness : float) (start : FVector)
                  (calls : list DrawCall) : Prop :=
  match calls with
  | [] => True
  | Line a b c t :: rest =>
      a = start /\ c = color /\ t = thickness /\ polyline color thickness b rest
  | _ :: _ => False
  end.

(** A mesh the batch can draw: at least three vertices, the fan over them
    as index array, every index that of a vertex. *)
Definition well_formed_mesh (m : list FVector * list Z) : Prop :=
  let '(vertices, indices) := m in
  (3 <= List.length vertices)%nat
  /\ indices = fan_indices (List.length vertices)
  /\ List.length indices = (3 * (List.length vertices - 2))%nat
  /\ Forall (fun i => 0 <= i < Z.of_nat (List.length vertices)) indices.

(** The components the dynamic pass does not step over before it looks at
    their mesh. *)
Definition passes_filters (ignored : list nat) (registry : list FCarlaActor)
                          (mc : UMeshComponent) : bool :=
  (IsVisible mc
   && match Owner mc with
      | Some owner =>
          negb (match find_player_actor registry with
                | Some p => Nat.eqb (ActorPtr owner) p
                | None => false
                end)
          && negb (is_ignored_vehicle registry ignored owner)
      | None => false
      end
   && negb (F32.gtb (VecZ (ComponentLocation mc)) (F32.of_Z 10000)))%bool.

Definition with_mesh_components (comps : list UMeshComponent) (w : UWorld)
  : UWorld :=
  mkWorld (IsDedicatedServer w) (ActorRegistry w) comps (TrafficLights w)
          (RoadSplines w) (AuthGameMode w).

(** A chain of single-line batch calls: each starts where the one before it
    ended, all with the same colour, depth priority and thickness and life
    time zero. *)
Fixpoint chained (color : FLinearColor) (depth : Z) (thickness : float)
                 (start : FVector) (calls : list BatchCall) : Prop :=
  match calls with
  | [] => True
  | BatchDrawLine a b c d t l :: rest =>
      a = start /\ c = color /\ d = depth /\ t = thickness /\ l = F32.zero
      /\ chained color depth thickness b rest
  | _ :: _ => False
  end.

(** The linear channel [DrawDebugLine] computes from a colour byte. *)
Definition linear_channel (byte : Z) : float :=
  F32.div (F32.of_Z byte) (F32.of_Z 255).

Definition linear_of (Color : FColor) : FLinearColor :=
  mkLinearColor (linear_channel (ColorR Color)) (linear_channel (ColorG Color))
                (linear_channel (ColorB Color)) (F32.of_Z 1).

(** Two corners of a box are adjacent when exactly one of their signs
    differs; an edge is the same edge in either direction. *)
Definition adjacent (a b : bool * bool * bool) : bool :=
  let '(ax, ay, az) := a in
  let '(bx, by_, bz) := b in
  match xorb ax bx, xorb ay by_, xorb az bz with
  | true, false, false | false, true, false | false, false, true => true
  | _, _, _ => false
  end.

Definition corner_eqb (a b : bool * bool * bool) : bool :=
  let '(ax, ay, az) := a in
  let '(bx, by_, bz) := b in
  (Bool.eqb ax bx && Bool.eqb ay by_ && Bool.eqb az bz)%bool.

Definition same_edge (e f : (bool * bool * bool) * (bool * bool * bool)) : bool :=
  ((corner_eqb (fst e) (fst f) && corner_eqb (snd e) (snd f))
   || (corner_eqb (fst e) (snd f) && corner_eqb (snd e) (fst f)))%bool.

(** No edge of the list occurs twice. *)
Fixpoint distinct_edges (l : list ((bool * bool * bool) * (bool * bool * bool)))
  : bool :=
  match l with
  | [] => true
  | e :: rest => (negb (existsb (same_edge e) rest) && distinct_edges rest)%bool
  end.

(** The road ids of a table of splines by road, and what it means for the
    table to group the splines [l]: one entry per road id of [l], each
    holding the splines of its road. *)
Definition keys (m : list (Z * list ARoadSpline)) : list Z := map fst m.

Definition groups (m : list (Z * list ARoadSpline)) (l : list ARoadSpline)
  : Prop :=
  NoDup (keys m)
  /\ (forall k, In k (keys m) <-> exists s, In s l /\ RoadID s = k)
  /\ (forall k v, In (k, v) m -> v = of_road k l).

(** The colours of a configuration, and a configuration all of whose
    colours are opaque. *)
Definition colors_of (c : CosmosRenderConfig) : list FColor :=
  [ LaneLinesColor c; RoadBoundariesColor c; WaitLinesColor c; CrosswalksColor c;
    RoadMarkingsColor c; TrafficSignsColor c; TrafficLightsColor c; CarsColor c;
    TrucksColor c; PedestriansColor c; CyclistsColor c; PolesColor c ].

Definition all_opaque (c : CosmosRenderConfig) : Prop :=
  Forall (fun color => ColorA color = 255) (colors_of c).

Definition thicknesses_of (c : CosmosRenderConfig) : list float :=
  [ RoadLineThickness c; VehicleBoxThickness c; PoleThickness c;
    StopLineThickness c ].

(** The stencil entries that hold a stencil. *)
Definition is_stencil (entry : option Stencil) : bool :=
  match entry with Some _ => true | None => false end.

(** The colour bytes, 0 to 255. *)
Definition bytes : list Z := map Z.of_nat (seq 0 256).

(** The [DrawDebugMesh] call the spec asks for one closed run of crosswalk
    zone points: for a run of [n >= 3] vertices the mesh of its converted
    vertices with the fan over [n] vertices, in the given colour; nothing
    for a shorter run. *)
Definition drawn_polygon (color : FColor) (r : ClosedRun Location)
  : list DrawCall :=
  let n := S (List.length (run_inner r)) in
  if (3 <=? n)%nat
  then [Mesh (map crosswalk_vertex (run_first r :: run_inner r))
             (fan_indices n) color]
  else [].

(* ------------------------------------------------------------------ *)
(** ** Example scenes *)

Definition vec_of_Z (x y z : Z) : FVector :=
  mkVector (F32.of_Z x) (F32.of_Z y) (F32.of_Z z).

(** A pole: a visible static mesh named after the inclusion rule, owned by
    an actor whose bounds are 200 units high, with a mesh asset 150 units
    high, placed at the given height. *)
Definition example_pole_owner : AActor :=
  mkActor 1 (vec_of_Z 0 0 0) (vec_of_Z 10 10 200) FQuat_Identity.

Definition example_pole (height : Z) : UMeshComponent :=
  mkMeshComponent true (Some example_pole_owner) (vec_of_Z 0 0 height)
                  "SM_Pole_mesh" Poles
                  (StaticMeshComponent
                     (Some (mkBounds (vec_of_Z 0 0 0) (vec_of_Z 10 10 150)
                                     (F32.of_Z 150)))).

(** A stop-box collider at the origin, 100 units long, looking down the X
    axis, and a traffic light that owns it and looks the same way. *)
Definition example_collider : UBoxComponent :=
  mkBoxComponent (vec_of_Z 0 0 50) (vec_of_Z 100 10 10) (vec_of_Z 1 0 0)
                 (vec_of_Z 0 1 0).

Definition example_light : ATrafficLightBase :=
  mkTrafficLight (Some example_collider) (vec_of_Z 1 0 0).

(** A traffic light without any box component. *)
Definition example_bare_light : ATrafficLightBase :=
  mkTrafficLight None (vec_of_Z 1 0 0).

(** A world in which nothing has been spawned yet and no game mode is
    there, and the same world a little later: two lanes of one road, a game
    mode whose map has one triangular crosswalk and one stencil, and a
    traffic light. *)
Definition example_empty_world : UWorld := mkWorld false [] [] [] [] None.

Definition example_late_world : UWorld :=
  mkWorld false [] []
          [example_light]
          [ mkRoadSpline Driving Left 7 2 false [vec_of_Z 0 0 0; vec_of_Z 100 0 0];
            mkRoadSpline Driving Left 7 1 false [vec_of_Z 0 350 0; vec_of_Z 100 350 0] ]
          (Some (mkGameMode
                   [ mkLocation (F32.of_Z 1) F32.zero F32.zero;
                     mkLocation (F32.of_Z 2) F32.zero F32.zero;
                     mkLocation (F32.of_Z 2) (F32.of_Z 1) F32.zero;
                     mkLocation (F32.of_Z 1) F32.zero F32.zero ]
                   [ Some (mkStencil (vec_of_Z 50 0 0) FQuat_Identity
                                     (F64.of_Z 1) (F64.of_Z 3)) ])).

(** A stand-in for the engine's rotation of a vector, used where a run
    needs one: the rotation by the identity. *)
Definition example_rotate (q : FQuat) (v : FVector) : FVector := v.

(** The game mode of the later world. *)
Definition example_game_mode : ACarlaGameModeBase :=
  mkGameMode
    [ mkLocation (F32.of_Z 1) F32.zero F32.zero;
      mkLocation (F32.of_Z 2) F32.zero F32.zero;
      mkLocation (F32.of_Z 2) (F32.of_Z 1) F32.zero;
      mkLocation (F32.of_Z 1) F32.zero F32.zero ]
    [ Some (mkStencil (vec_of_Z 50 0 0) FQuat_Identity (F64.of_Z 1) (F64.of_Z 3)) ].

(** A sensor that has drawn one stop line and nothing else yet, and the
    same sensor after a tick in the empty world followed by a tick in the
    later one. *)
Definition example_drawn_sensor : ACosmosControlSensor :=
  mkSensor true false false false DefaultRenderConfig [] []
           [stop_line DefaultRenderConfig example_collider].

Definition example_grown_sensor : ACosmosControlSensor :=
  Eval vm_compute in
    match run_ticks example_rotate example_drawn_sensor
                    [example_empty_world; example_late_world] with
    | Some s => s
    | None => example_drawn_sensor
    end.

(* ================================================================== *)
(** * Properties *)

(* ------------------------------------------------------------------ *)
(** ** Crosswalk polygons *)

Module CrosswalkFacts.

Lemma triangles_fan_from (count : nat) :
  forall j,
    triangles (fan_from j count)
    = map (fun k => (0, j + Z.of_nat k, j + Z.of_nat k + 1)) (seq 0 count).
Proof.
  induction count as [|count IH]; intro j.
  - reflexivity.
  - cbn [fan_from triangles seq map].
    rewrite IH, <- seq_shift, map_map.
    f_equal.
    + f_equal; [f_equal|]; lia.
    + apply map_ext. intro k. f_equal; [f_equal|]; lia.
Qed.

Lemma triangles_fan_indices (n : nat) :
  triangles (fan_indices n) = fan_triangles n.
Proof.
  unfold fan_indices, fan_triangles.
  rewrite triangles_fan_from.
  apply map_ext. intro k. f_equal; [f_equal|]; lia.
Qed.

Lemma fan_triangles_length (n : nat) :
  List.length (fan_triangles n) = (n - 2)%nat.
Proof.
  unfold fan_triangles. now rewrite length_map, length_seq.
Qed.

Section Loop.

Variable Point : Type.
Variable point_eqb : Point -> Point -> bool.
Variable to_vertex : Point -> FVector.

Let loop := crosswalk_loop Point point_eqb to_vertex.
Let meshes := crosswalk_meshes Point point_eqb to_vertex.

(** Points that differ from the first one are collected. *)
Lemma loop_collects (inner : list Point) :
  forall first current rest,
    Forall (fun p => point_eqb p first = false) inner ->
    loop first current (inner ++ rest)
    = loop first (current ++ map to_vertex inner) rest.
Proof.
  induction inner as [|p inner IH]; intros first current rest Hopen.
  - cbn. now rewrite app_nil_r.
  - inversion Hopen as [|? ? Hp Hrest]; subst.
    cbn [app map]. unfold loop in *. cbn [crosswalk_loop].
    rewrite Hp, IH by assumption.
    now rewrite <- app_assoc.
Qed.

(** A run with no closing point draws nothing. *)
Lemma loop_open (first : Point) (current : list FVector) (tail : list Point) :
  open_run point_eqb first tail -> loop first current tail = [].
Proof.
  intro Hopen.
  rewrite <- (app_nil_r tail).
  unfold open_run in Hopen.
  rewrite loop_collects by assumption.
  reflexivity.
Qed.

(** At the closing point the polygon is drawn or dropped, and the
    remaining points are parsed afresh. *)
Lemma loop_closes (first closer : Point) (current : list FVector)
                  (rest : list Point) :
  point_eqb closer first = true ->
  loop first current (closer :: rest)
  = close_polygon current ++ meshes rest.
Proof.
  intro Hc. unfold loop, meshes. cbn [crosswalk_loop]. rewrite Hc.
  destruct rest; reflexivity.
Qed.

Lemma meshes_run (r : ClosedRun Point) (rest : list Point) :
  closed_run point_eqb r ->
  meshes (run_points r ++ rest) = run_mesh to_vertex r ++ meshes rest.
Proof.
  intros [Hc Hinner].
  unfold run_points. cbn [app].
  change (meshes (run_first r :: (run_inner r ++ [run_closer r]) ++ rest))
    with (loop (run_first r) [to_vertex (run_first r)]
               ((run_inner r ++ [run_closer r]) ++ rest)).
  rewrite <- app_assoc. cbn [app].
  rewrite loop_collects by assumption.
  rewrite loop_closes by assumption.
  reflexivity.
Qed.

Lemma meshes_runs (runs : list (ClosedRun Point)) (rest : list Point) :
  Forall (closed_run point_eqb) runs ->
  meshes (List.concat (map run_points runs) ++ rest)
  = flat_map (run_mesh to_vertex) runs ++ meshes rest.
Proof.
  induction 1 as [|r runs Hr _ IH].
  - reflexivity.
  - cbn [map List.concat flat_map].
    rewrite <- !app_assoc, meshes_run by assumption.
    now rewrite IH.
Qed.

End Loop.

End CrosswalkFacts.

(** C10.  A trailing run that is never closed is not drawn: appending to a
    sequence of closed runs a first point followed by any number of points
    that all differ from it leaves the drawn meshes unchanged, so no mesh
    comes from the vertices of that last run. *)
Theorem trailing_open_run_not_drawn
  (Point : Type) (point_eqb : Point -> Point -> bool)
  (to_vertex : Point -> FVector)
  (runs : list (ClosedRun Point)) (first : Point) (tail : list Point) :
  Forall (closed_run point_eqb) runs ->
  open_run point_eqb first tail ->
  crosswalk_meshes Point point_eqb to_vertex
                   (List.concat (map run_points runs) ++ first :: tail)
  = crosswalk_meshes Point point_eqb to_vertex (List.concat (map run_points runs))
  /\ crosswalk_meshes Point point_eqb to_vertex
                      (List.concat (map run_points runs) ++ first :: tail)
     = flat_map (run_mesh to_vertex) runs
  /\ crosswalk_meshes Point point_eqb to_vertex (first :: tail) = [].
Proof.
  intros Hruns Hopen.
  assert (Htail : crosswalk_meshes Point point_eqb to_vertex (first :: tail) = []).
  { cbn [crosswalk_meshes]. now apply CrosswalkFacts.loop_open. }
  assert (Hall : crosswalk_meshes Point point_eqb to_vertex
                   (List.concat (map run_points runs) ++ first :: tail)
                 = flat_map (run_mesh to_vertex) runs).
  { rewrite CrosswalkFacts.meshes_runs by assumption.
    rewrite Htail. apply app_nil_r. }
  repeat split; try assumption.
  rewrite Hall.
  rewrite <- (app_nil_r (List.concat (map run_points runs))).
  rewrite CrosswalkFacts.meshes_runs by assumption.
  cbn. now rewrite app_nil_r.
Qed.

Lemma trailing_open_run_not_drawn_witness :
  crosswalk_meshes Location Location_eqb crosswalk_vertex
    (List.concat (map run_points
       [ mkRun (mkLocation (F32.of_Z 3) F32.zero F32.zero)
               [ mkLocation (F32.of_Z 4) F32.zero F32.zero;
                 mkLocation (F32.of_Z 4) (F32.of_Z 1) F32.zero ]
               (mkLocation (F32.of_Z 3) F32.zero F32.zero) ])
     ++ mkLocation (F32.of_Z 7) F32.zero F32.zero
        :: [ mkLocation (F32.of_Z 8) F32.zero F32.zero;
             mkLocation (F32.of_Z 8) (F32.of_Z 1) F32.zero;
             mkLocation (F32.of_Z 7) (F32.of_Z 1) F32.zero ])
  = crosswalk_meshes Location Location_eqb crosswalk_vertex
      (List.concat (map run_points
         [ mkRun (mkLocation (F32.of_Z 3) F32.zero F32.zero)
                 [ mkLocation (F32.of_Z 4) F32.zero F32.zero;
                   mkLocation (F32.of_Z 4) (F32.of_Z 1) F32.zero ]
                 (mkLocation (F32.of_Z 3) F32.zero F32.zero) ])).
Proof.
  refine (proj1 (trailing_open_run_not_drawn Location Location_eqb
                   crosswalk_vertex _ _ _ _ _)).
  - repeat (constructor; [split; [reflexivity | repeat constructor] | ]).
    constructor.
  - repeat constructor.
Defined.

(* ------------------------------------------------------------------ *)
(** ** Lane adjacency *)

Module LaneFacts.

(** A loop whose every pass writes the same value ends with that value,
    unless it makes no pass at all. *)
Lemma fold_constant (f : bool -> ARoadSpline -> bool) (v : bool)
                    (found : list ARoadSpline) :
  (forall t sr, In t found -> f sr t = v) ->
  forall init, fold_left f found init = match found with [] => init | _ => v end.
Proof.
  induction found as [|t found IH]; intros Hf init.
  - reflexivity.
  - cbn [fold_left].
    rewrite IH by (intros; apply Hf; now right).
    destruct found; [apply Hf; now left | reflexivity].
Qed.

Lemma found_splines_spec (road : list ARoadSpline) (s t : ARoadSpline) :
  In t (found_splines road s)
  <-> In t road /\ LaneID t = add32 (LaneID s) (lane_shift s).
Proof.
  unfold found_splines. rewrite filter_In, Z.eqb_eq. reflexivity.
Qed.

(** Left-oriented Driving splines of lane id [k > 1]: drawn as soon as the
    road has a spline of lane id [k - 1] and all of those are Driving. *)
Lemma left_driving_rendered (splines : list ARoadSpline) (spline : ARoadSpline) :
  bIsJunction spline = false ->
  OrientationType spline = Left ->
  BoundaryType spline = Driving ->
  1 < LaneID spline <= 46340 ->
  (exists t, In t splines /\ LaneID t = LaneID spline - 1) ->
  (forall t, In t splines -> LaneID t = LaneID spline - 1 ->
             BoundaryType t = Driving) ->
  should_render splines spline = true.
Proof.
  intros Hj Ho Hb Hk [t0 [Hin0 Hl0]] Hall.
  assert (Hshift : add32 (LaneID spline) (lane_shift spline) = LaneID spline - 1).
  { unfold lane_shift, add32, wrap32. rewrite Ho.
    destruct (Z.eqb_spec (LaneID spline) 1) as [E|_]; [lia|].
    replace (LaneID spline + -1 + 2147483648)
      with (LaneID spline - 1 + 2147483648) by lia.
    rewrite Z.mod_small by lia. lia. }
  unfold should_render. rewrite Hj, Ho.
  rewrite (fold_constant _ true).
  - assert (Hf : In t0 (found_splines splines spline)).
    { apply found_splines_spec. rewrite Hshift. now split. }
    destruct (found_splines splines spline); [destruct Hf | reflexivity].
  - intros t sr Ht. apply found_splines_spec in Ht.
    destruct Ht as [Hin Hl]. rewrite Hshift in Hl.
    unfold left_case. rewrite (Hall t Hin Hl), Hb.
    unfold same_side, mul32, wrap32. rewrite Hl.
    rewrite Z.mod_small by nia.
    apply andb_true_iff. split; apply Z.gtb_lt; nia.
Qed.

End LaneFacts.

Module DecisionFacts.

(** A loop whose passes do not read what the one before wrote is decided
    by its last pass. *)
Lemma fold_last (f : bool -> ARoadSpline -> bool) (found : list ARoadSpline) :
  (forall t sr, In t found -> f sr t = f false t) ->
  forall init,
    fold_left f found init
    = match rev found with [] => init | t :: _ => f false t end.
Proof.
  induction found as [|x found IH] using rev_ind; intros Hf init.
  - reflexivity.
  - rewrite fold_left_app, rev_app_distr. cbn.
    apply Hf. apply in_or_app. right. now left.
Qed.

(** A loop that cannot turn [false] into [true] ends with [false]. *)
Lemma fold_stays_false (f : bool -> ARoadSpline -> bool)
      (found : list ARoadSpline) :
  (forall t, f false t = false) -> fold_left f found false = false.
Proof.
  intro Hf. induction found as [|t found IH]; cbn; [reflexivity|].
  now rewrite Hf.
Qed.

Lemma junction_case_reads_nothing (spline t : ARoadSpline) (sr : bool) :
  participates spline = true ->
  junction_case spline t sr = junction_case spline t false.
Proof.
  unfold participates, junction_case.
  destruct (BoundaryType spline), (BoundaryType t); intro; reflexivity || discriminate.
Qed.

Lemma left_case_reads_nothing (spline t : ARoadSpline) (sr : bool) :
  participates spline = true ->
  left_case spline t sr = left_case spline t false.
Proof.
  unfold participates, left_case.
  destruct (BoundaryType spline), (BoundaryType t); intro; reflexivity || discriminate.
Qed.

Lemma right_case_reads_nothing (spline t : ARoadSpline) (sr : bool) :
  participates spline = true ->
  right_case spline t sr = right_case spline t false.
Proof.
  unfold participates, right_case.
  destruct (BoundaryType spline), (BoundaryType t); intro; reflexivity || discriminate.
Qed.

Lemma decided_by_last (splines : list ARoadSpline) (spline : ARoadSpline) :
  participates spline = true ->
  should_render splines spline
  = match last_found splines spline with
    | Some t => neighbour_verdict spline t
    | None => false
    end.
Proof.
  intro Hp. unfold should_render, last_found, neighbour_verdict.
  destruct (bIsJunction spline).
  - rewrite fold_last by (intros; now apply junction_case_reads_nothing).
    now destruct (rev (found_splines splines spline)).
  - destruct (OrientationType spline).
    + rewrite fold_last by (intros; now apply left_case_reads_nothing).
      now destruct (rev (found_splines splines spline)).
    + rewrite fold_last by (intros; now apply right_case_reads_nothing).
      now destruct (rev (found_splines splines spline)).
    + now destruct (rev (found_splines splines spline)).
Qed.

(** A spline of another kind is never decided [true]. *)
Lemma other_kind_not_rendered (splines : list ARoadSpline) (spline : ARoadSpline) :
  participates spline = false -> should_render splines spline = false.
Proof.
  intro Hp. unfold participates in Hp.
  destruct (BoundaryType spline) eqn:Hb; try discriminate.
  unfold should_render.
  destruct (bIsJunction spline); [|destruct (OrientationType spline)];
    try reflexivity; apply fold_stays_false; intro t;
    unfold junction_case, left_case, right_case; rewrite Hb;
    now destruct (BoundaryType t).
Qed.

(** No lane id is its own neighbour: the shift is never a multiple of
    2^32. *)
Lemma shifted_lane_differs (spline : ARoadSpline) :
  add32 (LaneID spline) (lane_shift spline) <> LaneID spline.
Proof.
  unfold add32, wrap32. intro Heq.
  assert (Hs : lane_shift spline = -2 \/ lane_shift spline = -1
               \/ lane_shift spline = 1 \/ lane_shift spline = 2).
  { unfold lane_shift.
    destruct (OrientationType spline);
      destruct (LaneID spline =? 1), (LaneID spline =? -1); auto. }
  pose proof (Z.div_mod (LaneID spline + lane_shift spline + 2147483648)
                        4294967296 ltac:(lia)) as Hdm.
  pose proof (Z.mod_pos_bound (LaneID spline + lane_shift spline + 2147483648)
                              4294967296 ltac:(lia)) as Hb.
  lia.
Qed.

Lemma last_found_in (splines : list ARoadSpline) (spline t : ARoadSpline) :
  last_found splines spline = Some t -> In t (found_splines splines spline).
Proof.
  unfold last_found. intro H. apply in_rev.
  destruct (rev (found_splines splines spline)); [discriminate|].
  injection H as ->. now left.
Qed.

End DecisionFacts.

(** C1, as stated, fails: for the left-oriented Driving spline of lane id +1
    on a road that also holds a Driving spline of lane id +2 the decision is
    not [true]; the lookup does not even select the +2 spline. *)
Lemma lane1_with_lane2_neighbour_not_rendered :
  should_render [ mkRoadSpline Driving Left 7 1 false [];
                  mkRoadSpline Driving Left 7 2 false [] ]
                (mkRoadSpline Driving Left 7 1 false []) <> true
  /\ found_splines [ mkRoadSpline Driving Left 7 1 false [];
                     mkRoadSpline Driving Left 7 2 false [] ]
                   (mkRoadSpline Driving Left 7 1 false []) = [].
Proof.
  split; [discriminate | reflexivity].
Qed.

(** C1, amended.  The neighbour lookup selects the splines of the road whose
    lane id is this spline's lane id plus the shift (-1 for left orientation,
    -2 when the lane id is 1; +1 otherwise, +2 when the lane id is -1).  For
    a left-oriented Driving spline of lane id +1 it therefore selects lane id
    -1, and the decision is [false] whatever the road holds: a Driving
    neighbour of lane id +2 is not looked at, and one of lane id -1 gives a
    negative product.  The decision [true] belongs to the left-oriented
    Driving spline of lane id +2: its lookup selects lane id +1, and it is
    decided [true] exactly when it is no junction spline and the last spline
    of lane id +1 in the road's spline array is a Driving spline; so it is
    [true] as soon as it is no junction spline and the road holds a spline of
    lane id +1 and only Driving splines of that lane id. *)
Theorem left_driving_lane1_decision
  (splines : list ARoadSpline) (spline : ARoadSpline)
  (splines2 : list ARoadSpline) (spline2 : ARoadSpline) :
  OrientationType spline = Left ->
  BoundaryType spline = Driving ->
  LaneID spline = 1 ->
  OrientationType spline2 = Left ->
  BoundaryType spline2 = Driving ->
  LaneID spline2 = 2 ->
  (forall road s t,
      In t (found_splines road s)
      <-> In t road /\ LaneID t = add32 (LaneID s) (lane_shift s))
  /\ (forall s, OrientationType s = Left ->
                lane_shift s = if LaneID s =? 1 then -2 else -1)
  /\ (forall s, OrientationType s = Right ->
                lane_shift s = if LaneID s =? -1 then 2 else 1)
  /\ (forall t, In t (found_splines splines spline)
                <-> In t splines /\ LaneID t = -1)
  /\ should_render splines spline = false
  /\ should_render [ mkRoadSpline Driving Left 7 2 false [];
                     mkRoadSpline Driving Left 7 1 false [] ]
                   (mkRoadSpline Driving Left 7 2 false []) = true
  /\ (forall t, In t (found_splines splines2 spline2)
                <-> In t splines2 /\ LaneID t = 1)
  /\ (should_render splines2 spline2 = true
      <-> bIsJunction spline2 = false
          /\ exists t, last_found splines2 spline2 = Some t
                       /\ BoundaryType t = Driving)
  /\ (bIsJunction spline2 = false ->
      (exists t, In t splines2 /\ LaneID t = 1) ->
      (forall t, In t splines2 -> LaneID t = 1 -> BoundaryType t = Driving) ->
      should_render splines2 spline2 = true).
Proof.
  intros Ho Hb Hl Ho2 Hb2 Hl2.
  assert (Hshift : add32 (LaneID spline) (lane_shift spline) = -1).
  { unfold lane_shift. rewrite Ho, Hl. reflexivity. }
  assert (Hshift2 : add32 (LaneID spline2) (lane_shift spline2) = 1).
  { unfold lane_shift. rewrite Ho2, Hl2. reflexivity. }
  split; [exact LaneFacts.found_splines_spec|].
  split; [intros s Hs; unfold lane_shift; now rewrite Hs|].
  split; [intros s Hs; unfold lane_shift; now rewrite Hs|].
  split; [intro t; rewrite LaneFacts.found_splines_spec, Hshift; reflexivity|].
  split.
  { assert (Hleft : forall t sr, In t (found_splines splines spline) ->
                                 left_case spline t sr = false).
    { intros t sr Ht. apply LaneFacts.found_splines_spec in Ht.
      destruct Ht as [_ Ht]. rewrite Hshift in Ht.
      unfold left_case, same_side. rewrite Hb, Hl, Ht.
      destruct (BoundaryType t); reflexivity. }
    assert (Hjunction : forall t sr, In t (found_splines splines spline) ->
                                     junction_case spline t sr = false).
    { intros t sr _. unfold junction_case. rewrite Hb.
      destruct (BoundaryType t); reflexivity. }
    unfold should_render. rewrite Ho.
    destruct (bIsJunction spline).
    - rewrite (LaneFacts.fold_constant _ false) by (intros; now apply Hjunction).
      now destruct (found_splines splines spline).
    - rewrite (LaneFacts.fold_constant _ false) by (intros; now apply Hleft).
      now destruct (found_splines splines spline). }
  split; [reflexivity|].
  split; [intro t; rewrite LaneFacts.found_splines_spec, Hshift2; reflexivity|].
  split.
  - assert (Hp : participates spline2 = true).
    { unfold participates. now rewrite Hb2. }
    rewrite DecisionFacts.decided_by_last by assumption.
    destruct (last_found splines2 spline2) as [t|] eqn:Hlast.
    + pose proof (DecisionFacts.last_found_in _ _ _ Hlast) as Hin.
      apply LaneFacts.found_splines_spec in Hin.
      destruct Hin as [_ Hlt]. rewrite Hshift2 in Hlt.
      unfold neighbour_verdict, junction_case, left_case, same_side.
      rewrite Ho2, Hb2, Hl2, Hlt.
      destruct (bIsJunction spline2), (BoundaryType t) eqn:Hbt; cbn;
        split;
        try discriminate;
        try (intros [Hj _]; discriminate);
        try (intros [_ [t' [Ht' Hd]]]; injection Ht' as <-; congruence);
        intros _; split; [reflexivity | exists t; now split].
    + split; [discriminate | intros [_ [t [Ht _]]]; discriminate].
  - intros Hj Hex Hall.
    apply LaneFacts.left_driving_rendered; try assumption.
    + rewrite Hl2. lia.
    + rewrite Hl2. exact Hex.
    + rewrite Hl2. exact Hall.
Qed.

Lemma left_driving_lane1_decision_witness :
  should_render [ mkRoadSpline Driving Left 7 1 false [];
                  mkRoadSpline Driving Right 7 (-1) false [] ]
                (mkRoadSpline Driving Left 7 1 false []) = false
  /\ (should_render [ mkRoadSpline Driving Left 7 2 false [];
                      mkRoadSpline Shoulder Left 7 1 false [];
                      mkRoadSpline Driving Left 7 1 false [] ]
                    (mkRoadSpline Driving Left 7 2 false []) = true
      <-> bIsJunction (mkRoadSpline Driving Left 7 2 false []) = false
          /\ exists t,
               last_found [ mkRoadSpline Driving Left 7 2 false [];
                            mkRoadSpline Shoulder Left 7 1 false [];
                            mkRoadSpline Driving Left 7 1 false [] ]
                          (mkRoadSpline Driving Left 7 2 false []) = Some t
               /\ BoundaryType t = Driving).
Proof.
  pose proof (left_driving_lane1_decision
                [ mkRoadSpline Driving Left 7 1 false [];
                  mkRoadSpline Driving Right 7 (-1) false [] ]
                (mkRoadSpline Driving Left 7 1 false [])
                [ mkRoadSpline Driving Left 7 2 false [];
                  mkRoadSpline Shoulder Left 7 1 false [];
                  mkRoadSpline Driving Left 7 1 false [] ]
                (mkRoadSpline Driving Left 7 2 false [])
                eq_refl eq_refl eq_refl eq_refl eq_refl eq_refl)
    as [_ [_ [_ [_ [Hfalse [_ [_ [Hiff _]]]]]]]].
  split; [exact Hfalse | exact Hiff].
Defined.

(* ------------------------------------------------------------------ *)
(** ** The classifier *)

(** C9.  [GetColorByTag] is a total function of the configuration and the
    tag: each of the ten named tags gets the configured colour of its
    category (Car, Bus, Motorcycle and Train share the cars colour, Bicycle
    has the cyclists colour), and every other tag gets white. *)
Theorem GetColorByTag_table (cfg : CosmosRenderConfig) :
  GetColorByTag cfg TrafficLight = TrafficLightsColor cfg
  /\ GetColorByTag cfg TrafficSigns = TrafficSignsColor cfg
  /\ GetColorByTag cfg Poles = PolesColor cfg
  /\ GetColorByTag cfg Car = CarsColor cfg
  /\ GetColorByTag cfg Bus = CarsColor cfg
  /\ GetColorByTag cfg Motorcycle = CarsColor cfg
  /\ GetColorByTag cfg Train = CarsColor cfg
  /\ GetColorByTag cfg Truck = TrucksColor cfg
  /\ GetColorByTag cfg Bicycle = CyclistsColor cfg
  /\ GetColorByTag cfg Pedestrians = PedestriansColor cfg
  /\ (forall code, GetColorByTag cfg (OtherLabel code) = mkColor 255 255 255 255)
  /\ (forall tag,
        In tag [TrafficLight; TrafficSigns; Poles; Car; Bus; Motorcycle; Train;
                Truck; Bicycle; Pedestrians]
        \/ GetColorByTag cfg tag = FColor_White)
  /\ (forall tag,
        In (GetColorByTag cfg tag)
           [TrafficLightsColor cfg; TrafficSignsColor cfg; PolesColor cfg;
            CarsColor cfg; TrucksColor cfg; CyclistsColor cfg;
            PedestriansColor cfg; FColor_White]).
Proof.
  repeat split; try reflexivity.
  - intro tag. destruct tag; cbn; auto 12.
  - intro tag. destruct tag; cbn; auto 12.
Qed.

(* ------------------------------------------------------------------ *)
(** ** Configuration loading *)

Module ConfigFacts.

(** A thickness whose key is absent from the [LineThickness] object is
    overwritten with zero. *)
Lemma missing_thickness_is_zero (parse : string -> double)
      (Thickness : FJsonObject) (FieldName : string) :
  FindField Thickness FieldName = None ->
  F64.to_float (GetNumberField parse Thickness FieldName) = F32.zero.
Proof.
  intro Hnone. unfold GetNumberField. now rewrite Hnone.
Qed.

(** The colours are untouched by a configuration without colour arrays. *)
Lemma LoadColor_missing (parse : string -> double) (Colors : FJsonObject)
      (Key : string) (Color : FColor) :
  FindField Colors Key = None -> LoadColor parse Colors Key Color = Color.
Proof.
  intro Hnone. unfold LoadColor, TryGetArrayField. now rewrite Hnone.
Qed.

End ConfigFacts.

(** C5 at the input the claim names: a file whose [LineThickness] object
    sets [road_lines] alone (here to 4).  The road-line thickness is loaded
    and the twelve colours keep their defaults, but the three other
    thicknesses are overwritten with 0.0 and so lose their defaults 5, 8
    and 8. *)
Theorem LoadConfig_road_lines_only (parse : string -> double) :
  let file :=
    FileText (Some [("CosmosControlVisualization"%string,
                     JsonObject [("LineThickness"%string,
                                  JsonObject [("road_lines"%string,
                                               JsonNumber (F64.of_Z 4))])])]) in
  let loaded := LoadConfigFromFile parse DefaultRenderConfig file in
  RoadLineThickness loaded = F32.of_Z 4
  /\ VehicleBoxThickness loaded = F32.zero
  /\ PoleThickness loaded = F32.zero
  /\ StopLineThickness loaded = F32.zero
  /\ VehicleBoxThickness loaded <> VehicleBoxThickness DefaultRenderConfig
  /\ PoleThickness loaded <> PoleThickness DefaultRenderConfig
  /\ StopLineThickness loaded <> StopLineThickness DefaultRenderConfig
  /\ [ LaneLinesColor loaded; RoadBoundariesColor loaded; WaitLinesColor loaded;
       CrosswalksColor loaded; RoadMarkingsColor loaded; TrafficSignsColor loaded;
       TrafficLightsColor loaded; CarsColor loaded; TrucksColor loaded;
       PedestriansColor loaded; CyclistsColor loaded; PolesColor loaded ]
     = [ LaneLinesColor DefaultRenderConfig; RoadBoundariesColor DefaultRenderConfig;
         WaitLinesColor DefaultRenderConfig; CrosswalksColor DefaultRenderConfig;
         RoadMarkingsColor DefaultRenderConfig; TrafficSignsColor DefaultRenderConfig;
         TrafficLightsColor DefaultRenderConfig; CarsColor DefaultRenderConfig;
         TrucksColor DefaultRenderConfig; PedestriansColor DefaultRenderConfig;
         CyclistsColor DefaultRenderConfig; PolesColor DefaultRenderConfig ].
Proof.
  cbv zeta.
  repeat split; try reflexivity; vm_compute; discriminate.
Qed.

(* ------------------------------------------------------------------ *)
(** ** Dynamic objects *)

Module DynamicFacts.

(** What [draw_tagged] emits for a pole. *)
Lemma draw_tagged_pole (cfg : CosmosRenderConfig) (mc : UMeshComponent)
      (owner : AActor) (bounds : FBoxSphereBounds) (box_extent : FVector) :
  TagOfTaggedComponent mc = Poles ->
  draw_tagged cfg mc owner bounds box_extent
  = [Capsule (vec_add (ComponentLocation mc)
                      (mkVector F32.zero F32.zero
                                (F32.fmax (VecZ (BoxExtent bounds)) (VecZ box_extent))))
             (F32.add (F32.fmax (VecZ (BoxExtent bounds)) (VecZ box_extent))
                      (ground_offset (VecZ (ComponentLocation mc))))
             F32.tenth FQuat_Identity (PolesColor cfg) (PoleThickness cfg)].
Proof.
  intro Htag. unfold draw_tagged. rewrite Htag. reflexivity.
Qed.

End DynamicFacts.

(** C6.  Every capsule drawn for a pole-tagged mesh component has as half
    height the larger of the derived vertical extent and the raw vertical
    extent of the actor bounds, plus the ground offset: zero when the
    component's height exceeds 250, the height itself otherwise; its radius
    is the float 0.1.  A pole at height 300 gets offset zero, one at height
    100 gets offset 100. *)
Theorem pole_capsule_half_height
  (cfg : CosmosRenderConfig) (ignored : list nat) (registry : list FCarlaActor)
  (player_actor : option nat) (mc : UMeshComponent) (c : DrawCall) :
  TagOfTaggedComponent mc = Poles ->
  In c (annotate_component cfg ignored registry player_actor mc) ->
  (exists owner,
      Owner mc = Some owner
      /\ annotate_component cfg ignored registry player_actor mc = [c]
      /\ let half_height :=
           F32.fmax (derived_extent_z mc owner) (VecZ (ActorBoundsExtent owner)) in
         c = Capsule (vec_add (ComponentLocation mc)
                              (mkVector F32.zero F32.zero half_height))
                     (F32.add half_height
                              (ground_offset (VecZ (ComponentLocation mc))))
                     F32.tenth FQuat_Identity (PolesColor cfg) (PoleThickness cfg))
  /\ ground_offset (F32.of_Z 300) = F32.zero
  /\ ground_offset (F32.of_Z 100) = F32.of_Z 100
  /\ F32.tenth = S754_finite false 13421773 (-27)
  /\ annotate_component DefaultRenderConfig [] [] None (example_pole 300)
     = [Capsule (vec_of_Z 0 0 500) (F32.add (F32.of_Z 200) F32.zero) F32.tenth
                FQuat_Identity (PolesColor DefaultRenderConfig) (F32.of_Z 8)]
  /\ annotate_component DefaultRenderConfig [] [] None (example_pole 100)
     = [Capsule (vec_of_Z 0 0 300) (F32.add (F32.of_Z 200) (F32.of_Z 100))
                F32.tenth FQuat_Identity (PolesColor DefaultRenderConfig)
                (F32.of_Z 8)].
Proof.
  intros Htag Hin.
  split; [|repeat split; reflexivity].
  unfold annotate_component in *.
  destruct (negb (IsVisible mc)); [destruct Hin|].
  destruct (Owner mc) as [owner|]; [|destruct Hin].
  exists owner. split; [reflexivity|].
  destruct (match player_actor with
            | Some p => Nat.eqb (ActorPtr owner) p
            | None => false
            end); [destruct Hin|].
  destruct (is_ignored_vehicle registry ignored owner); [destruct Hin|].
  destruct (F32.gtb (VecZ (ComponentLocation mc)) (F32.of_Z 10000));
    [destruct Hin|].
  unfold derived_extent_z.
  destruct (Kind mc) as [[mesh|]|[mesh|]|].
  - destruct (negb (FString_Contains (ComponentName mc) "mesh")
              || FString_Contains (ComponentName mc) "road")%bool;
      [destruct Hin|].
    rewrite DynamicFacts.draw_tagged_pole in * by assumption.
    destruct Hin as [<-|[]]. split; reflexivity.
  - rewrite DynamicFacts.draw_tagged_pole in * by assumption.
    destruct Hin as [<-|[]]. split; reflexivity.
  - rewrite DynamicFacts.draw_tagged_pole in * by assumption.
    destruct Hin as [<-|[]]. split; reflexivity.
  - rewrite DynamicFacts.draw_tagged_pole in * by assumption.
    destruct Hin as [<-|[]]. split; reflexivity.
  - destruct Hin.
Qed.

Lemma pole_capsule_half_height_witness :
  exists owner,
    Owner (example_pole 100) = Some owner
    /\ annotate_component DefaultRenderConfig [] [] None (example_pole 100)
       = [Capsule (vec_of_Z 0 0 300) (F32.of_Z 300) F32.tenth FQuat_Identity
                  (PolesColor DefaultRenderConfig) (F32.of_Z 8)]
    /\ let half_height :=
         F32.fmax (derived_extent_z (example_pole 100) owner)
                  (VecZ (ActorBoundsExtent owner)) in
       Capsule (vec_of_Z 0 0 300) (F32.of_Z 300) F32.tenth FQuat_Identity
               (PolesColor DefaultRenderConfig) (F32.of_Z 8)
       = Capsule (vec_add (ComponentLocation (example_pole 100))
                          (mkVector F32.zero F32.zero half_height))
                 (F32.add half_height
                          (ground_offset (VecZ (ComponentLocation (example_pole 100)))))
                 F32.tenth FQuat_Identity (PolesColor DefaultRenderConfig)
                 (PoleThickness DefaultRenderConfig).
Proof.
  refine (proj1 (pole_capsule_half_height DefaultRenderConfig [] [] None
                   (example_pole 100) _ _ _)).
  - reflexivity.
  - left. reflexivity.
Defined.

(* ------------------------------------------------------------------ *)
(** ** Stop lines *)

Module StopLineFacts.

(** Rounding is symmetric in the sign. *)
Lemma round_aux_negb (s : bool) (m e : Z) (l : location) :
  binary_round_aux F32.prec F32.emax (negb s) m e l
  = SFopp (binary_round_aux F32.prec F32.emax s m e l).
Proof.
  unfold binary_round_aux.
  destruct (shr_fexp F32.prec F32.emax m e l) as [mrs' e'].
  destruct (shr_fexp F32.prec F32.emax _ e' loc_Exact) as [mrs'' e''].
  destruct (shr_m mrs''); try reflexivity.
  destruct (e'' <=? F32.emax - F32.prec); reflexivity.
Qed.

Lemma mul_opp_r (a b : float) :
  F32.mul a (F32.opp b) = F32.opp (F32.mul a b).
Proof.
  unfold F32.mul, F32.opp.
  destruct a as [sa|sa| |sa ma ea], b as [sb|sb| |sb mb eb]; cbn;
    try reflexivity; try (now rewrite xorb_negb_r || now destruct sa, sb).
  rewrite <- round_aux_negb. f_equal. now destruct sa, sb.
Qed.

Lemma vec_scale_opp (s : float) (v : FVector) :
  vec_scale (F32.opp s) v = vec_neg (vec_scale s v).
Proof.
  unfold vec_scale, vec_neg. cbn. now rewrite !mul_opp_r.
Qed.

(** When every light has a collider the loop draws one line per light. *)
Lemma stop_line_calls_all (cfg : CosmosRenderConfig)
      (lights : list ATrafficLightBase) :
  forall colliders,
    map StopBoxCollider lights = map Some colliders ->
    stop_line_calls cfg lights = Some (map (stop_line cfg) colliders).
Proof.
  induction lights as [|l lights IH]; intros [|c colliders] Hmap;
    try discriminate; [reflexivity|].
  cbn in Hmap. injection Hmap as Hc Hrest.
  cbn [stop_line_calls map]. rewrite Hc, (IH _ Hrest). reflexivity.
Qed.

Lemma colliders_present_all (w : UWorld) :
  colliders_present w ->
  exists colliders, map StopBoxCollider (TrafficLights w) = map Some colliders.
Proof.
  unfold colliders_present.
  induction 1 as [|l lights Hl _ [cs IH]].
  - now exists [].
  - destruct (StopBoxCollider l) as [c|] eqn:E; [|contradiction].
    exists (c :: cs). cbn. now rewrite E, IH.
Qed.

(** One light without a collider is enough for the null dereference. *)
Lemma stop_line_calls_fault (cfg : CosmosRenderConfig)
      (lights : list ATrafficLightBase) :
  Exists (fun l => StopBoxCollider l = None) lights ->
  stop_line_calls cfg lights = None.
Proof.
  induction 1 as [l lights Hl | l lights _ IH]; cbn [stop_line_calls].
  - now rewrite Hl.
  - rewrite IH. now destruct (StopBoxCollider l).
Qed.

End StopLineFacts.

(** C8, as stated, fails: for the example light, whose collider looks the
    same way as the light, the drawn stop line runs from (-100, -710, -6) to
    (100, -710, -6); its direction (200, 0, 0) is parallel to the forward
    axis of the light and of the collider, not perpendicular to it. *)
Lemma stop_line_not_perpendicular_to_forward :
  StopBoxCollider example_light = Some example_collider
  /\ stop_line DefaultRenderConfig example_collider
     = Line (vec_of_Z (-100) (-710) (-6)) (vec_of_Z 100 (-710) (-6))
            (WaitLinesColor DefaultRenderConfig) (F32.of_Z 8)
  /\ line_direction (stop_line DefaultRenderConfig example_collider)
     = vec_of_Z 200 0 0
  /\ perpendicular (line_direction (stop_line DefaultRenderConfig example_collider))
                   (ActorForwardVector example_light) = false
  /\ perpendicular (line_direction (stop_line DefaultRenderConfig example_collider))
                   (ForwardVector example_collider) = false.
Proof.
  repeat split; reflexivity.
Qed.

(** C8, amended.  For every traffic light with a stop-box collider the stop
    line is drawn once, as a persistent line in the wait-line colour with the
    configured stop-line thickness.  It runs along the collider's forward
    vector: its ends are the base point minus and plus the forward vector
    scaled by the collider's scaled X extent, both shifted against the
    collider's right vector by 710 units; the base point has the collider's
    X and Y and the height minus (half the stop-line thickness plus 2). *)
Theorem stop_line_geometry
  (self : ACosmosControlSensor) (World : UWorld) (colliders : list UBoxComponent) :
  added_persisted_stop_lines self = false ->
  IsDedicatedServer World = false ->
  map StopBoxCollider (TrafficLights World) = map Some colliders ->
  (exists s,
      StopLinesBlock self World = Some s
      /\ PersistentLines s
         = PersistentLines self ++ map (stop_line (RenderConfig self)) colliders
      /\ DynamicLines s = DynamicLines self)
  /\ (forall (cfg : CosmosRenderConfig) (c : UBoxComponent),
        let base :=
          mkVector (VecX (BoxLocation c)) (VecY (BoxLocation c))
                   (F32.opp (F32.add (F32.mul (StopLineThickness cfg) F32.half)
                                     (F32.of_Z 2))) in
        let along := vec_scale (VecX (ScaledBoxExtent c)) (ForwardVector c) in
        let lateral := vec_scale (F32.of_Z 710) (RightVector c) in
        stop_line cfg c
        = Line (vec_sub (vec_add base (vec_neg along)) lateral)
               (vec_sub (vec_add base along) lateral)
               (WaitLinesColor cfg) (StopLineThickness cfg)).
Proof.
  intros Hflag Hnet Hmap. split.
  - unfold StopLinesBlock. rewrite Hflag.
    cbn [RenderConfig set_stop_lines].
    rewrite (StopLineFacts.stop_line_calls_all _ _ _ Hmap).
    eexists. split; [reflexivity|].
    unfold Draw. rewrite Hnet. split; reflexivity.
  - intros cfg c. cbv zeta. unfold stop_line.
    now rewrite StopLineFacts.vec_scale_opp.
Qed.

Lemma stop_line_geometry_witness :
  exists s,
    StopLinesBlock NewSensor example_late_world = Some s
    /\ PersistentLines s
       = PersistentLines NewSensor
         ++ map (stop_line (RenderConfig NewSensor)) [example_collider]
    /\ DynamicLines s = DynamicLines NewSensor.
Proof.
  refine (proj1 (stop_line_geometry NewSensor example_late_world
                                    [example_collider] _ _ _)).
  - reflexivity.
  - reflexivity.
  - reflexivity.
Defined.

(** C4 at a failing input: on a sensor that has not drawn its stop lines
    yet, a world whose only traffic light has no box component makes the
    stop-line loop dereference the null collider; the element is not
    skipped. *)
Theorem missing_collider_is_dereferenced
  (RotateVector : FQuat -> FVector -> FVector) :
  StopBoxCollider example_bare_light = None
  /\ stop_line_calls DefaultRenderConfig [example_bare_light] = None
  /\ StopLinesBlock NewSensor (mkWorld false [] [] [example_bare_light] [] None)
     = None
  /\ PostPhysTick RotateVector NewSensor
                  (mkWorld false [] [] [example_bare_light] [] None) = None
  /\ PostPhysTick RotateVector NewSensor
                  (mkWorld false [] [] [example_light; example_bare_light] [] None)
     = None.
Proof.
  repeat split; reflexivity.
Qed.

(* ------------------------------------------------------------------ *)
(** ** The one-shot flags *)

Module TickFacts.

(** With its flag set, the stop-line block does nothing, whatever the
    world holds. *)
Lemma StopLinesBlock_done (s : ACosmosControlSensor) (w : UWorld) :
  added_persisted_stop_lines s = true -> StopLinesBlock s w = Some s.
Proof.
  intro Hflag. unfold StopLinesBlock. now rewrite Hflag.
Qed.

Lemma Draw_stop_flag (w : UWorld) (p : bool) (calls : list DrawCall)
      (s : ACosmosControlSensor) :
  added_persisted_stop_lines (Draw w p calls s) = added_persisted_stop_lines s.
Proof.
  unfold Draw. destruct (IsDedicatedServer w), p; reflexivity.
Qed.

Section WithRotation.

Variable RotateVector : FQuat -> FVector -> FVector.

(** One tick, in full: it succeeds unless the stop-line loop meets a
    light without collider, and then the flags, the configuration and
    the persistent batch are the following. *)
Lemma tick_effect (s : ACosmosControlSensor) (w : UWorld) :
  added_persisted_stop_lines s = true \/ colliders_present w ->
  exists s',
    PostPhysTick RotateVector s w = Some s'
    /\ added_persisted_stop_lines s' = true
    /\ added_persisted_route_lines s'
       = (added_persisted_route_lines s
          || (0 <? List.length (RoadSplines w))%nat)%bool
    /\ added_persisted_crosswalks s'
       = (added_persisted_crosswalks s || has_game_mode w)%bool
    /\ added_persisted_stencils s'
       = (added_persisted_stencils s || has_game_mode w)%bool
    /\ RenderConfig s' = RenderConfig s
    /\ PersistentLines s'
       = PersistentLines s
         ++ (if IsDedicatedServer w then []
             else
               once (added_persisted_stop_lines s)
                    (stop_lines_of (RenderConfig s) w)
               ++ once (added_persisted_route_lines s)
                       (route_line_calls (RenderConfig s) (RoadSplines w))
               ++ match AuthGameMode w with
                  | Some carla_game_mode =>
                      once (added_persisted_crosswalks s)
                           (crosswalk_calls (RenderConfig s)
                              (AllCrosswalkZones carla_game_mode))
                      ++ once (added_persisted_stencils s)
                              (stencil_calls RotateVector (RenderConfig s)
                                 (Stencils carla_game_mode))
                  | None => []
                  end).
Proof.
  intro Hok.
  assert (Hcalls : added_persisted_stop_lines s = true
                   \/ exists calls,
                        stop_line_calls (RenderConfig s) (TrafficLights w)
                        = Some calls).
  { destruct Hok as [Hset|Hpresent]; [now left | right].
    destruct (StopLineFacts.colliders_present_all w Hpresent) as [cs Hcs].
    eexists. apply StopLineFacts.stop_line_calls_all. exact Hcs. }
  clear Hok.
  destruct s as [stop route cross sten cfg ignored dyn pers].
  destruct w as [dedicated registry comps lights splines gm].
  unfold PostPhysTick, StopLinesBlock, RouteLinesBlock, CrosswalksBlock,
    StencilsBlock, Draw, stop_lines_of, has_game_mode, once in *.
  cbn [added_persisted_stop_lines added_persisted_route_lines
       added_persisted_crosswalks added_persisted_stencils RenderConfig
       IgnoredVehicles DynamicLines PersistentLines set_dynamic
       set_persistent set_stop_lines set_route_lines set_crosswalks
       set_stencils IsDedicatedServer TrafficLights RoadSplines
       AuthGameMode] in *.
  destruct stop.
  - destruct dedicated, route, cross, sten, gm as [g|],
      (0 <? List.length splines)%nat;
      cbn; eexists; repeat split;
      rewrite ?app_nil_r, <- ?app_assoc; reflexivity.
  - destruct Hcalls as [Hset|[calls Hcalls]]; [discriminate|].
    destruct dedicated, route, cross, sten, gm as [g|],
      (0 <? List.length splines)%nat;
      cbn; rewrite Hcalls; cbn; eexists; repeat split;
      rewrite ?app_nil_r, <- ?app_assoc; reflexivity.
Qed.

(** With the stop-line flag set, a tick does not look at the traffic
    lights. *)
Lemma tick_ignores_lights (s : ACosmosControlSensor) (w w' : UWorld) :
  added_persisted_stop_lines s = true ->
  respawned w w' ->
  PostPhysTick RotateVector s w' = PostPhysTick RotateVector s w.
Proof.
  intros Hflag [lights ->].
  unfold PostPhysTick.
  rewrite !StopLinesBlock_done
    by (rewrite Draw_stop_flag; exact Hflag).
  reflexivity.
Qed.

Lemma run_ignores_lights (ws ws' : list UWorld) :
  Forall2 respawned ws ws' ->
  forall s,
    added_persisted_stop_lines s = true ->
    exists s',
      run_ticks RotateVector s ws = Some s'
      /\ run_ticks RotateVector s ws' = Some s'
      /\ added_persisted_stop_lines s' = true.
Proof.
  induction 1 as [|w w' ws ws' Hw _ IH]; intros s Hflag.
  - now exists s.
  - cbn [run_ticks].
    rewrite (tick_ignores_lights s w w' Hflag Hw).
    destruct (tick_effect s w (or_introl Hflag)) as [s1 [Htick [Hstop _]]].
    rewrite Htick. now apply IH.
Qed.

Lemma stop_line_calls_some (cfg : CosmosRenderConfig)
      (lights : list ATrafficLightBase) :
  forall calls,
    stop_line_calls cfg lights = Some calls ->
    Forall (fun l => StopBoxCollider l <> None) lights.
Proof.
  induction lights as [|l lights IH]; intros calls Hcalls.
  - constructor.
  - cbn [stop_line_calls] in Hcalls.
    destruct (StopBoxCollider l) as [c|] eqn:Hc; [|discriminate].
    destruct (stop_line_calls cfg lights) as [rest|] eqn:Hrest; [|discriminate].
    constructor; [rewrite Hc; discriminate | now apply (IH rest)].
Qed.

(** A tick that completes met no light without collider, unless the
    stop lines were done already. *)
Lemma tick_completes_inv (s s' : ACosmosControlSensor) (w : UWorld) :
  PostPhysTick RotateVector s w = Some s' ->
  added_persisted_stop_lines s = true \/ colliders_present w.
Proof.
  intro Htick.
  destruct (added_persisted_stop_lines s) eqn:Hflag; [now left | right].
  unfold PostPhysTick, StopLinesBlock in Htick.
  rewrite Draw_stop_flag in Htick. cbn [set_dynamic added_persisted_stop_lines] in Htick.
  rewrite Hflag in Htick.
  destruct (stop_line_calls _ (TrafficLights w)) as [calls|] eqn:Hcalls;
    [|discriminate].
  exact (stop_line_calls_some _ _ _ Hcalls).
Qed.

(** Flags never go back. *)
Lemma run_flags_monotone (ws : list UWorld) :
  forall s s',
    run_ticks RotateVector s ws = Some s' ->
    (added_persisted_stop_lines s = true -> added_persisted_stop_lines s' = true)
    /\ (added_persisted_route_lines s = true -> added_persisted_route_lines s' = true)
    /\ (added_persisted_crosswalks s = true -> added_persisted_crosswalks s' = true)
    /\ (added_persisted_stencils s = true -> added_persisted_stencils s' = true).
Proof.
  induction ws as [|w ws IH]; intros s s' Hrun; cbn [run_ticks] in Hrun.
  - injection Hrun as <-. auto.
  - destruct (PostPhysTick RotateVector s w) as [s1|] eqn:Htick; [|discriminate].
    destruct (tick_effect s w (tick_completes_inv _ _ _ Htick))
      as [s1' [Htick' [Hstop [Hroute [Hcross [Hsten _]]]]]].
    rewrite Htick in Htick'. injection Htick' as <-.
    destruct (IH _ _ Hrun) as [I1 [I2 [I3 I4]]].
    repeat split; intro Hset.
    + auto.
    + apply I2. rewrite Hroute, Hset. reflexivity.
    + apply I3. rewrite Hcross, Hset. reflexivity.
    + apply I4. rewrite Hsten, Hset. reflexivity.
Qed.

End WithRotation.

End TickFacts.

(* ------------------------------------------------------------------ *)
(** ** The crosswalk polygons as drawn *)

Module DrawnFacts.

Lemma run_mesh_drawn (cfg : CosmosRenderConfig) (r : ClosedRun Location) :
  map (fun '(mesh_vertices, mesh_indices) =>
         Mesh mesh_vertices mesh_indices (CrosswalksColor cfg))
      (run_mesh crosswalk_vertex r)
  = drawn_polygon (CrosswalksColor cfg) r.
Proof.
  unfold run_mesh, drawn_polygon, run_polygon.
  rewrite length_map. cbn [List.length].
  now destruct (3 <=? S (List.length (run_inner r)))%nat.
Qed.

(** The [DrawDebugMesh] calls of a zone sequence made of closed runs. *)
Lemma crosswalk_calls_closed (cfg : CosmosRenderConfig)
      (zone_runs : list (ClosedRun Location)) :
  Forall (closed_run Location_eqb) zone_runs ->
  crosswalk_calls cfg (List.concat (map run_points zone_runs))
  = flat_map (drawn_polygon (CrosswalksColor cfg)) zone_runs.
Proof.
  intro Hruns. unfold crosswalk_calls.
  rewrite <- (app_nil_r (List.concat (map run_points zone_runs))).
  rewrite CrosswalkFacts.meshes_runs by assumption.
  cbn [crosswalk_meshes]. rewrite app_nil_r.
  clear Hruns. induction zone_runs as [|r zone_runs IH]; [reflexivity|].
  cbn [flat_map]. rewrite map_app, IH, run_mesh_drawn. reflexivity.
Qed.

(** The crosswalk block of a sensor that has not drawn its crosswalks yet,
    in a world with a game mode and a visual client. *)
Lemma CrosswalksBlock_draws (self : ACosmosControlSensor) (World : UWorld)
      (carla_game_mode : ACarlaGameModeBase) :
  AuthGameMode World = Some carla_game_mode ->
  added_persisted_crosswalks self = false ->
  IsDedicatedServer World = false ->
  added_persisted_crosswalks (CrosswalksBlock self World) = true
  /\ PersistentLines (CrosswalksBlock self World)
     = PersistentLines self
       ++ crosswalk_calls (RenderConfig self) (AllCrosswalkZones carla_game_mode).
Proof.
  intros Hgm Hflag Hded. unfold CrosswalksBlock, Draw.
  rewrite Hgm, Hflag, Hded. split; reflexivity.
Qed.

End DrawnFacts.

(** C2.  In a crosswalk point sequence made of closed runs (each run ends
    with a point that repeats its first point), every run of [n >= 3]
    vertices is drawn as one mesh whose index array is the fan from vertex 0,
    exactly [n - 2] triangles [(0, k+1, k+2)], and every run of fewer than
    three vertices draws nothing.  The meshes are drawn: for the crosswalk
    zones of the game mode's map the crosswalk block of a sensor that has not
    drawn them yet calls [DrawDebugMesh] once per run of at least three
    vertices, with these vertices, the fan and the crosswalk colour, the
    calls go to the persistent batch in the order of the runs, and the tick
    leaves them there.  In particular [A,B,C,A,D,E,F,D] draws exactly the two
    polygons [A,B,C] and [D,E,F], one triangle each. *)
Theorem crosswalk_closed_runs_fan
  (Point : Type) (point_eqb : Point -> Point -> bool)
  (to_vertex : Point -> FVector)
  (runs : list (ClosedRun Point)) (A B C D E F : Point) :
  Forall (closed_run point_eqb) runs ->
  point_eqb A A = true -> point_eqb B A = false -> point_eqb C A = false ->
  point_eqb D D = true -> point_eqb E D = false -> point_eqb F D = false ->
  crosswalk_meshes Point point_eqb to_vertex (List.concat (map run_points runs))
  = flat_map (run_mesh to_vertex) runs
  /\ (forall r : ClosedRun Point,
        let n := S (List.length (run_inner r)) in
        (3 <= n)%nat ->
        run_mesh to_vertex r
        = [(map to_vertex (run_first r :: run_inner r), fan_indices n)]
        /\ triangles (fan_indices n) = fan_triangles n
        /\ List.length (triangles (fan_indices n)) = (n - 2)%nat)
  /\ (forall r : ClosedRun Point,
        (S (List.length (run_inner r)) < 3)%nat -> run_mesh to_vertex r = [])
  /\ crosswalk_meshes Point point_eqb to_vertex [A; B; C; A; D; E; F; D]
     = [ ([to_vertex A; to_vertex B; to_vertex C], [0; 1; 2]);
         ([to_vertex D; to_vertex E; to_vertex F], [0; 1; 2]) ]
  /\ triangles [0; 1; 2] = [(0, 1, 2)]
  /\ (forall (RotateVector : FQuat -> FVector -> FVector)
             (self : ACosmosControlSensor) (World : UWorld)
             (carla_game_mode : ACarlaGameModeBase)
             (zone_runs : list (ClosedRun Location)),
        AuthGameMode World = Some carla_game_mode ->
        AllCrosswalkZones carla_game_mode
        = List.concat (map run_points zone_runs) ->
        Forall (closed_run Location_eqb) zone_runs ->
        added_persisted_crosswalks self = false ->
        IsDedicatedServer World = false ->
        crosswalk_calls (RenderConfig self) (AllCrosswalkZones carla_game_mode)
        = flat_map (drawn_polygon (CrosswalksColor (RenderConfig self))) zone_runs
        /\ added_persisted_crosswalks (CrosswalksBlock self World) = true
        /\ PersistentLines (CrosswalksBlock self World)
           = PersistentLines self
             ++ flat_map (drawn_polygon (CrosswalksColor (RenderConfig self)))
                         zone_runs
        /\ (added_persisted_stop_lines self = true \/ colliders_present World ->
            exists s before after,
              PostPhysTick RotateVector self World = Some s
              /\ added_persisted_crosswalks s = true
              /\ PersistentLines s
                 = PersistentLines self
                   ++ before
                   ++ flat_map (drawn_polygon
                                  (CrosswalksColor (RenderConfig self)))
                               zone_runs
                   ++ after))
  /\ (forall (self : ACosmosControlSensor) (World : UWorld)
             (carla_game_mode : ACarlaGameModeBase)
             (LA LB LC LD LE LF : Location),
        Location_eqb LA LA = true -> Location_eqb LB LA = false ->
        Location_eqb LC LA = false ->
        Location_eqb LD LD = true -> Location_eqb LE LD = false ->
        Location_eqb LF LD = false ->
        AuthGameMode World = Some carla_game_mode ->
        AllCrosswalkZones carla_game_mode = [LA; LB; LC; LA; LD; LE; LF; LD] ->
        added_persisted_crosswalks self = false ->
        IsDedicatedServer World = false ->
        PersistentLines (CrosswalksBlock self World)
        = PersistentLines self
          ++ [ Mesh [crosswalk_vertex LA; crosswalk_vertex LB; crosswalk_vertex LC]
                    [0; 1; 2] (CrosswalksColor (RenderConfig self));
               Mesh [crosswalk_vertex LD; crosswalk_vertex LE; crosswalk_vertex LF]
                    [0; 1; 2] (CrosswalksColor (RenderConfig self)) ]).
Proof.
  intros Hruns HA HB HC HD HE HF.
  split; [|split; [|split; [|split; [|split; [|split]]]]].
  - rewrite <- (app_nil_r (List.concat (map run_points runs))).
    rewrite CrosswalkFacts.meshes_runs by assumption.
    cbn. now rewrite app_nil_r.
  - intros r n Hn.
    assert (Hlen : List.length (run_polygon to_vertex r) = n).
    { unfold run_polygon. now rewrite length_map. }
    repeat split.
    + unfold run_mesh. rewrite Hlen.
      destruct (Nat.leb_spec 3 n) as [_|Hlt]; [reflexivity | lia].
    + apply CrosswalkFacts.triangles_fan_indices.
    + rewrite CrosswalkFacts.triangles_fan_indices.
      apply CrosswalkFacts.fan_triangles_length.
  - intros r Hn. unfold run_mesh, run_polygon.
    rewrite length_map. cbn [List.length].
    destruct (Nat.leb_spec 3 (S (List.length (run_inner r)))) as [Hge|_];
      [lia | reflexivity].
  - change [A; B; C; A; D; E; F; D]
      with (List.concat (map run_points [mkRun A [B; C] A; mkRun D [E; F] D])
            ++ []).
    rewrite CrosswalkFacts.meshes_runs.
    + reflexivity.
    + repeat constructor; assumption.
  - reflexivity.
  - intros RotateVector self World carla_game_mode zone_runs
           Hgm Hzones Hclosed Hflag Hded.
    assert (Hcalls : crosswalk_calls (RenderConfig self)
                                     (AllCrosswalkZones carla_game_mode)
                     = flat_map (drawn_polygon
                                   (CrosswalksColor (RenderConfig self)))
                                zone_runs).
    { rewrite Hzones. now apply DrawnFacts.crosswalk_calls_closed. }
    destruct (DrawnFacts.CrosswalksBlock_draws self World carla_game_mode
                Hgm Hflag Hded) as [Hset Hpers].
    split; [exact Hcalls|]. split; [exact Hset|].
    split; [now rewrite Hpers, Hcalls|].
    intro Hok.
    destruct (TickFacts.tick_effect RotateVector self World Hok)
      as [s [Htick [_ [_ [Hcross [_ [_ Htpers]]]]]]].
    rewrite Hded, Hgm, Hflag in Htpers. unfold once at 3 in Htpers.
    rewrite Hcalls in Htpers.
    exists s.
    exists (once (added_persisted_stop_lines self)
                 (stop_lines_of (RenderConfig self) World)
            ++ once (added_persisted_route_lines self)
                    (route_line_calls (RenderConfig self) (RoadSplines World))).
    exists (once (added_persisted_stencils self)
                 (stencil_calls RotateVector (RenderConfig self)
                                (Stencils carla_game_mode))).
    split; [exact Htick|]. split.
    + rewrite Hcross. unfold has_game_mode. rewrite Hgm. apply orb_true_r.
    + rewrite Htpers. now rewrite <- !app_assoc.
  - intros self World carla_game_mode LA LB LC LD LE LF
           HLA HLB HLC HLD HLE HLF Hgm Hzones Hflag Hded.
    destruct (DrawnFacts.CrosswalksBlock_draws self World carla_game_mode
                Hgm Hflag Hded) as [_ Hpers].
    rewrite Hpers, Hzones.
    change [LA; LB; LC; LA; LD; LE; LF; LD]
      with (List.concat (map run_points
                             [mkRun LA [LB; LC] LA; mkRun LD [LE; LF] LD])).
    rewrite DrawnFacts.crosswalk_calls_closed.
    + reflexivity.
    + repeat constructor; assumption.
Qed.

Lemma crosswalk_closed_runs_fan_witness :
  PersistentLines (CrosswalksBlock example_drawn_sensor example_late_world)
  = PersistentLines example_drawn_sensor
    ++ [ Mesh [ crosswalk_vertex (mkLocation (F32.of_Z 1) F32.zero F32.zero);
                crosswalk_vertex (mkLocation (F32.of_Z 2) F32.zero F32.zero);
                crosswalk_vertex (mkLocation (F32.of_Z 2) (F32.of_Z 1) F32.zero) ]
              [0; 1; 2] (CrosswalksColor DefaultRenderConfig) ]
  /\ exists s before after,
       PostPhysTick example_rotate example_drawn_sensor example_late_world
       = Some s
       /\ added_persisted_crosswalks s = true
       /\ PersistentLines s
          = PersistentLines example_drawn_sensor
            ++ before
            ++ [ Mesh [ crosswalk_vertex (mkLocation (F32.of_Z 1) F32.zero F32.zero);
                        crosswalk_vertex (mkLocation (F32.of_Z 2) F32.zero F32.zero);
                        crosswalk_vertex (mkLocation (F32.of_Z 2) (F32.of_Z 1)
                                                     F32.zero) ]
                      [0; 1; 2] (CrosswalksColor DefaultRenderConfig) ]
            ++ after.
Proof.
  assert (Hclosed : Forall (closed_run Location_eqb)
            [ mkRun (mkLocation (F32.of_Z 1) F32.zero F32.zero)
                    [ mkLocation (F32.of_Z 2) F32.zero F32.zero;
                      mkLocation (F32.of_Z 2) (F32.of_Z 1) F32.zero ]
                    (mkLocation (F32.of_Z 1) F32.zero F32.zero) ]).
  { repeat (constructor; [split; [reflexivity | repeat constructor] | ]).
    constructor. }
  pose proof (crosswalk_closed_runs_fan Location Location_eqb crosswalk_vertex
                [ mkRun (mkLocation (F32.of_Z 1) F32.zero F32.zero)
                        [ mkLocation (F32.of_Z 2) F32.zero F32.zero;
                          mkLocation (F32.of_Z 2) (F32.of_Z 1) F32.zero ]
                        (mkLocation (F32.of_Z 1) F32.zero F32.zero) ]
                (mkLocation (F32.of_Z 1) F32.zero F32.zero)
                (mkLocation (F32.of_Z 2) F32.zero F32.zero)
                (mkLocation (F32.of_Z 2) (F32.of_Z 1) F32.zero)
                (mkLocation (F32.of_Z 5) F32.zero F32.zero)
                (mkLocation (F32.of_Z 6) F32.zero F32.zero)
                (mkLocation (F32.of_Z 6) (F32.of_Z 1) F32.zero)
                Hclosed eq_refl eq_refl eq_refl eq_refl eq_refl eq_refl)
    as [_ [_ [_ [_ [_ [Hdrawn _]]]]]].
  destruct (Hdrawn example_rotate example_drawn_sensor example_late_world
                   example_game_mode
                   [ mkRun (mkLocation (F32.of_Z 1) F32.zero F32.zero)
                           [ mkLocation (F32.of_Z 2) F32.zero F32.zero;
                             mkLocation (F32.of_Z 2) (F32.of_Z 1) F32.zero ]
                           (mkLocation (F32.of_Z 1) F32.zero F32.zero) ]
                   eq_refl eq_refl Hclosed eq_refl eq_refl)
    as [_ [_ [Hblock Htick]]].
  split; [exact Hblock|].
  apply Htick. left. reflexivity.
Defined.

(** C3, as stated, fails for three of the four flags: after a first tick in
    a world without road splines and without game mode the route-line,
    crosswalk and stencil flags are still unset, and a later tick that finds
    splines and a game mode sets them and draws the three categories: the
    persistent batch then holds one lane line, one crosswalk mesh and one
    stencil mesh.  Only the stop line of the light spawned in between is
    missing, its flag having been set by the first tick. *)
Lemma flags_stay_unset_without_sources :
  PostPhysTick example_rotate NewSensor example_empty_world
  = Some (mkSensor true false false false DefaultRenderConfig [] [] [])
  /\ option_map (fun s => (added_persisted_route_lines s,
                           added_persisted_crosswalks s,
                           added_persisted_stencils s,
                           List.length (PersistentLines s)))
                (run_ticks example_rotate NewSensor
                           [example_empty_world; example_late_world])
     = Some (true, true, true, 3%nat)
  /\ option_map PersistentLines
                (run_ticks example_rotate NewSensor
                           [example_empty_world; example_late_world])
     = Some (route_line_calls DefaultRenderConfig (RoadSplines example_late_world)
             ++ crosswalk_calls DefaultRenderConfig
                  [ mkLocation (F32.of_Z 1) F32.zero F32.zero;
                    mkLocation (F32.of_Z 2) F32.zero F32.zero;
                    mkLocation (F32.of_Z 2) (F32.of_Z 1) F32.zero;
                    mkLocation (F32.of_Z 1) F32.zero F32.zero ]
             ++ stencil_calls example_rotate DefaultRenderConfig
                  [ Some (mkStencil (vec_of_Z 50 0 0) FQuat_Identity
                                    (F64.of_Z 1) (F64.of_Z 3)) ]).
Proof.
  repeat split; reflexivity.
Qed.

(** C3, amended.  A tick completes unless the stop-line loop meets a light
    without collider.  It leaves the stop-line flag set whatever the world
    holds; it sets the route-line flag only when it finds at least one road
    spline, and the crosswalk and stencil flags only when it finds a game
    mode, and otherwise leaves them as they were, so that those categories
    are tried again on the next tick.  Each category adds its calls to the
    persistent batch only while its flag is unset, and a flag that is set
    stays set over any further ticks: each category is drawn by at most one
    tick. *)
Theorem one_shot_flags_gate
  (RotateVector : FQuat -> FVector -> FVector)
  (self : ACosmosControlSensor) (World : UWorld) (later : list UWorld) :
  added_persisted_stop_lines self = true \/ colliders_present World ->
  exists s,
    PostPhysTick RotateVector self World = Some s
    /\ added_persisted_stop_lines s = true
    /\ added_persisted_route_lines s
       = (added_persisted_route_lines self
          || (0 <? List.length (RoadSplines World))%nat)%bool
    /\ added_persisted_crosswalks s
       = (added_persisted_crosswalks self || has_game_mode World)%bool
    /\ added_persisted_stencils s
       = (added_persisted_stencils self || has_game_mode World)%bool
    /\ PersistentLines s
       = PersistentLines self
         ++ (if IsDedicatedServer World then []
             else
               once (added_persisted_stop_lines self)
                    (stop_lines_of (RenderConfig self) World)
               ++ once (added_persisted_route_lines self)
                       (route_line_calls (RenderConfig self) (RoadSplines World))
               ++ match AuthGameMode World with
                  | Some carla_game_mode =>
                      once (added_persisted_crosswalks self)
                           (crosswalk_calls (RenderConfig self)
                              (AllCrosswalkZones carla_game_mode))
                      ++ once (added_persisted_stencils self)
                              (stencil_calls RotateVector (RenderConfig self)
                                 (Stencils carla_game_mode))
                  | None => []
                  end)
    /\ (forall s',
          run_ticks RotateVector s later = Some s' ->
          added_persisted_stop_lines s' = true
          /\ (added_persisted_route_lines s = true ->
              added_persisted_route_lines s' = true)
          /\ (added_persisted_crosswalks s = true ->
              added_persisted_crosswalks s' = true)
          /\ (added_persisted_stencils s = true ->
              added_persisted_stencils s' = true)).
Proof.
  intro Hok.
  destruct (TickFacts.tick_effect RotateVector self World Hok)
    as [s [Htick [Hstop [Hroute [Hcross [Hsten [_ Hpers]]]]]]].
  exists s.
  split; [exact Htick|]. split; [exact Hstop|]. split; [exact Hroute|].
  split; [exact Hcross|]. split; [exact Hsten|]. split; [exact Hpers|].
  intros s' Hrun.
  destruct (TickFacts.run_flags_monotone RotateVector later s s' Hrun)
    as [I1 [I2 [I3 I4]]].
  auto.
Qed.

Lemma one_shot_flags_gate_witness :
  exists s,
    PostPhysTick example_rotate NewSensor example_late_world = Some s
    /\ added_persisted_stop_lines s = true
    /\ added_persisted_route_lines s = true
    /\ added_persisted_crosswalks s = true
    /\ added_persisted_stencils s = true.
Proof.
  assert (Hok : added_persisted_stop_lines NewSensor = true
                \/ colliders_present example_late_world).
  { right. repeat constructor. discriminate. }
  destruct (one_shot_flags_gate example_rotate NewSensor example_late_world []
                                Hok)
    as [s [Htick [Hstop [Hroute [Hcross [Hsten _]]]]]].
  exists s.
  split; [exact Htick|]. split; [exact Hstop|].
  split; [rewrite Hroute; reflexivity|].
  split; [rewrite Hcross; reflexivity|].
  rewrite Hsten; reflexivity.
Defined.

(** C7.  The first tick sets the stop-line flag, however many traffic
    lights there are (each of them having a collider).  Once the flag is
    set, the stop-line block does nothing on any tick, and a run of ticks
    ends in the same state whether or not traffic lights are spawned in the
    worlds it sees: no stop line is drawn for them. *)
Theorem stop_lines_one_shot
  (RotateVector : FQuat -> FVector -> FVector)
  (first : UWorld) (self : ACosmosControlSensor) (worlds worlds' : list UWorld) :
  colliders_present first ->
  added_persisted_stop_lines self = true ->
  Forall2 respawned worlds worlds' ->
  (forall s0, exists s1,
      PostPhysTick RotateVector s0 first = Some s1
      /\ added_persisted_stop_lines s1 = true)
  /\ (forall w, StopLinesBlock self w = Some self)
  /\ (exists s,
        run_ticks RotateVector self worlds = Some s
        /\ run_ticks RotateVector self worlds' = Some s
        /\ added_persisted_stop_lines s = true).
Proof.
  intros Hfirst Hflag Hworlds. repeat split.
  - intro s0.
    destruct (TickFacts.tick_effect RotateVector s0 first (or_intror Hfirst))
      as [s1 [Htick [Hstop _]]].
    now exists s1.
  - intro w. now apply TickFacts.StopLinesBlock_done.
  - now apply TickFacts.run_ignores_lights.
Qed.

Lemma stop_lines_one_shot_witness :
  exists s,
    run_ticks example_rotate
              (mkSensor true false false false DefaultRenderConfig [] [] [])
              [example_empty_world; example_late_world] = Some s
    /\ run_ticks example_rotate
                 (mkSensor true false false false DefaultRenderConfig [] [] [])
                 [ with_traffic_lights [example_light; example_bare_light]
                                       example_empty_world;
                   with_traffic_lights [] example_late_world ] = Some s
    /\ added_persisted_stop_lines s = true.
Proof.
  refine (proj2 (proj2 (stop_lines_one_shot example_rotate example_late_world
                          (mkSensor true false false false DefaultRenderConfig
                                    [] [] [])
                          _ _ _ _ _))).
  - repeat constructor. discriminate.
  - reflexivity.
  - repeat constructor; eexists; reflexivity.
Defined.

(* ================================================================== *)
(** * Further properties *)

(* ------------------------------------------------------------------ *)
(** ** The renderability decision *)

(** X1.  For a spline of one of the four kinds the decision is the one of
    the last matching neighbour in the road's spline array; earlier
    neighbours do not count, and without a neighbour the spline is not
    drawn.  The order of the spline actors therefore matters: a right-hand
    Sidewalk spline of lane id -3 with a Driving and a Sidewalk neighbour of
    lane id -2 is drawn when the Driving neighbour comes last and not drawn
    when the Sidewalk neighbour does. *)
Theorem should_render_last_neighbour
  (splines : list ARoadSpline) (spline : ARoadSpline) :
  participates spline = true ->
  should_render splines spline
  = match last_found splines spline with
    | Some t => neighbour_verdict spline t
    | None => false
    end
  /\ should_render [ mkRoadSpline Sidewalk Right 3 (-2) false [];
                     mkRoadSpline Driving Right 3 (-2) false [] ]
                   (mkRoadSpline Sidewalk Right 3 (-3) false []) = true
  /\ should_render [ mkRoadSpline Driving Right 3 (-2) false [];
                     mkRoadSpline Sidewalk Right 3 (-2) false [] ]
                   (mkRoadSpline Sidewalk Right 3 (-3) false []) = false.
Proof.
  intro Hp. split; [now apply DecisionFacts.decided_by_last|].
  split; reflexivity.
Qed.

Lemma should_render_last_neighbour_witness :
  should_render [ mkRoadSpline Median Left 3 1 true [];
                  mkRoadSpline Shoulder Left 3 (-1) true [] ]
                (mkRoadSpline Median Left 3 1 true [])
  = match last_found [ mkRoadSpline Median Left 3 1 true [];
                       mkRoadSpline Shoulder Left 3 (-1) true [] ]
                     (mkRoadSpline Median Left 3 1 true []) with
    | Some t => neighbour_verdict (mkRoadSpline Median Left 3 1 true []) t
    | None => false
    end.
Proof.
  refine (proj1 (should_render_last_neighbour _ _ _)). reflexivity.
Defined.

(** X2.  A spline that is drawn is a Driving, Sidewalk or Median spline
    whose last matching neighbour is a Driving or Shoulder spline; Shoulder
    splines and splines of any other kind are never drawn, and neither is a
    spline whose neighbours are all of other kinds. *)
Theorem rendered_spline_kinds
  (splines : list ARoadSpline) (spline : ARoadSpline) :
  should_render splines spline = true ->
  (BoundaryType spline = Driving \/ BoundaryType spline = Sidewalk
   \/ BoundaryType spline = Median)
  /\ exists t,
       last_found splines spline = Some t
       /\ In t splines
       /\ LaneID t = add32 (LaneID spline) (lane_shift spline)
       /\ (BoundaryType t = Driving \/ BoundaryType t = Shoulder).
Proof.
  intro Hr.
  destruct (participates spline) eqn:Hp.
  2:{ rewrite DecisionFacts.other_kind_not_rendered in Hr by assumption.
      discriminate. }
  rewrite DecisionFacts.decided_by_last in Hr by assumption.
  destruct (last_found splines spline) as [t|] eqn:Hlast; [|discriminate].
  pose proof (DecisionFacts.last_found_in _ _ _ Hlast) as Hin.
  apply LaneFacts.found_splines_spec in Hin. destruct Hin as [Hin Hlane].
  unfold neighbour_verdict, junction_case, left_case, right_case in Hr.
  split.
  - destruct (BoundaryType spline); auto;
      destruct (bIsJunction spline), (OrientationType spline), (BoundaryType t);
      discriminate.
  - exists t. repeat split; try assumption.
    destruct (BoundaryType t); auto;
      destruct (bIsJunction spline), (OrientationType spline);
      discriminate.
Qed.

Lemma rendered_spline_kinds_witness :
  BoundaryType (mkRoadSpline Driving Left 7 2 false []) = Driving
  \/ BoundaryType (mkRoadSpline Driving Left 7 2 false []) = Sidewalk
  \/ BoundaryType (mkRoadSpline Driving Left 7 2 false []) = Median.
Proof.
  refine (proj1 (rendered_spline_kinds
                   [ mkRoadSpline Driving Left 7 2 false [];
                     mkRoadSpline Driving Left 7 1 false [] ]
                   (mkRoadSpline Driving Left 7 2 false []) _)).
  reflexivity.
Defined.

(** X3.  A spline is never its own neighbour, nor that of a spline with the
    same lane id: a road whose splines all carry one lane id (in particular
    a road with a single spline) draws nothing. *)
Theorem single_lane_road_draws_nothing
  (cfg : CosmosRenderConfig) (splines : list ARoadSpline) :
  (forall s t, In s splines -> In t splines -> LaneID s = LaneID t) ->
  road_calls cfg splines = []
  /\ forall spline, In spline splines -> found_splines splines spline = [].
Proof.
  intro Hsame.
  assert (Hnone : forall spline, In spline splines ->
                                 found_splines splines spline = []).
  { intros spline Hin.
    destruct (found_splines splines spline) as [|t rest] eqn:Hf; [reflexivity|].
    assert (Ht : In t (found_splines splines spline)) by (rewrite Hf; now left).
    apply LaneFacts.found_splines_spec in Ht. destruct Ht as [Ht Hl].
    rewrite (Hsame t spline Ht Hin) in Hl.
    symmetry in Hl. now apply DecisionFacts.shifted_lane_differs in Hl. }
  split; [|exact Hnone].
  unfold road_calls.
  assert (Hall : forall l, (forall s, In s l -> In s splines) ->
            flat_map (fun spline =>
                        if (participates spline && should_render splines spline)%bool
                        then DrawSpline cfg spline else []) l = []).
  { induction l as [|s l IH]; intro Hl; [reflexivity|].
    cbn [flat_map]. rewrite IH by (intros; apply Hl; now right).
    assert (Hs : should_render splines s = false).
    { unfold should_render. rewrite (Hnone s) by (apply Hl; now left).
      destruct (bIsJunction s), (OrientationType s); reflexivity. }
    rewrite Hs, andb_false_r. reflexivity. }
  apply Hall. auto.
Qed.

Lemma single_lane_road_draws_nothing_witness :
  road_calls DefaultRenderConfig
             [mkRoadSpline Driving Right 7 (-1) false
                           [vec_of_Z 0 0 0; vec_of_Z 100 0 0]] = [].
Proof.
  refine (proj1 (single_lane_road_draws_nothing _ _ _)).
  intros s t [<-|[]] [<-|[]]. reflexivity.
Defined.

(** X4.  Outside junctions a Driving or Sidewalk spline is drawn only on its
    own side: a left-oriented one with a lane id that is not positive and a
    right-oriented one with a lane id that is not negative are never
    drawn. *)
Theorem wrong_side_not_rendered
  (splines : list ARoadSpline) (spline : ARoadSpline) :
  bIsJunction spline = false ->
  BoundaryType spline = Driving \/ BoundaryType spline = Sidewalk ->
  (OrientationType spline = Left /\ LaneID spline <= 0)
  \/ (OrientationType spline = Right /\ 0 <= LaneID spline) ->
  should_render splines spline = false.
Proof.
  intros Hj Hkind Hside.
  assert (Hp : participates spline = true).
  { unfold participates. now destruct Hkind as [-> | ->]. }
  rewrite DecisionFacts.decided_by_last by assumption.
  destruct (last_found splines spline) as [t|]; [|reflexivity].
  unfold neighbour_verdict. rewrite Hj.
  destruct Hside as [[-> Hl] | [-> Hl]].
  - unfold left_case, same_side.
    assert (Hneg : (LaneID spline >? 0) = false)
      by (rewrite Z.gtb_ltb; apply Z.ltb_ge; lia).
    rewrite Hneg.
    destruct Hkind as [-> | ->]; now destruct (BoundaryType t).
  - unfold right_case.
    assert (Hpos : (LaneID spline <? 0) = false) by (apply Z.ltb_ge; lia).
    rewrite Hpos.
    destruct Hkind as [-> | ->]; now destruct (BoundaryType t).
Qed.

Lemma wrong_side_not_rendered_witness :
  should_render [ mkRoadSpline Driving Right 7 2 false [];
                  mkRoadSpline Driving Right 7 3 false [] ]
                (mkRoadSpline Driving Right 7 2 false []) = false.
Proof.
  refine (wrong_side_not_rendered _ (mkRoadSpline Driving Right 7 2 false [])
                                  _ _ _).
  - reflexivity.
  - left. reflexivity.
  - right. split; [reflexivity | cbn; lia].
Defined.

(* ------------------------------------------------------------------ *)
(** ** Grouping by road, and the drawn polylines *)

Module GroupFacts.

Lemma add_absent (m : list (Z * list ARoadSpline)) (s : ARoadSpline) :
  ~ In (RoadID s) (keys m) -> add_by_road m s = m ++ [(RoadID s, [s])].
Proof.
  induction m as [|[k v] m IH]; intro Hn; [reflexivity|].
  cbn [add_by_road app].
  destruct (Z.eqb_spec k (RoadID s)) as [E|N].
  - exfalso. apply Hn. now left.
  - rewrite IH; [reflexivity|]. intro H. apply Hn. now right.
Qed.

Lemma add_present (m : list (Z * list ARoadSpline)) (s : ARoadSpline) :
  NoDup (keys m) -> In (RoadID s) (keys m) ->
  add_by_road m s
  = map (fun kv => if fst kv =? RoadID s then (fst kv, snd kv ++ [s]) else kv) m.
Proof.
  induction m as [|[k v] m IH]; intros Hnd Hin; [destruct Hin|].
  cbn [add_by_road map fst snd].
  inversion Hnd as [|? ? Hk Hnd']; subst.
  destruct (Z.eqb_spec k (RoadID s)) as [E|N].
  - f_equal. symmetry. rewrite <- (map_id m) at 2. apply map_ext_in.
    intros [k' v'] Hin'. cbn [fst snd].
    destruct (Z.eqb_spec k' (RoadID s)) as [E'|_]; [|reflexivity].
    exfalso. apply Hk. rewrite E, <- E'.
    change k' with (fst (k', v')). now apply in_map.
  - f_equal. apply IH; [assumption|].
    destruct Hin as [H|H]; [contradiction | assumption].
Qed.

Lemma add_app_absent (m1 m : list (Z * list ARoadSpline)) (s : ARoadSpline) :
  ~ In (RoadID s) (keys m1) -> add_by_road (m1 ++ m) s = m1 ++ add_by_road m s.
Proof.
  induction m1 as [|[k v] m1 IH]; intro Hn; [reflexivity|].
  cbn [add_by_road app].
  destruct (Z.eqb_spec k (RoadID s)) as [E|N].
  - exfalso. apply Hn. now left.
  - rewrite IH; [reflexivity|]. intro H. apply Hn. now right.
Qed.

Lemma of_road_snoc (k : Z) (l : list ARoadSpline) (s : ARoadSpline) :
  of_road k (l ++ [s])
  = of_road k l ++ (if RoadID s =? k then [s] else []).
Proof.
  unfold of_road. now rewrite filter_app.
Qed.

Lemma groups_step (m : list (Z * list ARoadSpline)) (l : list ARoadSpline)
      (s : ARoadSpline) :
  groups m l -> groups (add_by_road m s) (l ++ [s]).
Proof.
  intros [Hnd [Hkeys Hval]].
  destruct (in_dec Z.eq_dec (RoadID s) (keys m)) as [Hin|Hout].
  - rewrite add_present by assumption.
    assert (Hk : keys (map (fun kv => if fst kv =? RoadID s
                                      then (fst kv, snd kv ++ [s]) else kv) m)
                 = keys m).
    { unfold keys. rewrite map_map. apply map_ext.
      intros [k v]. cbn. now destruct (k =? RoadID s). }
    split; [now rewrite Hk|]. split.
    + intro k. rewrite Hk, Hkeys. split.
      * intros [s' [Hs' E]]. exists s'. split; [apply in_or_app; now left | exact E].
      * intros [s' [Hs' E]]. apply in_app_or in Hs'.
        destruct Hs' as [Hs'|[<-|[]]].
        -- now exists s'.
        -- apply Hkeys. now rewrite <- E.
    + intros k v Hkv. apply in_map_iff in Hkv.
      destruct Hkv as [[k0 v0] [Heq Hin0]]. cbn [fst snd] in Heq.
      rewrite of_road_snoc.
      destruct (Z.eqb_spec k0 (RoadID s)) as [E|N].
      * injection Heq as <- <-. rewrite (Hval _ _ Hin0).
        rewrite E, Z.eqb_refl. reflexivity.
      * injection Heq as <- <-. rewrite (Hval _ _ Hin0).
        destruct (Z.eqb_spec (RoadID s) k0) as [E'|_]; [congruence|].
        now rewrite app_nil_r.
  - rewrite add_absent by assumption.
    split; [|split].
    + unfold keys. rewrite map_app. cbn.
      apply NoDup_app; [assumption | repeat constructor; intros [] | ].
      intros k Hk [<-|[]]. contradiction.
    + intro k. unfold keys. rewrite map_app, in_app_iff. cbn. split.
      * intros [Hk|[<-|[]]].
        -- apply Hkeys in Hk. destruct Hk as [s' [Hs' E]].
           exists s'. split; [apply in_or_app; now left | exact E].
        -- exists s. split; [apply in_or_app; right; now left | reflexivity].
      * intros [s' [Hs' E]]. apply in_app_or in Hs'.
        destruct Hs' as [Hs'|[<-|[]]].
        -- left. apply Hkeys. now exists s'.
        -- right. left. exact E.
    + intros k v Hkv. apply in_app_or in Hkv. rewrite of_road_snoc.
      destruct Hkv as [Hkv|[Heq|[]]].
      * rewrite (Hval _ _ Hkv).
        destruct (Z.eqb_spec (RoadID s) k) as [E|_]; [|now rewrite app_nil_r].
        exfalso. apply Hout. rewrite E.
        change k with (fst (k, v)). now apply in_map.
      * injection Heq as <- <-. rewrite Z.eqb_refl.
        assert (Hnone : of_road (RoadID s) l = []).
        { unfold of_road.
          destruct (filter (fun s0 => RoadID s0 =? RoadID s) l) as [|s' r] eqn:Hf;
            [reflexivity|].
          assert (Hs' : In s' (filter (fun s0 => RoadID s0 =? RoadID s) l))
            by (rewrite Hf; now left).
          apply filter_In in Hs'. destruct Hs' as [Hs' E]. apply Z.eqb_eq in E.
          exfalso. apply Hout. apply Hkeys. now exists s'. }
        now rewrite Hnone.
Qed.

Lemma groups_fold (l : list ARoadSpline) :
  forall m l0, groups m l0 -> groups (fold_left add_by_road l m) (l0 ++ l).
Proof.
  induction l as [|s l IH]; intros m l0 Hg; cbn [fold_left].
  - now rewrite app_nil_r.
  - replace (l0 ++ s :: l) with ((l0 ++ [s]) ++ l)
      by (now rewrite <- app_assoc).
    apply IH. now apply groups_step.
Qed.

Lemma groups_SplinesByRoadId (l : list ARoadSpline) :
  groups (SplinesByRoadId l) l.
Proof.
  apply (groups_fold l [] []).
  split; [constructor|]. split.
  - intro k. split; [intros [] | intros [s [[] _]]].
  - intros k v [].
Qed.

Lemma fold_from (l : list ARoadSpline) :
  forall m1 m,
    (forall s, In s l -> ~ In (RoadID s) (keys m1)) ->
    fold_left add_by_road l (m1 ++ m) = m1 ++ fold_left add_by_road l m.
Proof.
  induction l as [|s l IH]; intros m1 m Hd; cbn [fold_left]; [reflexivity|].
  rewrite add_app_absent by (apply Hd; now left).
  apply IH. intros s' Hs'. apply Hd. now right.
Qed.

End GroupFacts.

(** X5.  [SplinesByRoadId] has one entry per road id that occurs among the
    spline actors; the entry of a road holds exactly the splines of that
    road, in the order of the actor list (so it is never empty), and the
    route lines are those of each road decided on its own splines. *)
Theorem splines_grouped_by_road
  (cfg : CosmosRenderConfig) (RoadSplines_ : list ARoadSpline) :
  NoDup (map fst (SplinesByRoadId RoadSplines_))
  /\ (forall k, In k (map fst (SplinesByRoadId RoadSplines_))
                <-> exists s, In s RoadSplines_ /\ RoadID s = k)
  /\ (forall k v, In (k, v) (SplinesByRoadId RoadSplines_) ->
                  v = of_road k RoadSplines_ /\ v <> [])
  /\ route_line_calls cfg RoadSplines_
     = flat_map (fun k => road_calls cfg (of_road k RoadSplines_))
                (map fst (SplinesByRoadId RoadSplines_)).
Proof.
  destruct (GroupFacts.groups_SplinesByRoadId RoadSplines_) as [Hnd [Hkeys Hval]].
  split; [exact Hnd|]. split; [exact Hkeys|]. split.
  - intros k v Hkv. split; [now apply Hval|].
    rewrite (Hval _ _ Hkv).
    assert (Hk : In k (map fst (SplinesByRoadId RoadSplines_))).
    { change k with (fst (k, v)). now apply in_map. }
    apply Hkeys in Hk. destruct Hk as [s [Hs E]].
    intro Hnil.
    assert (Hin : In s (of_road k RoadSplines_)).
    { unfold of_road. apply filter_In. split; [assumption | now apply Z.eqb_eq]. }
    rewrite Hnil in Hin. destruct Hin.
  - unfold route_line_calls.
    assert (Hgen : forall m,
              (forall k v, In (k, v) m -> v = of_road k RoadSplines_) ->
              flat_map (fun splines_pair => road_calls cfg (snd splines_pair)) m
              = flat_map (fun k => road_calls cfg (of_road k RoadSplines_))
                         (map fst m)).
    { induction m as [|[k v] m IH]; intro Hm; [reflexivity|].
      cbn [flat_map map fst snd].
      rewrite IH by (intros; apply Hm; now right).
      now rewrite (Hm k v (or_introl eq_refl)). }
    now apply Hgen.
Qed.

(** X6.  Roads do not influence each other: the route lines of two sets of
    spline actors that share no road id are the route lines of the first
    followed by those of the second. *)
Theorem route_lines_of_separate_roads
  (cfg : CosmosRenderConfig) (l1 l2 : list ARoadSpline) :
  (forall s1 s2, In s1 l1 -> In s2 l2 -> RoadID s1 <> RoadID s2) ->
  SplinesByRoadId (l1 ++ l2) = SplinesByRoadId l1 ++ SplinesByRoadId l2
  /\ route_line_calls cfg (l1 ++ l2)
     = route_line_calls cfg l1 ++ route_line_calls cfg l2.
Proof.
  intro Hd.
  assert (Hsplit : SplinesByRoadId (l1 ++ l2)
                   = SplinesByRoadId l1 ++ SplinesByRoadId l2).
  { unfold SplinesByRoadId. rewrite fold_left_app.
    rewrite <- (app_nil_r (fold_left add_by_road l1 [])) at 1.
    apply GroupFacts.fold_from.
    intros s2 Hs2 Hk.
    destruct (GroupFacts.groups_SplinesByRoadId l1) as [_ [Hkeys _]].
    apply Hkeys in Hk. destruct Hk as [s1 [Hs1 E]].
    exact (Hd s1 s2 Hs1 Hs2 E). }
  split; [exact Hsplit|].
  unfold route_line_calls. rewrite Hsplit. apply flat_map_app.
Qed.

Lemma route_lines_of_separate_roads_witness :
  route_line_calls DefaultRenderConfig
    ([ mkRoadSpline Driving Left 7 2 false [vec_of_Z 0 0 0; vec_of_Z 100 0 0];
       mkRoadSpline Driving Left 7 1 false [] ]
     ++ [ mkRoadSpline Driving Left 8 1 false [];
          mkRoadSpline Driving Left 8 2 false [vec_of_Z 0 9 0; vec_of_Z 100 9 0] ])
  = route_line_calls DefaultRenderConfig
      [ mkRoadSpline Driving Left 7 2 false [vec_of_Z 0 0 0; vec_of_Z 100 0 0];
        mkRoadSpline Driving Left 7 1 false [] ]
    ++ route_line_calls DefaultRenderConfig
         [ mkRoadSpline Driving Left 8 1 false [];
           mkRoadSpline Driving Left 8 2 false [vec_of_Z 0 9 0; vec_of_Z 100 9 0] ].
Proof.
  refine (proj2 (route_lines_of_separate_roads _ _ _ _)).
  intros s1 s2 [<-|[<-|[]]] [<-|[<-|[]]]; discriminate.
Defined.

(** X7.  [DrawSpline] draws one line per pair of consecutive spline points,
    hence none for a spline of fewer than two points; the lines form one
    polyline through the spline points lowered by the road-line thickness,
    all in the lane-line colour for a Driving spline and in the
    road-boundary colour for any other, with the road-line thickness. *)
Theorem DrawSpline_polyline (cfg : CosmosRenderConfig) (spline : ARoadSpline) :
  List.length (DrawSpline cfg spline)
  = (List.length (SplinePoints spline) - 1)%nat
  /\ match SplinePoints spline with
     | p0 :: _ =>
         polyline (match BoundaryType spline with
                   | Driving => LaneLinesColor cfg
                   | _ => RoadBoundariesColor cfg
                   end)
                  (RoadLineThickness cfg)
                  (lower_by (RoadLineThickness cfg) p0)
                  (DrawSpline cfg spline)
     | [] => DrawSpline cfg spline = []
     end
  /\ map line_end (DrawSpline cfg spline)
     = map (fun p => Some (lower_by (RoadLineThickness cfg) p))
           (tl (SplinePoints spline)).
Proof.
  unfold DrawSpline.
  set (color := match BoundaryType spline with
                | Driving => LaneLinesColor cfg
                | _ => RoadBoundariesColor cfg
                end).
  set (mk := fun '(p0, p1) =>
               Line (lower_by (RoadLineThickness cfg) p0)
                    (lower_by (RoadLineThickness cfg) p1) color
                    (RoadLineThickness cfg)).
  generalize (SplinePoints spline) as points.
  assert (Hgen : forall points p0,
            List.length (map mk (segments (p0 :: points))) = List.length points
            /\ polyline color (RoadLineThickness cfg)
                        (lower_by (RoadLineThickness cfg) p0)
                        (map mk (segments (p0 :: points)))
            /\ map line_end (map mk (segments (p0 :: points)))
               = map (fun p => Some (lower_by (RoadLineThickness cfg) p)) points).
  { induction points as [|p1 points IH]; intro p0.
    - repeat split.
    - destruct (IH p1) as [Hlen [Hpoly Hends]].
      cbn [segments map List.length polyline line_end] in *.
      rewrite Hlen, Hends. repeat split. exact Hpoly. }
  intros [|p0 points].
  - repeat split.
  - destruct (Hgen points p0) as [Hlen [Hpoly Hends]].
    split; [|split].
    + cbn [List.length]. rewrite Nat.sub_1_r. cbn [Nat.pred]. exact Hlen.
    + exact Hpoly.
    + exact Hends.
Qed.

(* ------------------------------------------------------------------ *)
(** ** Crosswalk meshes, for any point sequence *)

Module MeshFacts.

Lemma fan_from_length (count : nat) :
  forall j, List.length (fan_from j count) = (3 * count)%nat.
Proof.
  induction count as [|count IH]; intro j; [reflexivity|].
  cbn [fan_from List.length]. rewrite IH. lia.
Qed.

Lemma fan_from_bounds (count : nat) :
  forall j, 0 <= j ->
            Forall (fun i => 0 <= i <= j + Z.of_nat count) (fan_from j count).
Proof.
  induction count as [|count IH]; intros j Hj; [constructor|].
  cbn [fan_from].
  repeat (constructor; [cbv beta; lia|]).
  eapply Forall_impl; [|apply (IH (j + 1)); lia].
  cbv beta. intros i Hi. lia.
Qed.

Lemma fan_indices_valid (n : nat) :
  (3 <= n)%nat ->
  List.length (fan_indices n) = (3 * (n - 2))%nat
  /\ Forall (fun i => 0 <= i < Z.of_nat n) (fan_indices n).
Proof.
  intro Hn. unfold fan_indices. split; [apply fan_from_length|].
  eapply Forall_impl; [|apply (fan_from_bounds (n - 2) 1); lia].
  cbv beta. intros i Hi. lia.
Qed.

Section AnySequence.

Variable Point : Type.
Variable point_eqb : Point -> Point -> bool.
Variable to_vertex : Point -> FVector.

Lemma close_polygon_inv (current : list FVector) (m : list FVector * list Z) :
  In m (close_polygon current) ->
  m = (current, fan_indices (List.length current))
  /\ (3 <= List.length current)%nat.
Proof.
  unfold close_polygon.
  destruct (Nat.leb_spec 3 (List.length current)) as [Hge|Hlt].
  - intros [<-|[]]. now split.
  - intros [].
Qed.

(** Every mesh of the loop is a polygon of at least three of the vertices
    collected so far or still to come. *)
Lemma loop_meshes (n : nat) :
  forall rest, (List.length rest <= n)%nat ->
  forall first current m,
    In m (crosswalk_loop Point point_eqb to_vertex first current rest) ->
    (3 <= List.length (fst m))%nat
    /\ snd m = fan_indices (List.length (fst m))
    /\ Forall (fun v => In v current \/ In v (map to_vertex rest)) (fst m).
Proof.
  induction n as [|n IH]; intros rest Hlen first current m Hin.
  - destruct rest; [destruct Hin | cbn in Hlen; lia].
  - destruct rest as [|p rest']; [destruct Hin|].
    cbn [crosswalk_loop] in Hin. cbn [List.length] in Hlen.
    destruct (point_eqb p first).
    + apply in_app_or in Hin. destruct Hin as [Hin|Hin].
      * apply close_polygon_inv in Hin. destruct Hin as [-> Hge].
        cbn [fst snd]. repeat split; [assumption|].
        apply Forall_forall. intros v Hv. now left.
      * destruct rest' as [|next rest'']; [destruct Hin|].
        cbn [List.length] in Hlen.
        destruct (IH rest'' ltac:(lia) _ _ _ Hin) as [Hge [Hidx Hvs]].
        repeat split; try assumption.
        eapply Forall_impl; [|exact Hvs].
        cbn. intros v [[<-|[]]|Hv]; right; right; [now left | now right].
    + destruct (IH rest' ltac:(lia) _ _ _ Hin) as [Hge [Hidx Hvs]].
      repeat split; try assumption.
      eapply Forall_impl; [|exact Hvs].
      cbn. intros v [Hv|Hv].
      * apply in_app_or in Hv. destruct Hv as [Hv|[<-|[]]];
          [now left | right; now left].
      * right. now right.
Qed.

(** Each mesh uses up four points of the sequence. *)
Lemma loop_count (n : nat) :
  forall rest, (List.length rest <= n)%nat ->
  forall first current,
    (4 * List.length (crosswalk_loop Point point_eqb to_vertex first current rest)
     <= List.length current + List.length rest)%nat.
Proof.
  induction n as [|n IH]; intros rest Hlen first current.
  - destruct rest; [cbn; lia | cbn in Hlen; lia].
  - destruct rest as [|p rest']; [cbn; lia|].
    cbn [crosswalk_loop List.length] in *.
    destruct (point_eqb p first).
    + rewrite length_app.
      assert (Hc : (4 * List.length (close_polygon current)
                    <= List.length current + 1)%nat).
      { unfold close_polygon.
        destruct (Nat.leb_spec 3 (List.length current)); cbn; lia. }
      destruct rest' as [|next rest'']; [cbn; lia|].
      cbn [List.length] in *.
      pose proof (IH rest'' ltac:(lia) next [to_vertex next]) as Hn.
      cbn [List.length] in Hn. lia.
    + pose proof (IH rest' ltac:(lia) first (current ++ [to_vertex p])) as Hn.
      rewrite length_app in Hn. cbn [List.length] in Hn. lia.
Qed.

End AnySequence.

End MeshFacts.

(** X8.  Whatever the point sequence, every crosswalk mesh that is drawn
    has at least three vertices, all of them converted points of the
    sequence, and the fan over them as index array: three indices per
    triangle, [n - 2] triangles, every index that of a vertex of the
    mesh. *)
Theorem crosswalk_meshes_well_formed
  (Point : Type) (point_eqb : Point -> Point -> bool)
  (to_vertex : Point -> FVector) (points : list Point)
  (m : list FVector * list Z) :
  In m (crosswalk_meshes Point point_eqb to_vertex points) ->
  well_formed_mesh m
  /\ Forall (fun v => In v (map to_vertex points)) (fst m).
Proof.
  intro Hin. destruct points as [|first rest]; [destruct Hin|].
  cbn [crosswalk_meshes] in Hin.
  destruct (MeshFacts.loop_meshes Point point_eqb to_vertex
              (List.length rest) rest (le_n _) _ _ _ Hin) as [Hge [Hidx Hvs]].
  destruct m as [vertices indices]. cbn [fst snd] in *.
  destruct (MeshFacts.fan_indices_valid _ Hge) as [Hlen Hbound].
  split.
  - unfold well_formed_mesh. subst indices. repeat split; assumption.
  - eapply Forall_impl; [|exact Hvs].
    cbn. intros v [[<-|[]]|Hv]; [now left | now right].
Qed.

Lemma crosswalk_meshes_well_formed_witness :
  well_formed_mesh
    ([ crosswalk_vertex (mkLocation (F32.of_Z 1) F32.zero F32.zero);
       crosswalk_vertex (mkLocation (F32.of_Z 2) F32.zero F32.zero);
       crosswalk_vertex (mkLocation (F32.of_Z 2) (F32.of_Z 1) F32.zero);
       crosswalk_vertex (mkLocation (F32.of_Z 1) (F32.of_Z 1) F32.zero) ],
     [0; 1; 2; 0; 2; 3]).
Proof.
  refine (proj1 (crosswalk_meshes_well_formed Location Location_eqb
                   crosswalk_vertex
                   [ mkLocation (F32.of_Z 1) F32.zero F32.zero;
                     mkLocation (F32.of_Z 2) F32.zero F32.zero;
                     mkLocation (F32.of_Z 2) (F32.of_Z 1) F32.zero;
                     mkLocation (F32.of_Z 1) (F32.of_Z 1) F32.zero;
                     mkLocation (F32.of_Z 1) F32.zero F32.zero ]
                   _ _)).
  left. reflexivity.
Defined.

(** X9.  Every drawn crosswalk mesh uses up at least four points of the
    sequence (three vertices and the repeated first point): the number of
    meshes is at most a quarter of the number of points, and a sequence of
    fewer than four points, the empty one included, draws nothing. *)
Theorem crosswalk_meshes_count
  (Point : Type) (point_eqb : Point -> Point -> bool)
  (to_vertex : Point -> FVector) (points : list Point) :
  (4 * List.length (crosswalk_meshes Point point_eqb to_vertex points)
   <= List.length points)%nat
  /\ ((List.length points < 4)%nat ->
      crosswalk_meshes Point point_eqb to_vertex points = []).
Proof.
  assert (Hcount : (4 * List.length (crosswalk_meshes Point point_eqb to_vertex points)
                    <= List.length points)%nat).
  { destruct points as [|first rest]; [cbn; lia|].
    cbn [crosswalk_meshes].
    pose proof (MeshFacts.loop_count Point point_eqb to_vertex
                  (List.length rest) rest (le_n _) first [to_vertex first]) as H.
    cbn [List.length] in *. lia. }
  split; [exact Hcount|].
  intro Hshort.
  destruct (crosswalk_meshes Point point_eqb to_vertex points); [reflexivity|].
  cbn [List.length] in Hcount. lia.
Qed.

(* ------------------------------------------------------------------ *)
(** ** The dynamic pass and the two batches *)

Module PassFacts.

Lemma draw_tagged_length (cfg : CosmosRenderConfig) (mc : UMeshComponent)
      (owner : AActor) (bounds : FBoxSphereBounds) (box_extent : FVector) :
  (List.length (draw_tagged cfg mc owner bounds box_extent) <= 1)%nat.
Proof.
  unfold draw_tagged. destruct (TagOfTaggedComponent mc); cbn; lia.
Qed.

Lemma annotate_length (cfg : CosmosRenderConfig) (ignored : list nat)
      (registry : list FCarlaActor) (player_actor : option nat)
      (mc : UMeshComponent) :
  (List.length (annotate_component cfg ignored registry player_actor mc) <= 1)%nat.
Proof.
  unfold annotate_component.
  repeat match goal with
         | |- context [if ?b then _ else _] => destruct b
         | |- context [match Owner mc with _ => _ end] => destruct (Owner mc)
         | |- context [match Kind mc with _ => _ end] =>
             destruct (Kind mc) as [[?|]|[?|]|]
         end;
    try apply draw_tagged_length; cbn; lia.
Qed.

Lemma annotate_filtered (cfg : CosmosRenderConfig) (ignored : list nat)
      (registry : list FCarlaActor) (mc : UMeshComponent) :
  passes_filters ignored registry mc = false ->
  annotate_component cfg ignored registry (find_player_actor registry) mc = [].
Proof.
  unfold passes_filters, annotate_component.
  destruct (IsVisible mc); cbn [negb andb]; [|reflexivity].
  destruct (Owner mc) as [owner|]; [|reflexivity].
  destruct (match find_player_actor registry with
            | Some p => Nat.eqb (ActorPtr owner) p
            | None => false
            end); cbn [negb andb]; [reflexivity|].
  destruct (is_ignored_vehicle registry ignored owner); cbn [negb andb];
    [reflexivity|].
  destruct (F32.gtb (VecZ (ComponentLocation mc)) (F32.of_Z 10000));
    cbn [negb]; [reflexivity | discriminate].
Qed.

Lemma flat_map_filter {A B : Type} (f : A -> list B) (p : A -> bool)
      (l : list A) :
  (forall x, p x = false -> f x = []) ->
  flat_map f l = flat_map f (filter p l).
Proof.
  intro Hf. induction l as [|x l IH]; [reflexivity|].
  cbn [flat_map filter]. destruct (p x) eqn:Hp.
  - cbn [flat_map]. now rewrite IH.
  - now rewrite (Hf x Hp), IH.
Qed.

Lemma flat_map_length_le {A B : Type} (f : A -> list B) (l : list A) :
  (forall x, (List.length (f x) <= 1)%nat) ->
  (List.length (flat_map f l) <= List.length l)%nat.
Proof.
  intro Hf. induction l as [|x l IH]; [cbn; lia|].
  cbn [flat_map List.length]. rewrite length_app.
  specialize (Hf x). lia.
Qed.

Lemma stop_line_calls_none (cfg : CosmosRenderConfig)
      (lights : list ATrafficLightBase) :
  stop_line_calls cfg lights = None ->
  Exists (fun l => StopBoxCollider l = None) lights.
Proof.
  induction lights as [|l lights IH]; cbn [stop_line_calls]; [discriminate|].
  destruct (StopBoxCollider l) as [c|] eqn:Hc; [|intros _; now left].
  destruct (stop_line_calls cfg lights); [discriminate|].
  intros _. right. now apply IH.
Qed.

Section WithRotation.

Variable RotateVector : FQuat -> FVector -> FVector.

(** What a completed tick leaves in the dynamic batch, and what it leaves
    alone. *)
Lemma tick_dynamic (s s' : ACosmosControlSensor) (w : UWorld) :
  PostPhysTick RotateVector s w = Some s' ->
  DynamicLines s'
  = (if IsDedicatedServer w then [] else dynamic_calls s w)
  /\ RenderConfig s' = RenderConfig s
  /\ IgnoredVehicles s' = IgnoredVehicles s
  /\ exists added, PersistentLines s' = PersistentLines s ++ added.
Proof.
  destruct s as [stop route cross sten cfg ignored dyn pers].
  destruct w as [dedicated registry comps lights splines gm].
  unfold PostPhysTick, StopLinesBlock, RouteLinesBlock, CrosswalksBlock,
    StencilsBlock, Draw, dynamic_calls.
  cbn [added_persisted_stop_lines added_persisted_route_lines
       added_persisted_crosswalks added_persisted_stencils RenderConfig
       IgnoredVehicles DynamicLines PersistentLines set_dynamic
       set_persistent set_stop_lines set_route_lines set_crosswalks
       set_stencils IsDedicatedServer TrafficLights RoadSplines
       AuthGameMode ActorRegistry MeshComponents].
  destruct stop.
  - destruct dedicated, route, cross, sten, gm as [g|],
      (0 <? List.length splines)%nat;
      cbn; intro H; injection H as H; subst s'; cbn;
      (split; [reflexivity|]); (split; [reflexivity|]);
      (split; [reflexivity|]); eexists;
      rewrite <- ?app_assoc; try reflexivity;
      now rewrite app_nil_r.
  - destruct dedicated, route, cross, sten, gm as [g|],
      (0 <? List.length splines)%nat;
      cbn; (destruct (stop_line_calls cfg lights) as [calls|]; [|discriminate]);
      cbn; intro H; injection H as H; subst s'; cbn;
      (split; [reflexivity|]); (split; [reflexivity|]);
      (split; [reflexivity|]); eexists;
      rewrite <- ?app_assoc; try reflexivity;
      now rewrite app_nil_r.
Qed.

End WithRotation.

End PassFacts.

(** X10.  One traffic light without a box component is enough: when the
    stop lines have not been drawn yet and some traffic light of the world,
    wherever it stands among the others, has no box component, the
    stop-line block and with it the tick dereference the null collider,
    whatever else the world holds. *)
Theorem tick_fails_on_missing_collider
  (RotateVector : FQuat -> FVector -> FVector)
  (self : ACosmosControlSensor) (World : UWorld) :
  added_persisted_stop_lines self = false ->
  Exists (fun l => StopBoxCollider l = None) (TrafficLights World) ->
  StopLinesBlock self World = None
  /\ PostPhysTick RotateVector self World = None.
Proof.
  intros Hflag Hex. split.
  - unfold StopLinesBlock. rewrite Hflag.
    now rewrite (StopLineFacts.stop_line_calls_fault _ _ Hex).
  - unfold PostPhysTick, StopLinesBlock.
    rewrite TickFacts.Draw_stop_flag.
    cbn [set_dynamic added_persisted_stop_lines]. rewrite Hflag.
    now rewrite (StopLineFacts.stop_line_calls_fault _ _ Hex).
Qed.

Lemma tick_fails_on_missing_collider_witness :
  StopLinesBlock NewSensor
                 (with_traffic_lights
                    [example_light; example_light; example_bare_light;
                     example_light]
                    example_late_world) = None
  /\ PostPhysTick example_rotate NewSensor
                  (with_traffic_lights
                     [example_light; example_light; example_bare_light;
                      example_light]
                     example_late_world) = None.
Proof.
  refine (tick_fails_on_missing_collider example_rotate NewSensor
            (with_traffic_lights
               [example_light; example_light; example_bare_light; example_light]
               example_late_world) _ _).
  - reflexivity.
  - right. right. left. reflexivity.
Defined.

(** X11.  The dynamic batch is rebuilt by every tick: after a completed
    tick it holds the calls of this tick's mesh components and nothing of
    what it held before (on a dedicated server it is empty), while the
    configuration and the ignore list are untouched. *)
Theorem dynamic_batch_is_rebuilt
  (RotateVector : FQuat -> FVector -> FVector)
  (self : ACosmosControlSensor) (World : UWorld) :
  added_persisted_stop_lines self = true \/ colliders_present World ->
  exists s,
    PostPhysTick RotateVector self World = Some s
    /\ DynamicLines s
       = (if IsDedicatedServer World then []
          else flat_map (annotate_component
                           (RenderConfig self) (IgnoredVehicles self)
                           (ActorRegistry World)
                           (find_player_actor (ActorRegistry World)))
                        (MeshComponents World))
    /\ RenderConfig s = RenderConfig self
    /\ IgnoredVehicles s = IgnoredVehicles self.
Proof.
  intro Hok.
  destruct (TickFacts.tick_effect RotateVector self World Hok) as [s [Htick _]].
  exists s. split; [exact Htick|].
  destruct (PassFacts.tick_dynamic RotateVector self s World Htick)
    as [Hdyn [Hcfg [Hign _]]].
  repeat split; assumption.
Qed.

Lemma dynamic_batch_is_rebuilt_witness :
  exists s,
    PostPhysTick example_rotate
                 (mkSensor true true true true DefaultRenderConfig [] 
                           [SolidBox (vec_of_Z 0 0 0) (vec_of_Z 1 1 1)
                                     FQuat_Identity FColor_White] [])
                 (mkWorld false [] [example_pole 100] [] [] None) = Some s
    /\ DynamicLines s
       = [Capsule (vec_of_Z 0 0 300) (F32.of_Z 300) F32.tenth FQuat_Identity
                  (PolesColor DefaultRenderConfig) (F32.of_Z 8)].
Proof.
  destruct (dynamic_batch_is_rebuilt example_rotate
              (mkSensor true true true true DefaultRenderConfig []
                        [SolidBox (vec_of_Z 0 0 0) (vec_of_Z 1 1 1)
                                  FQuat_Identity FColor_White] [])
              (mkWorld false [] [example_pole 100] [] [] None)
              (or_introl eq_refl)) as [s [Htick [Hdyn _]]].
  exists s. split; [exact Htick | exact Hdyn].
Defined.

(** X12.  Over any run of ticks that completes, the persistent batch only
    grows (what it held stays, in place, at its head) and the configuration
    and the ignore list do not change. *)
Theorem persistent_batch_only_grows
  (RotateVector : FQuat -> FVector -> FVector)
  (worlds : list UWorld) (self s : ACosmosControlSensor) :
  run_ticks RotateVector self worlds = Some s ->
  (exists added, PersistentLines s = PersistentLines self ++ added)
  /\ RenderConfig s = RenderConfig self
  /\ IgnoredVehicles s = IgnoredVehicles self.
Proof.
  revert self. induction worlds as [|w worlds IH]; intros self Hrun;
    cbn [run_ticks] in Hrun.
  - injection Hrun as <-. split; [exists []; now rewrite app_nil_r | auto].
  - destruct (PostPhysTick RotateVector self w) as [s1|] eqn:Htick;
      [|discriminate].
    destruct (PassFacts.tick_dynamic RotateVector self s1 w Htick)
      as [_ [Hcfg [Hign [added1 Hp1]]]].
    destruct (IH s1 Hrun) as [[added Hp] [Hcfg' Hign']].
    split; [|split; congruence].
    exists (added1 ++ added). rewrite Hp, Hp1. now rewrite app_assoc.
Qed.

Lemma persistent_batch_only_grows_witness :
  (exists added,
      PersistentLines example_grown_sensor
      = PersistentLines example_drawn_sensor ++ added)
  /\ PersistentLines example_drawn_sensor
     = [stop_line DefaultRenderConfig example_collider]
  /\ List.length (PersistentLines example_grown_sensor) = 4%nat.
Proof.
  split; [|split; reflexivity].
  refine (proj1 (persistent_batch_only_grows example_rotate
                   [example_empty_world; example_late_world]
                   example_drawn_sensor example_grown_sensor _)).
  vm_compute. reflexivity.
Defined.

(** X13.  On a dedicated server nothing is ever drawn: over any run of
    ticks in dedicated-server worlds the persistent batch stays as it was,
    and after the first tick the dynamic batch is empty. *)
Theorem dedicated_server_draws_nothing
  (RotateVector : FQuat -> FVector -> FVector)
  (worlds : list UWorld) (self s : ACosmosControlSensor) :
  Forall (fun w => IsDedicatedServer w = true) worlds ->
  run_ticks RotateVector self worlds = Some s ->
  PersistentLines s = PersistentLines self
  /\ (worlds <> [] -> DynamicLines s = []).
Proof.
  intro Hded. revert self.
  induction Hded as [|w worlds Hw _ IH]; intros self Hrun;
    cbn [run_ticks] in Hrun.
  - injection Hrun as <-. split; [reflexivity | congruence].
  - destruct (PostPhysTick RotateVector self w) as [s1|] eqn:Htick;
      [|discriminate].
    pose proof (TickFacts.tick_completes_inv RotateVector _ _ _ Htick) as Hok.
    destruct (TickFacts.tick_effect RotateVector self w Hok)
      as [s1' [Htick' [_ [_ [_ [_ [_ Hpers]]]]]]].
    rewrite Htick in Htick'. injection Htick' as <-.
    rewrite Hw, app_nil_r in Hpers.
    destruct (PassFacts.tick_dynamic RotateVector self s1 w Htick) as [Hdyn _].
    rewrite Hw in Hdyn.
    destruct (IH s1 Hrun) as [Hp Hd].
    split; [congruence|]. intros _.
    destruct worlds as [|w2 worlds2].
    + cbn [run_ticks] in Hrun. injection Hrun as <-. exact Hdyn.
    + apply Hd. discriminate.
Qed.

Lemma dedicated_server_draws_nothing_witness :
  PersistentLines (mkSensor true true true true DefaultRenderConfig [] [] [])
  = PersistentLines NewSensor.
Proof.
  refine (proj1 (dedicated_server_draws_nothing example_rotate
                   [mkWorld true [] [example_pole 100] [example_light]
                            (RoadSplines example_late_world)
                            (AuthGameMode example_late_world)]
                   NewSensor
                   (mkSensor true true true true DefaultRenderConfig [] [] [])
                   _ _)).
  - repeat constructor.
  - reflexivity.
Defined.

(** X14.  The dynamic pass draws at most one primitive per mesh component,
    and none for a component that is invisible, has no owner, is owned by
    the player actor, belongs to an ignored vehicle or lies higher than
    10000 units: the calls of a world are those of the world without these
    components. *)
Theorem dynamic_pass_filters (self : ACosmosControlSensor) (World : UWorld) :
  dynamic_calls self World
  = dynamic_calls self
      (with_mesh_components
         (filter (passes_filters (IgnoredVehicles self) (ActorRegistry World))
                 (MeshComponents World))
         World)
  /\ (List.length (dynamic_calls self World)
      <= List.length (filter (passes_filters (IgnoredVehicles self)
                                             (ActorRegistry World))
                             (MeshComponents World)))%nat
  /\ (List.length (dynamic_calls self World)
      <= List.length (MeshComponents World))%nat.
Proof.
  assert (Heq : dynamic_calls self World
                = dynamic_calls self
                    (with_mesh_components
                       (filter (passes_filters (IgnoredVehicles self)
                                               (ActorRegistry World))
                               (MeshComponents World))
                       World)).
  { unfold dynamic_calls, with_mesh_components.
    cbn [ActorRegistry MeshComponents].
    apply PassFacts.flat_map_filter.
    intros mc Hmc. now apply PassFacts.annotate_filtered. }
  split; [exact Heq|]. split.
  - rewrite Heq. unfold dynamic_calls, with_mesh_components.
    cbn [ActorRegistry MeshComponents].
    apply PassFacts.flat_map_length_le. intro mc. apply PassFacts.annotate_length.
  - unfold dynamic_calls.
    apply PassFacts.flat_map_length_le. intro mc. apply PassFacts.annotate_length.
Qed.

(** X15.  What is drawn for a component follows from its tag alone: a solid
    box at the component's own location for traffic lights and signs, a
    wire box with the vehicle-box thickness for cars, buses, motorcycles,
    trains, trucks, bicycles and pedestrians, a capsule for poles, nothing
    for any other tag; boxes are turned like the owning actor, and the
    colour is always the one [GetColorByTag] gives the tag. *)
Theorem primitive_follows_tag
  (cfg : CosmosRenderConfig) (ignored : list nat) (registry : list FCarlaActor)
  (player_actor : option nat) (mc : UMeshComponent) (c : DrawCall) :
  In c (annotate_component cfg ignored registry player_actor mc) ->
  exists owner,
    Owner mc = Some owner
    /\ match TagOfTaggedComponent mc with
       | TrafficLight | TrafficSigns =>
           exists extent,
             c = SolidBox (ComponentLocation mc) extent (ActorQuat owner)
                          (GetColorByTag cfg (TagOfTaggedComponent mc))
       | Car | Bus | Motorcycle | Train | Truck | Bicycle | Pedestrians =>
           exists origin extent,
             c = Box origin extent (ActorQuat owner)
                     (GetColorByTag cfg (TagOfTaggedComponent mc))
                     (VehicleBoxThickness cfg)
       | Poles =>
           exists center half_height,
             c = Capsule center half_height F32.tenth FQuat_Identity
                         (GetColorByTag cfg Poles) (PoleThickness cfg)
       | OtherLabel _ => False
       end.
Proof.
  intro Hin. unfold annotate_component in Hin.
  destruct (negb (IsVisible mc)); [destruct Hin|].
  destruct (Owner mc) as [owner|]; [|destruct Hin].
  exists owner. split; [reflexivity|].
  destruct (match player_actor with
            | Some p => Nat.eqb (ActorPtr owner) p
            | None => false
            end); [destruct Hin|].
  destruct (is_ignored_vehicle registry ignored owner); [destruct Hin|].
  destruct (F32.gtb (VecZ (ComponentLocation mc)) (F32.of_Z 10000));
    [destruct Hin|].
  assert (Hdraw : forall bounds box_extent,
            In c (draw_tagged cfg mc owner bounds box_extent) ->
            match TagOfTaggedComponent mc with
            | TrafficLight | TrafficSigns =>
                exists extent,
                  c = SolidBox (ComponentLocation mc) extent (ActorQuat owner)
                               (GetColorByTag cfg (TagOfTaggedComponent mc))
            | Car | Bus | Motorcycle | Train | Truck | Bicycle | Pedestrians =>
                exists origin extent,
                  c = Box origin extent (ActorQuat owner)
                          (GetColorByTag cfg (TagOfTaggedComponent mc))
                          (VehicleBoxThickness cfg)
            | Poles =>
                exists center half_height,
                  c = Capsule center half_height F32.tenth FQuat_Identity
                              (GetColorByTag cfg Poles) (PoleThickness cfg)
            | OtherLabel _ => False
            end).
  { intros bounds box_extent. unfold draw_tagged, pole_capsule.
    destruct (TagOfTaggedComponent mc); cbn [In]; intro Hc;
      try contradiction; destruct Hc as [<-|[]]; eauto. }
  destruct (Kind mc) as [[mesh|]|[mesh|]|]; try (now apply Hdraw in Hin).
  - destruct (negb (FString_Contains (ComponentName mc) "mesh")
              || FString_Contains (ComponentName mc) "road")%bool;
      [destruct Hin | now apply Hdraw in Hin].
  - destruct Hin.
Qed.

Lemma primitive_follows_tag_witness :
  exists owner,
    Owner (example_pole 100) = Some owner
    /\ exists center half_height,
         Capsule (vec_of_Z 0 0 300) (F32.of_Z 300) F32.tenth FQuat_Identity
                 (PolesColor DefaultRenderConfig) (F32.of_Z 8)
         = Capsule center half_height F32.tenth FQuat_Identity
                   (GetColorByTag DefaultRenderConfig Poles)
                   (PoleThickness DefaultRenderConfig).
Proof.
  refine (primitive_follows_tag DefaultRenderConfig [] [] None
                                (example_pole 100) _ _).
  left. reflexivity.
Defined.

(* ------------------------------------------------------------------ *)
(** ** Loading the configuration *)

Module LoadFacts.

Section WithParser.

Variable parse : string -> double.

Lemma LoadColor_cases (Colors : FJsonObject) (Key : string) (Color : FColor) :
  LoadColor parse Colors Key Color = Color
  \/ exists c0 c1 c2,
       TryGetArrayField Colors Key = Some [c0; c1; c2]
       /\ LoadColor parse Colors Key Color
          = mkColor (F64.to_uint8 (AsNumber parse c0))
                    (F64.to_uint8 (AsNumber parse c1))
                    (F64.to_uint8 (AsNumber parse c2)) 255.
Proof.
  unfold LoadColor.
  destruct (TryGetArrayField Colors Key) as [[|c0 [|c1 [|c2 [|c3 l]]]]|];
    auto.
  right. now exists c0, c1, c2.
Qed.

Lemma LoadColor_idempotent (Colors : FJsonObject) (Key : string) (Color : FColor) :
  LoadColor parse Colors Key (LoadColor parse Colors Key Color)
  = LoadColor parse Colors Key Color.
Proof.
  unfold LoadColor.
  now destruct (TryGetArrayField Colors Key) as [[|c0 [|c1 [|c2 [|c3 l]]]]|].
Qed.

Lemma LoadColor_opaque (Colors : FJsonObject) (Key : string) (Color : FColor) :
  ColorA Color = 255 -> ColorA (LoadColor parse Colors Key Color) = 255.
Proof.
  intro Ha. destruct (LoadColor_cases Colors Key Color) as [-> | [c0 [c1 [c2 [_ ->]]]]];
    [assumption | reflexivity].
Qed.

End WithParser.

End LoadFacts.

(** X16.  The wait-line colour is not configurable: no configuration file,
    whatever it holds, changes it. *)
Theorem wait_lines_color_not_configurable
  (parse : string -> double) (cfg : CosmosRenderConfig) (file : ConfigFile) :
  WaitLinesColor (LoadConfigFromFile parse cfg file) = WaitLinesColor cfg.
Proof.
  unfold LoadConfigFromFile.
  destruct file as [| |[obj|]]; try reflexivity.
  destruct (GetObjectField obj "CosmosControlVisualization") as [Config|];
    [|reflexivity].
  destruct (GetObjectField Config "LineThickness") as [Thickness|],
           (GetObjectField Config "Colors") as [Colors|];
    reflexivity.
Qed.

(** X17.  Loading is idempotent: loading the same file a second time
    changes nothing. *)
Theorem load_is_idempotent
  (parse : string -> double) (cfg : CosmosRenderConfig) (file : ConfigFile) :
  LoadConfigFromFile parse (LoadConfigFromFile parse cfg file) file
  = LoadConfigFromFile parse cfg file.
Proof.
  unfold LoadConfigFromFile.
  destruct file as [| |[obj|]]; try reflexivity.
  destruct (GetObjectField obj "CosmosControlVisualization") as [Config|];
    [|reflexivity].
  destruct (GetObjectField Config "LineThickness") as [Thickness|],
           (GetObjectField Config "Colors") as [Colors|];
    unfold LoadColors, LoadThickness; cbn;
    rewrite ?LoadFacts.LoadColor_idempotent; reflexivity.
Qed.

(** X18.  A file that parses replaces all four thicknesses by what it
    holds, whatever they were before; a thickness whose key is missing from
    the [LineThickness] object is replaced by 0.0, and a file without a
    [CosmosControlVisualization] object, the empty object included, sets
    all four to 0.0. *)
Theorem parsed_file_overwrites_thicknesses
  (parse : string -> double) (cfg cfg' : CosmosRenderConfig) (obj : FJsonObject) :
  thicknesses_of (LoadConfigFromFile parse cfg (FileText (Some obj)))
  = thicknesses_of (LoadConfigFromFile parse cfg' (FileText (Some obj)))
  /\ (FindField obj "CosmosControlVisualization" = None ->
      thicknesses_of (LoadConfigFromFile parse cfg (FileText (Some obj)))
      = [F32.zero; F32.zero; F32.zero; F32.zero])
  /\ (forall Config Thickness,
        FindField obj "CosmosControlVisualization" = Some (JsonObject Config) ->
        FindField Config "LineThickness" = Some (JsonObject Thickness) ->
        thicknesses_of (LoadConfigFromFile parse cfg (FileText (Some obj)))
        = map (fun key => match FindField Thickness key with
                          | Some v => F64.to_float (AsNumber parse v)
                          | None => F32.zero
                          end)
              ["road_lines"; "vehicle_boxes"; "poles"; "stop_lines"]%string).
Proof.
  unfold LoadConfigFromFile, GetObjectField.
  split; [|split].
  - destruct (FindField obj "CosmosControlVisualization") as [[]|];
      try reflexivity;
      match goal with
      | |- context [FindField ?C "LineThickness"] =>
          destruct (FindField C "LineThickness") as [[]|];
          destruct (FindField C "Colors") as [[]|]; reflexivity
      end.
  - intros ->. reflexivity.
  - intros Config Thickness -> Hth. rewrite Hth.
    unfold thicknesses_of.
    destruct (FindField Config "Colors") as [[]|];
      cbn [LoadColors LoadThickness RoadLineThickness VehicleBoxThickness
           PoleThickness StopLineThickness map];
      unfold GetNumberField;
      destruct (FindField Thickness "road_lines"),
               (FindField Thickness "vehicle_boxes"),
               (FindField Thickness "poles"),
               (FindField Thickness "stop_lines"); reflexivity.
Qed.

(** X19.  Loading keeps the colours opaque: a colour is either left as it
    was or replaced by one with alpha 255, so a configuration whose twelve
    colours have alpha 255 still has after any load. *)
Theorem load_keeps_colors_opaque
  (parse : string -> double) (cfg : CosmosRenderConfig) (file : ConfigFile) :
  all_opaque cfg -> all_opaque (LoadConfigFromFile parse cfg file).
Proof.
  unfold all_opaque, colors_of. intro Hop.
  repeat match goal with
         | H : Forall _ (_ :: _) |- _ =>
             let Hh := fresh "Hc" in
             inversion H as [|? ? Hh ?]; subst; clear H
         end.
  unfold LoadConfigFromFile.
  destruct file as [| |[obj|]]; try (repeat constructor; assumption).
  destruct (GetObjectField obj "CosmosControlVisualization") as [Config|];
    [|repeat constructor; assumption].
  destruct (GetObjectField Config "LineThickness") as [Thickness|],
           (GetObjectField Config "Colors") as [Colors|];
    cbn; repeat constructor;
    try assumption; now apply LoadFacts.LoadColor_opaque.
Qed.

Lemma load_keeps_colors_opaque_witness :
  all_opaque
    (LoadConfigFromFile (fun _ => F64.zero) DefaultRenderConfig
       (FileText (Some [("CosmosControlVisualization"%string,
                         JsonObject [("Colors"%string,
                                      JsonObject [("cars"%string,
                                                   JsonArray [JsonNumber (F64.of_Z 10);
                                                              JsonNumber (F64.of_Z 20);
                                                              JsonNumber (F64.of_Z 30)])])])]))).
Proof.
  refine (load_keeps_colors_opaque _ _ _ _).
  repeat constructor.
Defined.

(* ------------------------------------------------------------------ *)
(** ** Stencils and the drawing primitives *)

Module PrimitiveFacts.

Section WithTrig.

Variable Cos : float -> float.
Variable Sin : float -> float.

Lemma circle_lines_dedicated (Base X Y : FVector) (Radius AngleDelta : float)
      (Color : FColor) (depth : Z) (thickness : float) (count : nat) :
  forall SideIndex LastVertex,
    circle_lines Cos Sin true Base X Y Radius AngleDelta Color depth thickness
                 count SideIndex LastVertex = [].
Proof.
  induction count as [|count IH]; intros SideIndex LastVertex;
    [reflexivity|].
  cbn [circle_lines DrawDebugLine app]. apply IH.
Qed.

Lemma circle_lines_chain (Base X Y : FVector) (Radius AngleDelta : float)
      (Color : FColor) (depth : Z) (thickness : float) (count : nat) :
  forall SideIndex LastVertex,
    List.length (circle_lines Cos Sin false Base X Y Radius AngleDelta Color
                              depth thickness count SideIndex LastVertex)
    = count
    /\ chained (linear_of Color) depth thickness LastVertex
               (circle_lines Cos Sin false Base X Y Radius AngleDelta Color
                             depth thickness count SideIndex LastVertex).
Proof.
  induction count as [|count IH]; intros SideIndex LastVertex.
  - split; [reflexivity | exact I].
  - cbn [circle_lines DrawDebugLine app List.length chained].
    destruct (IH (SideIndex + 1)
                 (circle_vertex Cos Sin Base X Y Radius AngleDelta SideIndex))
      as [Hlen Hchain].
    split; [now rewrite Hlen|].
    repeat split. exact Hchain.
Qed.

End WithTrig.

Lemma chained_lines (Color : FColor) (depth : Z) (thickness : float)
      (calls : list BatchCall) :
  forall start,
    chained (linear_of Color) depth thickness start calls ->
    Forall (fun call => exists a b,
                call = BatchDrawLine a b (linear_of Color) depth thickness
                                     F32.zero) calls.
Proof.
  induction calls as [|call calls IH]; intros start Hc; [constructor|].
  destruct call; try contradiction.
  destruct Hc as [-> [-> [-> [-> [-> Hc]]]]].
  constructor; [eauto | now apply (IH End)].
Qed.

Lemma bytes_spec (b : Z) : 0 <= b <= 255 -> In b bytes.
Proof.
  intro Hb. unfold bytes.
  replace b with (Z.of_nat (Z.to_nat b)) by lia.
  apply in_map. apply in_seq. lia.
Qed.

Lemma channels_bounded :
  forallb (fun b => SFleb F32.zero (linear_channel b)
                    && SFleb (linear_channel b) (F32.of_Z 1))%bool bytes = true.
Proof. vm_compute. reflexivity. Qed.

Lemma channels_increasing :
  forallb (fun a =>
             forallb (fun b => if a <? b
                               then SFltb (linear_channel a) (linear_channel b)
                               else true) bytes) bytes = true.
Proof. vm_compute. reflexivity. Qed.

End PrimitiveFacts.

(** X20.  [DrawCircle] draws [NumSides] single lines and [DrawHalfCircle]
    half as many (rounded toward zero), none when [NumSides] is not
    positive; the lines form one chain that starts at the base plus the
    radius along the first axis, each line beginning where the one before
    ended, all with the same colour, depth priority and thickness.  On a
    dedicated server neither draws anything. *)
Theorem circles_are_chains
  (Cos Sin : float -> float) (Base X Y : FVector) (Color : FColor)
  (Radius : float) (NumSides depth : Z) (thickness : float) :
  (List.length (DrawCircle Cos Sin false Base X Y Color Radius NumSides depth
                           thickness) = Z.to_nat NumSides
   /\ chained (linear_of Color) depth thickness
              (vec_add Base (vec_scale Radius X))
              (DrawCircle Cos Sin false Base X Y Color Radius NumSides depth
                          thickness))
  /\ (List.length (DrawHalfCircle Cos Sin false Base X Y Color Radius NumSides
                                  depth thickness) = Z.to_nat (Z.quot NumSides 2)
      /\ chained (linear_of Color) depth thickness
                 (vec_add Base (vec_scale Radius X))
                 (DrawHalfCircle Cos Sin false Base X Y Color Radius NumSides
                                 depth thickness))
  /\ (NumSides <= 0 ->
      DrawCircle Cos Sin false Base X Y Color Radius NumSides depth thickness = []
      /\ DrawHalfCircle Cos Sin false Base X Y Color Radius NumSides depth
                        thickness = [])
  /\ DrawCircle Cos Sin true Base X Y Color Radius NumSides depth thickness = []
  /\ DrawHalfCircle Cos Sin true Base X Y Color Radius NumSides depth thickness
     = [].
Proof.
  unfold DrawCircle, DrawHalfCircle.
  split; [apply PrimitiveFacts.circle_lines_chain|].
  split; [apply PrimitiveFacts.circle_lines_chain|].
  split.
  - intro Hn.
    assert (H1 : Z.to_nat NumSides = O) by lia.
    assert (H2 : Z.to_nat (Z.quot NumSides 2) = O).
    { assert (Hq : Z.quot NumSides 2 <= 0).
      { replace NumSides with (- - NumSides) by lia.
        rewrite Z.quot_opp_l by lia.
        pose proof (Z.quot_pos (- NumSides) 2 ltac:(lia) ltac:(lia)). lia. }
      lia. }
    now rewrite H1, H2.
  - split; apply PrimitiveFacts.circle_lines_dedicated.
Qed.

(** X21.  [DrawDebugCapsule] draws 68 single lines (two circles of 16, four
    half circles of 8 and four connecting lines), whatever the capsule, and
    nothing on a dedicated server. *)
Theorem capsule_line_count
  (RotationAxes : FQuat -> FVector * FVector * FVector)
  (Cos Sin : float -> float) (Center : FVector) (HalfHeight Radius : float)
  (Rotation : FQuat) (Color : FColor) (depth : Z) (thickness : float) :
  List.length (DrawDebugCapsule RotationAxes Cos Sin false Center HalfHeight
                                Radius Rotation Color depth thickness) = 68%nat
  /\ Forall (fun call => exists a b,
                 call = BatchDrawLine a b (linear_of Color) depth thickness
                                      F32.zero)
            (DrawDebugCapsule RotationAxes Cos Sin false Center HalfHeight
                              Radius Rotation Color depth thickness)
  /\ DrawDebugCapsule RotationAxes Cos Sin true Center HalfHeight Radius
                      Rotation Color depth thickness = [].
Proof.
  split; [|split; [|reflexivity]].
  - unfold DrawDebugCapsule, DrawCircle, DrawHalfCircle, DrawDebugLine.
    destruct (RotationAxes Rotation) as [[XAxis YAxis] ZAxis].
    rewrite !length_app.
    repeat rewrite (fun b x y r a c d t n i l =>
                      proj1 (PrimitiveFacts.circle_lines_chain
                               Cos Sin b x y r a c d t n i l)).
    reflexivity.
  - unfold DrawDebugCapsule, DrawCircle, DrawHalfCircle.
    destruct (RotationAxes Rotation) as [[XAxis YAxis] ZAxis].
    repeat (apply Forall_app; split);
      try (eapply PrimitiveFacts.chained_lines;
           apply PrimitiveFacts.circle_lines_chain);
      repeat constructor; eauto.
Qed.

(** X22.  [DrawDebugBox] hands the batch one array of twelve lines, the
    wire frame of the box: each line joins two corners that differ in the
    sign of exactly one extent, no edge is drawn twice, and every line has
    the given colour, thickness and depth priority and life time zero.  On
    a dedicated server it draws nothing. *)
Theorem box_is_wire_frame
  (TransformPosition : FQuat -> FVector -> FVector)
  (Center Box : FVector) (Rotation : FQuat) (Color : FColor) (depth : Z)
  (thickness : float) :
  (exists lines,
      DrawDebugBox TransformPosition false Center Box Rotation Color depth
                   thickness = [BatchDrawLines lines]
      /\ List.length lines = 12%nat
      /\ lines
         = map (fun edge =>
                  mkBatchedLine
                    (vec_add Center
                             (TransformPosition Rotation (box_corner Box (fst edge))))
                    (vec_add Center
                             (TransformPosition Rotation (box_corner Box (snd edge))))
                    Color F32.zero thickness depth)
               box_edges)
  /\ forallb (fun edge => adjacent (fst edge) (snd edge)) box_edges = true
  /\ distinct_edges box_edges = true
  /\ DrawDebugBox TransformPosition true Center Box Rotation Color depth
                  thickness = [].
Proof.
  split; [|repeat split; reflexivity].
  eexists. split; [reflexivity|]. split; [reflexivity|].
  apply map_ext. intros [a b]. reflexivity.
Qed.

(** X23.  The linear colour [DrawDebugLine] hands to the batch has every
    channel between 0 and 1 and alpha 1: a byte 0 gives exactly 0, a byte
    255 exactly 1, and a larger byte gives a strictly larger channel. *)
Theorem line_colour_is_normalised
  (LineStart LineEnd : FVector) (Color : FColor) (depth : Z) (thickness : float)
  (a b : Z) :
  0 <= ColorR Color <= 255 -> 0 <= ColorG Color <= 255 ->
  0 <= ColorB Color <= 255 ->
  0 <= a < b -> b <= 255 ->
  DrawDebugLine false LineStart LineEnd Color depth thickness
  = [BatchDrawLine LineStart LineEnd (linear_of Color) depth thickness F32.zero]
  /\ Forall (fun ch => SFleb F32.zero ch = true /\ SFleb ch (F32.of_Z 1) = true)
            [ LinearR (linear_of Color); LinearG (linear_of Color);
              LinearB (linear_of Color); LinearA (linear_of Color) ]
  /\ linear_channel 0 = F32.zero
  /\ linear_channel 255 = F32.of_Z 1
  /\ SFltb (linear_channel a) (linear_channel b) = true.
Proof.
  intros HR HG HB Hab Hb.
  pose proof PrimitiveFacts.channels_bounded as Hbound.
  rewrite forallb_forall in Hbound.
  assert (Hch : forall byte, 0 <= byte <= 255 ->
            SFleb F32.zero (linear_channel byte) = true
            /\ SFleb (linear_channel byte) (F32.of_Z 1) = true).
  { intros byte Hbyte.
    specialize (Hbound byte (PrimitiveFacts.bytes_spec byte Hbyte)).
    now apply andb_true_iff in Hbound. }
  split; [reflexivity|]. split.
  - cbn [linear_of LinearR LinearG LinearB LinearA].
    repeat constructor; try (now apply Hch); reflexivity.
  - split; [reflexivity|]. split; [reflexivity|].
    pose proof PrimitiveFacts.channels_increasing as Hinc.
    rewrite forallb_forall in Hinc.
    specialize (Hinc a (PrimitiveFacts.bytes_spec a ltac:(lia))).
    rewrite forallb_forall in Hinc.
    specialize (Hinc b (PrimitiveFacts.bytes_spec b ltac:(lia))).
    destruct (Z.ltb_spec a b); [exact Hinc | lia].
Qed.

Lemma line_colour_is_normalised_witness :
  SFltb (linear_channel 63) (linear_channel 185) = true.
Proof.
  refine (proj2 (proj2 (proj2 (proj2
           (line_colour_is_normalised (vec_of_Z 0 0 0) (vec_of_Z 1 0 0)
              (WaitLinesColor DefaultRenderConfig) 0 (F32.of_Z 8) 63 185
              _ _ _ _ _))))); cbn; lia.
Defined.

(** X24.  The stencil pass steps over the null entries of the stencil table
    and draws one mesh for each of the others, in the road-marking colour:
    a quadrilateral of four vertices cut into the two triangles (0,1,2) and
    (0,2,3), so every index is that of a vertex. *)
Theorem stencil_quads
  (RotateVector : FQuat -> FVector -> FVector) (cfg : CosmosRenderConfig)
  (road_stencils : list (option Stencil)) :
  List.length (stencil_calls RotateVector cfg road_stencils)
  = List.length (filter is_stencil road_stencils)
  /\ Forall (fun call =>
               exists vertices,
                 call = Mesh vertices [0; 1; 2; 0; 2; 3] (RoadMarkingsColor cfg)
                 /\ List.length vertices = 4%nat
                 /\ triangles [0; 1; 2; 0; 2; 3] = [(0, 1, 2); (0, 2, 3)])
            (stencil_calls RotateVector cfg road_stencils).
Proof.
  induction road_stencils as [|[st|] rest [IHlen IHall]].
  - split; [reflexivity | constructor].
  - cbn [stencil_calls flat_map filter is_stencil app List.length].
    split; [f_equal; exact IHlen|].
    constructor; [|exact IHall].
    eexists. split; [reflexivity|]. split; reflexivity.
  - exact (conj IHlen IHall).
Qed.

Lemma crosswalk_meshes_count_witness :
  crosswalk_meshes Location Location_eqb crosswalk_vertex
    [ mkLocation (F32.of_Z 1) F32.zero F32.zero;
      mkLocation (F32.of_Z 2) F32.zero F32.zero;
      mkLocation (F32.of_Z 1) F32.zero F32.zero ] = [].
Proof.
  refine (proj2 (crosswalk_meshes_count Location Location_eqb crosswalk_vertex _)
                _).
  cbn. lia.
Defined.

Lemma parsed_file_overwrites_thicknesses_witness :
  thicknesses_of (LoadConfigFromFile (fun _ => F64.zero) DefaultRenderConfig
                                     (FileText (Some [])))
  = [F32.zero; F32.zero; F32.zero; F32.zero].
Proof.
  refine (proj1 (proj2 (parsed_file_overwrites_thicknesses
                          (fun _ => F64.zero) DefaultRenderConfig
                          DefaultRenderConfig []))
                _).
  reflexivity.
Defined.

Lemma circles_are_chains_witness :
  DrawCircle (fun a => a) (fun a => a) false (vec_of_Z 0 0 0) (vec_of_Z 1 0 0)
             (vec_of_Z 0 1 0) FColor_White F32.tenth 0 0 (F32.of_Z 8) = []
  /\ DrawHalfCircle (fun a => a) (fun a => a) false (vec_of_Z 0 0 0)
                    (vec_of_Z 1 0 0) (vec_of_Z 0 1 0) FColor_White F32.tenth 0 0
                    (F32.of_Z 8) = [].
Proof.
  refine (proj1 (proj2 (proj2 (circles_are_chains _ _ _ _ _ _ _ 0 _ _))) _).
  lia.
Defined.
